(** * Customer service (MS1): validation, controller and gateway

    A shallow embedding of the TypeScript sources
      - src/validators/customerValidator.ts   (the Joi schemas, validateRequest,
                                               validateParams, validateQuery)
      - src/models/Customer.ts                (the Mongoose schema, its setters,
                                               defaults and validators)
      - src/middleware/errorHandler.ts        (AppError, sendSuccess,
                                               sendPaginatedResponse,
                                               globalErrorHandler and its
                                               helpers, notFoundHandler)
      - src/middleware/security.ts            (validateContentType)
      - src/services/externalServices.ts      (ExternalServicesClient)
      - src/controllers/CustomerController.ts (the request handlers)
      - src/routes/customerRoutes.ts          (middlewares in front of handlers)

    Conventions.  JavaScript strings are [string]s over ASCII; integer
    valued JavaScript numbers are [Z]; a [Date] is seen through its
    local calendar fields (the process runs in a fixed-offset time zone);
    a plain JavaScript object is an association list read with
    first-binding-wins lookup; [undefined] is [None].  The collection is
    the list of its documents in scan order; an awaited request to a
    collaborator is given by how it settled.  What the validation
    library takes from its own runtime (the address check, the reading
    of dates and numbers from texts), the database's pattern matcher
    and its verdict on a pattern, and the update calls of the library
    whose outcome the handlers only pass on are parameters. *)

From Stdlib Require Import ZArith List String Ascii Bool Lia Permutation Sorted DecimalString.
Import ListNotations.
Local Open Scope string_scope.
Local Open Scope list_scope.
Local Open Scope Z_scope.

(* ===================================================================== *)
(** ** JavaScript strings *)
(* ===================================================================== *)

Module JsString.

(** White space as [String.prototype.trim] and the class [\s] see it (ASCII part). *)
Definition isSpace (c : ascii) : bool :=
  let n := nat_of_ascii c in
  ((9 <=? n) && (n <=? 13))%nat || (n =? 32)%nat.

Definition isDigit (c : ascii) : bool :=
  let n := nat_of_ascii c in ((48 <=? n) && (n <=? 57))%nat.

Definition isUpper (c : ascii) : bool :=
  let n := nat_of_ascii c in ((65 <=? n) && (n <=? 90))%nat.

Definition isLower (c : ascii) : bool :=
  let n := nat_of_ascii c in ((97 <=? n) && (n <=? 122))%nat.

(** The class [\w]. *)
Definition isWord (c : ascii) : bool :=
  isDigit c || isUpper c || isLower c || (nat_of_ascii c =? 95)%nat.

Fixpoint trimStart (s : string) : string :=
  match s with
  | String c r => if isSpace c then trimStart r else s
  | EmptyString => EmptyString
  end.

(** [trimEnd] keeps a character when something that is no white space follows. *)
Fixpoint trimEnd (s : string) : string :=
  match s with
  | EmptyString => EmptyString
  | String c r =>
      match trimEnd r with
      | EmptyString => if isSpace c then EmptyString else String c EmptyString
      | r' => String c r'
      end
  end.

Definition trim (s : string) : string := trimEnd (trimStart s).

Definition lowerChar (c : ascii) : ascii :=
  if isUpper c then ascii_of_nat (nat_of_ascii c + 32) else c.

Fixpoint toLowerCase (s : string) : string :=
  match s with
  | EmptyString => EmptyString
  | String c r => String (lowerChar c) (toLowerCase r)
  end.

Definition len (s : string) : Z := Z.of_nat (String.length s).

(** [haystack.includes(needle)]. *)
Fixpoint includes (haystack needle : string) : bool :=
  String.prefix needle haystack
  || match haystack with
     | EmptyString => false
     | String _ r => includes r needle
     end.

(** Reading a decimal integer literal: an optional sign, then digits only. *)
Fixpoint digits (acc : Z) (s : string) : option Z :=
  match s with
  | EmptyString => Some acc
  | String c r =>
      if isDigit c
      then digits (10 * acc + Z.of_nat (nat_of_ascii c - 48)) r
      else None
  end.

Definition parseInteger (s : string) : option Z :=
  match trim s with
  | EmptyString => None
  | String "-" (String c r) => option_map Z.opp (digits 0 (String c r))
  | String "+" (String c r) => digits 0 (String c r)
  | t => digits 0 t
  end.

End JsString.

(* ===================================================================== *)
(** ** Regular expressions (the literals of the sources) *)
(* ===================================================================== *)

Module Regex.

(** What a bracket expression lists; classes are data, so that
    expressions can be compared. *)
Inductive atom : Type :=
| Lit (c : ascii)        (* one character *)
| Word                   (* \w *)
| Digit                  (* \d *)
| Space                  (* \s *)
| Range (lo hi : ascii). (* a-f *)

Definition inAtom (k : atom) (c : ascii) : bool :=
  match k with
  | Lit d => Ascii.eqb c d
  | Word => JsString.isWord c
  | Digit => JsString.isDigit c
  | Space => JsString.isSpace c
  | Range lo hi => ((nat_of_ascii lo <=? nat_of_ascii c) && (nat_of_ascii c <=? nat_of_ascii hi))%nat
  end.

Definition atom_eqb (a b : atom) : bool :=
  match a, b with
  | Lit x, Lit y => Ascii.eqb x y
  | Word, Word | Digit, Digit | Space, Space => true
  | Range a1 a2, Range b1 b2 => Ascii.eqb a1 b1 && Ascii.eqb a2 b2
  | _, _ => false
  end.

Fixpoint cls_eqb (l m : list atom) : bool :=
  match l, m with
  | [], [] => true
  | x :: l', y :: m' => atom_eqb x y && cls_eqb l' m'
  | _, _ => false
  end.

Inductive re : Type :=
| Nul                 (* matches nothing *)
| Eps                 (* matches the empty string *)
| Chr (k : list atom)   (* [...] *)
| Seq (a b : re)
| Alt (a b : re)
| Star (a : re).

Fixpoint re_eqb (a b : re) : bool :=
  match a, b with
  | Nul, Nul | Eps, Eps => true
  | Chr k, Chr k' => cls_eqb k k'
  | Seq a1 a2, Seq b1 b2 => re_eqb a1 b1 && re_eqb a2 b2
  | Alt a1 a2, Alt b1 b2 => re_eqb a1 b1 && re_eqb a2 b2
  | Star a1, Star b1 => re_eqb a1 b1
  | _, _ => false
  end.

Fixpoint nullable (r : re) : bool :=
  match r with
  | Nul => false
  | Eps => true
  | Chr _ => false
  | Seq a b => nullable a && nullable b
  | Alt a b => nullable a || nullable b
  | Star _ => true
  end.

Definition seq (a b : re) : re :=
  match a, b with
  | Nul, _ => Nul
  | _, Nul => Nul
  | Eps, _ => b
  | _, Eps => a
  | _, _ => Seq a b
  end.

Definition alt (a b : re) : re :=
  match a, b with
  | Nul, _ => b
  | _, Nul => a
  | _, _ => if re_eqb a b then a else Alt a b
  end.

(** Brzozowski derivative. *)
Fixpoint deriv (c : ascii) (r : re) : re :=
  match r with
  | Nul | Eps => Nul
  | Chr k => if existsb (fun a => inAtom a c) k then Eps else Nul
  | Seq a b =>
      if nullable a
      then alt (seq (deriv c a) b) (deriv c b)
      else seq (deriv c a) b
  | Alt a b => alt (deriv c a) (deriv c b)
  | Star a => seq (deriv c a) (Star a)
  end.

(** [/^r$/.test(s)]. *)
Fixpoint test (r : re) (s : string) : bool :=
  match s with
  | EmptyString => nullable r
  | String c s' => test (deriv c r) s'
  end.

Definition opt (r : re) : re := Alt Eps r.          (* r? *)
Definition plus (r : re) : re := Seq r (Star r).    (* r+ *)

Fixpoint times (n : nat) (r : re) : re :=           (* r{n} *)
  match n with O => Eps | S n' => Seq r (times n' r) end.

Fixpoint upto (n : nat) (r : re) : re :=            (* r{0,n} *)
  match n with O => Eps | S n' => opt (Seq r (upto n' r)) end.

Definition between (lo hi : nat) (r : re) : re :=   (* r{lo,hi} *)
  Seq (times lo r) (upto (hi - lo) r).

End Regex.

(* ===================================================================== *)
(** ** Dates *)
(* ===================================================================== *)

Module JsDate.

(** A [Date] through its local calendar fields; months count from 0 as
    [getMonth] does. [timeOfDay] is the milliseconds since local midnight. *)
Record Date : Type := mkDate {
  getFullYear : Z;
  getMonth : Z;
  getDate : Z;
  timeOfDay : Z
}.

(** [a.getTime() < b.getTime()]: the order of the instants is the
    lexicographic order of the fields. *)
Definition ltb (a b : Date) : bool :=
  (getFullYear a <? getFullYear b)
  || ((getFullYear a =? getFullYear b)
      && ((getMonth a <? getMonth b)
          || ((getMonth a =? getMonth b)
              && ((getDate a <? getDate b)
                  || ((getDate a =? getDate b) && (timeOfDay a <? timeOfDay b)))))).

Definition isLeap (y : Z) : bool :=
  ((y mod 4 =? 0) && negb (y mod 100 =? 0)) || (y mod 400 =? 0).

Definition daysInMonth (y m : Z) : Z :=
  if m =? 1 then (if isLeap y then 29 else 28)
  else if (m =? 3) || (m =? 5) || (m =? 8) || (m =? 10) then 30
  else 31.

(** A date that exists in the calendar. *)
Definition valid (d : Date) : bool :=
  (0 <=? getMonth d) && (getMonth d <=? 11)
  && (1 <=? getDate d) && (getDate d <=? daysInMonth (getFullYear d) (getMonth d))
  && (0 <=? timeOfDay d) && (timeOfDay d <? 86400000).

(** The same instant of the following day. *)
Definition nextDay (d : Date) : Date :=
  if getDate d <? daysInMonth (getFullYear d) (getMonth d)
  then mkDate (getFullYear d) (getMonth d) (getDate d + 1) (timeOfDay d)
  else if getMonth d <? 11
       then mkDate (getFullYear d) (getMonth d + 1) 1 (timeOfDay d)
       else mkDate (getFullYear d + 1) 0 1 (timeOfDay d).

(** The same day and time [n] years earlier (a calendar date only when
    that day exists in the earlier year). *)
Definition yearsBefore (n : Z) (d : Date) : Date :=
  mkDate (getFullYear d - n) (getMonth d) (getDate d) (timeOfDay d).

(** [new Date("YYYY-MM-DD")]: midnight of that day; [None] for any other text. *)
Definition parseIsoDay (s : string) : option Date :=
  match s with
  | String y1 (String y2 (String y3 (String y4 (String "-"
      (String m1 (String m2 (String "-" (String d1 (String d2 EmptyString))))))))) =>
      match JsString.digits 0 (String y1 (String y2 (String y3 (String y4 EmptyString)))),
            JsString.digits 0 (String m1 (String m2 EmptyString)),
            JsString.digits 0 (String d1 (String d2 EmptyString)) with
      | Some y, Some m, Some d =>
          let r := mkDate y (m - 1) d 0 in
          if valid r then Some r else None
      | _, _, _ => None
      end
  | _ => None
  end.

End JsDate.

(* ===================================================================== *)
(** ** JavaScript values *)
(* ===================================================================== *)

#[local] Set Warnings "-register-all".

(** What a parsed JSON body or a validated value holds. *)
Inductive JValue : Type :=
| JNull
| JBool (b : bool)
| JNum (n : Z)
| JStr (s : string)
| JDate (d : JsDate.Date)
| JArr (l : list JValue)
| JObj (o : list (string * JValue)).

Definition JObject : Type := list (string * JValue).

(** [o[k]]. *)
Fixpoint prop (k : string) (o : JObject) : option JValue :=
  match o with
  | [] => None
  | (k', v) :: o' => if String.eqb k k' then Some v else prop k o'
  end.

(** [Object.keys(o)]. *)
Definition keys (o : JObject) : list string := map fst o.

(** Truthiness, as [if (x)] and [x && y] read a value. *)
Definition truthy (v : option JValue) : bool :=
  match v with
  | None | Some JNull | Some (JBool false) | Some (JNum 0) | Some (JStr EmptyString) => false
  | Some _ => true
  end.

(** [===] on the values a schema lists with [valid] or [allow]. *)
Definition same (a b : JValue) : bool :=
  match a, b with
  | JNull, JNull => true
  | JBool x, JBool y => Bool.eqb x y
  | JNum x, JNum y => x =? y
  | JStr x, JStr y => String.eqb x y
  | _, _ => false
  end.

(* ===================================================================== *)
(** ** The validation library (Joi), as far as the schemas use it *)
(* ===================================================================== *)

Module Joi.

Import JsDate.

(** What the library takes from outside the repository: its address
    check and the conversions of texts to dates and numbers. Every
    theorem below holds for any such runtime. *)
Record Runtime : Type := {
  isEmail : string -> bool;
  parseDate : string -> option Date;
  parseNumber : string -> option Z
}.

Inductive Presence : Type := Optional | Required | Forbidden.

Inductive Rule : Type :=
| RMin (n : Z)                     (* string length, number, number of keys *)
| RMax (n : Z)
| REmail
| RPattern (r : Regex.re)
| RInteger
| RMaxNow                          (* date.max('now') *)
| RCustom (f : Date -> Date -> option string).
                                   (* custom(value): today, value, error code *)

Inductive Default : Type :=
| DValue (v : JValue)
| DNow.                            (* default(Date.now) *)

Record Flags : Type := {
  presence : Presence;
  dflt : option Default;
  allowed : list JValue;           (* valid(...) and allow(...) *)
  only : bool;                     (* set by valid(...) *)
  rules : list Rule;
  msgs : list (string * string)    (* messages({code: text}) *)
}.

Inductive Schema : Type :=
| Any (f : Flags)
| Str (trims lowers : bool) (f : Flags)
| Num (f : Flags)
| Boolean (f : Flags)
| Dat (f : Flags)
| Arr (elems : Schema) (f : Flags)
| Obj (children : list (string * Schema)) (f : Flags).

(** *** Building schemas, in the order the sources chain the calls *)

Definition flags0 : Flags :=
  {| presence := Optional; dflt := None; allowed := []; only := false;
     rules := []; msgs := [] |}.

Definition any : Schema := Any flags0.
Definition str : Schema := Str false false flags0.
Definition number : Schema := Num flags0.
Definition boolean : Schema := Boolean flags0.
Definition date : Schema := Dat flags0.
Definition array : Schema := Arr any flags0.
Definition object (children : list (string * Schema)) : Schema := Obj children flags0.

Definition flagsOf (s : Schema) : Flags :=
  match s with
  | Any f | Str _ _ f | Num f | Boolean f | Dat f | Arr _ f | Obj _ f => f
  end.

Definition childrenOf (s : Schema) : list (String.string * Schema) :=
  match s with
  | Obj children _ => children
  | _ => []
  end.

Definition withFlags (g : Flags -> Flags) (s : Schema) : Schema :=
  match s with
  | Any f => Any (g f)
  | Str t l f => Str t l (g f)
  | Num f => Num (g f)
  | Boolean f => Boolean (g f)
  | Dat f => Dat (g f)
  | Arr e f => Arr e (g f)
  | Obj c f => Obj c (g f)
  end.

Definition setPresence (p : Presence) (f : Flags) : Flags :=
  {| presence := p; dflt := dflt f; allowed := allowed f; only := only f;
     rules := rules f; msgs := msgs f |}.

Definition setDefault (d : Default) (f : Flags) : Flags :=
  {| presence := presence f; dflt := Some d; allowed := allowed f; only := only f;
     rules := rules f; msgs := msgs f |}.

Definition addAllowed (vs : list JValue) (o : bool) (f : Flags) : Flags :=
  {| presence := presence f; dflt := dflt f; allowed := allowed f ++ vs;
     only := only f || o; rules := rules f; msgs := msgs f |}.

Definition addRule (r : Rule) (f : Flags) : Flags :=
  {| presence := presence f; dflt := dflt f; allowed := allowed f; only := only f;
     rules := rules f ++ [r]; msgs := msgs f |}.

Definition addMessages (m : list (string * string)) (f : Flags) : Flags :=
  {| presence := presence f; dflt := dflt f; allowed := allowed f; only := only f;
     rules := rules f; msgs := m ++ msgs f |}.

Definition required : Schema -> Schema := withFlags (setPresence Required).
Definition optional : Schema -> Schema := withFlags (setPresence Optional).
Definition forbidden : Schema := withFlags (setPresence Forbidden) any.
Definition default (v : JValue) : Schema -> Schema := withFlags (setDefault (DValue v)).
Definition defaultNow : Schema -> Schema := withFlags (setDefault DNow).
Definition valid (vs : list string) : Schema -> Schema :=
  withFlags (addAllowed (map JStr vs) true).
Definition allow (vs : list JValue) : Schema -> Schema :=
  withFlags (addAllowed vs false).
Definition min (n : Z) : Schema -> Schema := withFlags (addRule (RMin n)).
Definition max (n : Z) : Schema -> Schema := withFlags (addRule (RMax n)).
Definition email : Schema -> Schema := withFlags (addRule REmail).
Definition pattern (r : Regex.re) : Schema -> Schema := withFlags (addRule (RPattern r)).
Definition integer : Schema -> Schema := withFlags (addRule RInteger).
Definition maxNow : Schema -> Schema := withFlags (addRule RMaxNow).
Definition custom (f : Date -> Date -> option string) : Schema -> Schema :=
  withFlags (addRule (RCustom f)).
Definition messages (m : list (string * string)) : Schema -> Schema :=
  withFlags (addMessages m).

Definition trim (s : Schema) : Schema :=
  match s with Str _ l f => Str true l f | _ => s end.
Definition lowercase (s : Schema) : Schema :=
  match s with Str t _ f => Str t true f | _ => s end.
Definition items (e : Schema) (s : Schema) : Schema :=
  match s with Arr _ f => Arr e f | _ => s end.

(** *** Validation results *)

(** The text of an error: the schema's own message for the code, or the
    library's template for it. *)
Inductive Message : Type :=
| Custom (text : string)
| Template (code : string).

(** One entry of [error.details]. *)
Record Detail : Type := {
  path : list string;
  type : string;
  message : Message;
  value : option JValue            (* context.value *)
}.

Definition Outcome : Type := (option JValue * list Detail)%type.

Definition messageFor (f : Flags) (code : string) : Message :=
  match find (fun m => String.eqb code (fst m)) (msgs f) with
  | Some m => Custom (snd m)
  | None => Template code
  end.

Definition report (f : Flags) (p : list string) (code : string) (v : option JValue) : Detail :=
  {| path := p; type := code; message := messageFor f code; value := v |}.

(** *** The validator

    [validate] follows the library's order for one schema: conversion,
    presence, listed values, the base type, then the rules, with
    [abortEarly: false] (every error is collected) and [convert: true],
    the options of every call in the sources. A base-type error (for an
    object: an error of a child or an unknown key) ends the schema
    before its rules run. *)

Section Validate.

Variable rt : Runtime.
Variable stripUnknown : bool.
Variable now : Date.

Definition coerce (s : Schema) (v : JValue) : JValue :=
  match s, v with
  | Str t l _, JStr x =>
      let x1 := if l then JsString.toLowerCase x else x in
      JStr (if t then JsString.trim x1 else x1)
  | Num _, JStr x =>
      match parseNumber rt x with Some n => JNum n | None => v end
  | Boolean _, JStr x =>
      if String.eqb (JsString.toLowerCase x) "true" then JBool true
      else if String.eqb (JsString.toLowerCase x) "false" then JBool false
      else v
  | Dat _, JStr x =>
      match parseDate rt x with Some d => JDate d | None => v end
  | _, _ => v
  end.

Definition baseError (s : Schema) (v : JValue) : option String.string :=
  match s, v with
  | Any _, _ => None
  | Str _ _ _, JStr EmptyString => Some "string.empty"
  | Str _ _ _, JStr _ => None
  | Str _ _ _, _ => Some "string.base"
  | Num _, JNum _ => None
  | Num _, _ => Some "number.base"
  | Boolean _, JBool _ => None
  | Boolean _, _ => Some "boolean.base"
  | Dat _, JDate _ => None
  | Dat _, _ => Some "date.base"
  | Arr _ _, JArr _ => None
  | Arr _ _, _ => Some "array.base"
  | Obj _ _, JObj _ => None
  | Obj _ _, _ => Some "object.base"
  end.

Definition ruleError (r : Rule) (v : JValue) : option String.string :=
  match r, v with
  | RMin n, JStr s => if JsString.len s <? n then Some "string.min" else None
  | RMax n, JStr s => if n <? JsString.len s then Some "string.max" else None
  | REmail, JStr s => if isEmail rt s then None else Some "string.email"
  | RPattern r, JStr s => if Regex.test r s then None else Some "string.pattern.base"
  | RMin n, JNum z => if z <? n then Some "number.min" else None
  | RMax n, JNum z => if n <? z then Some "number.max" else None
  | RMaxNow, JDate d => if JsDate.ltb now d then Some "date.max" else None
  | RCustom f, JDate d => f now d
  | RMin n, JObj o => if Z.of_nat (List.length o) <? n then Some "object.min" else None
  | RMax n, JObj o => if n <? Z.of_nat (List.length o) then Some "object.max" else None
  | _, _ => None
  end.

Definition runRules (f : Flags) (p : list String.string) (v : JValue) : list Detail :=
  flat_map (fun r => match ruleError r v with
                     | Some code => [report f p code (Some v)]
                     | None => []
                     end) (rules f).

Definition applyDefault (f : Flags) : option JValue :=
  match dflt f with
  | Some (DValue v) => Some v
  | Some DNow => Some (JDate now)
  | None => None
  end.

Definition declared (children : list (String.string * Schema)) (k : String.string) : bool :=
  existsb (fun c => String.eqb k (fst c)) children.

(** The keys a child left a value for, and the errors of all children. *)
Definition childValues (rs : list (String.string * Outcome)) : JObject :=
  flat_map (fun r => match fst (snd r) with
                     | Some v => [(fst r, v)]
                     | None => []
                     end) rs.

Definition childErrors {K : Type} (rs : list (K * Outcome)) : list Detail :=
  flat_map (fun r => snd (snd r)) rs.

Definition indexText (i : nat) : String.string :=
  NilEmpty.string_of_uint (Nat.to_uint i).

Fixpoint validate (p : list String.string) (s : Schema) (item : option JValue)
  {struct s} : Outcome :=
  let f := flagsOf s in
  match option_map (coerce s) item with
  | None =>
      (applyDefault f,
       match presence f with
       | Required => [report f p "any.required" None]
       | _ => []
       end)
  | Some v =>
      match presence f with
      | Forbidden => (Some v, [report f p "any.unknown" (Some v)])
      | _ =>
          if existsb (same v) (allowed f) then (Some v, [])
          else
            let pre := if only f then [report f p "any.only" (Some v)] else [] in
            match baseError s v with
            | Some code => (Some v, pre ++ [report f p code (Some v)])
            | None =>
                let '(v', inner) :=
                  match s, v with
                  | Obj children _, JObj o =>
                      let rs :=
                        (fix each (cs : list (String.string * Schema)) :=
                           match cs with
                           | [] => []
                           | c :: cs' =>
                               (fst c, validate (p ++ [fst c]) (snd c) (prop (fst c) o))
                                 :: each cs'
                           end) children in
                      let unknown := filter (fun kv => negb (declared children (fst kv))) o in
                      if stripUnknown
                      then (JObj (childValues rs), childErrors rs)
                      else (JObj (childValues rs ++ unknown),
                            childErrors rs
                              ++ map (fun kv => report f (p ++ [fst kv]) "object.unknown"
                                                  (Some (snd kv))) unknown)
                  | Arr e _, JArr l =>
                      let rs :=
                        (fix each (i : nat) (l : list JValue) :=
                           match l with
                           | [] => []
                           | x :: l' =>
                               (i, validate (p ++ [indexText i]) e (Some x)) :: each (S i) l'
                           end) O l in
                      (JArr (flat_map (fun r => match fst (snd r) with
                                                | Some x => [x]
                                                | None => []
                                                end) rs),
                       childErrors rs)
                  | _, _ => (v, [])
                  end in
                match inner with
                | [] => (Some v', pre ++ runRules f p v')
                | _ => (Some v', pre ++ inner)
                end
            end
      end
  end.

End Validate.

End Joi.

(* ===================================================================== *)
(** ** src/validators/customerValidator.ts *)
(* ===================================================================== *)

Notation "s |> f" := (f s) (at level 50, left associativity, only parsing).

Module Validator.

Import JsDate.
Import Regex.

(** [/^\+?[\d\s\-\(\)]{10,15}$/] *)
Definition phonePattern : re :=
  Seq (opt (Chr [Lit "+"]))
      (between 10 15 (Chr [Digit; Space; Lit "-"; Lit "("; Lit ")"])).

(** [/^[0-9a-fA-F]{24}$/] *)
Definition idPattern : re :=
  times 24 (Chr [Range "0" "9"; Range "a" "f"; Range "A" "F"]).

Definition addressSchema : Joi.Schema :=
  Joi.object [
    ("street", Joi.str |> Joi.trim |> Joi.min 5 |> Joi.max 200 |> Joi.required
       |> Joi.messages [
            ("string.empty", "Street address is required");
            ("string.min", "Street address must be at least 5 characters");
            ("string.max", "Street address must not exceed 200 characters")]);
    ("city", Joi.str |> Joi.trim |> Joi.min 2 |> Joi.max 100 |> Joi.required
       |> Joi.messages [
            ("string.empty", "City is required");
            ("string.min", "City must be at least 2 characters");
            ("string.max", "City must not exceed 100 characters")]);
    ("state", Joi.str |> Joi.trim |> Joi.min 2 |> Joi.max 100 |> Joi.required
       |> Joi.messages [
            ("string.empty", "State is required");
            ("string.min", "State must be at least 2 characters");
            ("string.max", "State must not exceed 100 characters")]);
    ("postalCode", Joi.str |> Joi.trim |> Joi.min 3 |> Joi.max 20 |> Joi.required
       |> Joi.messages [
            ("string.empty", "Postal code is required");
            ("string.min", "Postal code must be at least 3 characters");
            ("string.max", "Postal code must not exceed 20 characters")]);
    ("country", Joi.str |> Joi.trim |> Joi.min 2 |> Joi.max 100 |> Joi.optional
       |> Joi.default (JStr "Colombia"))
  ].

Definition notificationPreferencesSchema : Joi.Schema :=
  Joi.object [
    ("email", Joi.boolean |> Joi.default (JBool true));
    ("sms", Joi.boolean |> Joi.default (JBool true));
    ("push", Joi.boolean |> Joi.default (JBool true))
  ].

Definition customerPreferencesSchema : Joi.Schema :=
  Joi.object [
    ("language", Joi.str |> Joi.valid ["es"; "en"] |> Joi.default (JStr "es"));
    ("currency", Joi.str |> Joi.valid ["COP"; "USD"; "EUR"] |> Joi.default (JStr "COP"));
    ("notificationPreferences", notificationPreferencesSchema |> Joi.default (JObj []));
    ("marketingConsent", Joi.boolean |> Joi.default (JBool false))
  ].

Definition documentTypes : list string :=
  ["national_id"; "passport"; "driving_license"; "address_proof"; "income_proof"; "other"].

Definition kycDocumentSchema : Joi.Schema :=
  Joi.object [
    ("type", Joi.str |> Joi.valid documentTypes |> Joi.required);
    ("filename", Joi.str |> Joi.trim |> Joi.min 1 |> Joi.max 255 |> Joi.required);
    ("uploadDate", Joi.date |> Joi.defaultNow);
    ("verified", Joi.boolean |> Joi.default (JBool false));
    ("verifiedBy", Joi.str |> Joi.trim |> Joi.optional);
    ("verifiedAt", Joi.date |> Joi.optional)
  ].

(** The age the custom rule of [dateOfBirth] computes. *)
Definition age (today value : Date) : Z :=
  let age := getFullYear today - getFullYear value in
  let monthDiff := getMonth today - getMonth value in
  if (monthDiff <? 0) || ((monthDiff =? 0) && (getDate today <? getDate value))
  then age - 1
  else age.

(** The custom rule of [dateOfBirth]: the error code, or [None] for [return value]. *)
Definition dateOfBirthCustom (today value : Date) : option string :=
  if age today value <? 18 then Some "any.invalid"
  else if 120 <? age today value then Some "any.invalid"
  else None.

Definition dateOfBirthSchema : Joi.Schema :=
  Joi.date |> Joi.maxNow |> Joi.required
    |> Joi.custom dateOfBirthCustom
    |> Joi.messages [
         ("date.max", "Date of birth cannot be in the future");
         ("any.invalid", "Customer must be between 18 and 120 years old");
         ("any.required", "Date of birth is required")].

(** The [email] and [nationalId] entries of [createCustomerSchema]. *)
Definition emailSchema : Joi.Schema :=
  Joi.str |> Joi.email |> Joi.lowercase |> Joi.trim |> Joi.required
    |> Joi.messages [
         ("string.email", "Please provide a valid email address");
         ("string.empty", "Email is required")].

Definition nationalIdSchema : Joi.Schema :=
  Joi.str |> Joi.trim |> Joi.min 8 |> Joi.max 20 |> Joi.required
    |> Joi.messages [
         ("string.empty", "National ID is required");
         ("string.min", "National ID must be at least 8 characters");
         ("string.max", "National ID must not exceed 20 characters")].

Definition createCustomerSchema : Joi.Schema :=
  Joi.object [
    ("firstName", Joi.str |> Joi.trim |> Joi.min 2 |> Joi.max 50 |> Joi.required
       |> Joi.messages [
            ("string.empty", "First name is required");
            ("string.min", "First name must be at least 2 characters");
            ("string.max", "First name must not exceed 50 characters")]);
    ("lastName", Joi.str |> Joi.trim |> Joi.min 2 |> Joi.max 50 |> Joi.required
       |> Joi.messages [
            ("string.empty", "Last name is required");
            ("string.min", "Last name must be at least 2 characters");
            ("string.max", "Last name must not exceed 50 characters")]);
    ("email", emailSchema);
    ("phone", Joi.str |> Joi.trim |> Joi.pattern phonePattern |> Joi.required
       |> Joi.messages [
            ("string.pattern.base", "Please provide a valid phone number (10-15 digits)");
            ("string.empty", "Phone number is required")]);
    ("dateOfBirth", dateOfBirthSchema);
    ("nationalId", nationalIdSchema);
    ("passportNumber", Joi.str |> Joi.trim |> Joi.min 6 |> Joi.max 15 |> Joi.optional
       |> Joi.messages [
            ("string.min", "Passport number must be at least 6 characters");
            ("string.max", "Passport number must not exceed 15 characters")]);
    ("address", addressSchema |> Joi.required);
    ("documents", Joi.array |> Joi.items kycDocumentSchema |> Joi.optional
       |> Joi.default (JArr []));
    ("preferences", customerPreferencesSchema |> Joi.optional |> Joi.default (JObj []))
  ].

Definition updateCustomerSchema : Joi.Schema :=
  Joi.object [
    ("firstName", Joi.str |> Joi.trim |> Joi.min 2 |> Joi.max 50 |> Joi.optional);
    ("lastName", Joi.str |> Joi.trim |> Joi.min 2 |> Joi.max 50 |> Joi.optional);
    ("email", Joi.str |> Joi.email |> Joi.lowercase |> Joi.trim |> Joi.optional);
    ("phone", Joi.str |> Joi.trim |> Joi.pattern phonePattern |> Joi.optional);
    ("address", addressSchema |> Joi.optional);
    ("preferences", customerPreferencesSchema |> Joi.optional);
    ("passportNumber", Joi.str |> Joi.trim |> Joi.min 6 |> Joi.max 15 |> Joi.optional
       |> Joi.allow [JNull; JStr ""]);
    ("nationalId", Joi.forbidden |> Joi.messages [
       ("any.unknown", "National ID cannot be updated directly")]);
    ("dateOfBirth", Joi.forbidden |> Joi.messages [
       ("any.unknown", "Date of birth cannot be updated directly")]);
    ("documents", Joi.forbidden |> Joi.messages [
       ("any.unknown", "Documents must be updated through dedicated endpoints")]);
    ("emailVerified", Joi.forbidden);
    ("phoneVerified", Joi.forbidden);
    ("identityVerified", Joi.forbidden);
    ("complianceStatus", Joi.forbidden);
    ("status", Joi.forbidden)
  ] |> Joi.min 1 |> Joi.messages [
    ("object.min", "At least one field must be provided for update")].

Definition customerIdSchema : Joi.Schema :=
  Joi.object [
    ("id", Joi.str |> Joi.pattern idPattern |> Joi.required
       |> Joi.messages [
            ("string.pattern.base", "Invalid customer ID format");
            ("any.required", "Customer ID is required")])
  ].

Definition addKycDocumentSchema : Joi.Schema :=
  Joi.object [
    ("type", Joi.str |> Joi.valid documentTypes |> Joi.required);
    ("filename", Joi.str |> Joi.trim |> Joi.min 1 |> Joi.max 255 |> Joi.required)
  ].

(** The [q], [page] and [limit] entries of [searchCustomerSchema]. *)
Definition qSchema : Joi.Schema :=
  Joi.str |> Joi.trim |> Joi.min 3 |> Joi.max 100 |> Joi.optional
    |> Joi.messages [
         ("string.min", "Search query must be at least 3 characters");
         ("string.max", "Search query must not exceed 100 characters")].

Definition pageSchema : Joi.Schema :=
  Joi.number |> Joi.integer |> Joi.min 1 |> Joi.default (JNum 1).

Definition limitSchema : Joi.Schema :=
  Joi.number |> Joi.integer |> Joi.min 1 |> Joi.max 100 |> Joi.default (JNum 10).

Definition searchCustomerSchema : Joi.Schema :=
  Joi.object [
    ("q", qSchema);
    ("status", Joi.str
       |> Joi.valid ["active"; "inactive"; "suspended"; "pending_verification"]
       |> Joi.optional);
    ("complianceStatus", Joi.str
       |> Joi.valid ["pending"; "approved"; "rejected"; "under_review"]
       |> Joi.optional);
    ("country", Joi.str |> Joi.trim |> Joi.min 2 |> Joi.max 100 |> Joi.optional);
    ("page", pageSchema);
    ("limit", limitSchema)
  ].

(** One entry of the [errors] array of a 400 response. *)
Record FieldError : Type := {
  field : string;
  message : Joi.Message;
  value : option JValue
}.

Definition fieldError (d : Joi.Detail) : FieldError :=
  {| field := String.concat "." (Joi.path d);
     message := Joi.message d;
     value := Joi.value d |}.

(** What a validation middleware does with a request: it answers 400
    itself, or stores the validated value on the request and calls [next()]. *)
Inductive Middleware : Type :=
| Reply (statusCode : Z) (message : string) (errors : list FieldError)
| Next (validated : option JValue).

Section Middlewares.

Variable rt : Joi.Runtime.
Variable now : Date.

(** [validateRequest(schema)] applied to [req.body]. *)
Definition validateRequest (schema : Joi.Schema) (body : JValue) : Middleware :=
  let '(value, error) := Joi.validate rt true now [] schema (Some body) in
  match error with
  | [] => Next value
  | details => Reply 400 "Validation error" (map fieldError details)
  end.

(** [validateParams(schema)] applied to [req.params]; unknown keys are
    not stripped here. *)
Definition validateParams (schema : Joi.Schema) (params : JValue) : Middleware :=
  let '(value, error) := Joi.validate rt false now [] schema (Some params) in
  match error with
  | [] => Next value
  | details => Reply 400 "Invalid parameters" (map fieldError details)
  end.

(** [validateQuery(schema)] applied to [req.query]. *)
Definition validateQuery (schema : Joi.Schema) (query : JValue) : Middleware :=
  let '(value, error) := Joi.validate rt true now [] schema (Some query) in
  match error with
  | [] => Next value
  | details => Reply 400 "Invalid query parameters" (map fieldError details)
  end.

End Middlewares.

End Validator.

(* ===================================================================== *)
(** ** src/models/Customer.ts *)
(* ===================================================================== *)

Module Model.

Import JsDate.
Import Regex.

Definition ObjectId : Type := string.

Record KYCDocument : Type := {
  docType : string;
  filename : string;
  uploadDate : Date;
  verified : bool;
  verifiedBy : option string;
  verifiedAt : option Date
}.

Record Address : Type := {
  street : string;
  city : string;
  state : string;
  postalCode : string;
  country : string
}.

Record NotificationPreferences : Type := {
  byEmail : bool;
  bySms : bool;
  byPush : bool
}.

Record CustomerPreferences : Type := {
  language : string;
  currency : string;
  notificationPreferences : NotificationPreferences;
  marketingConsent : bool
}.

(** [ICustomer]: a stored document. *)
Record Customer : Type := {
  _id : ObjectId;
  firstName : string;
  lastName : string;
  email : string;
  phone : string;
  dateOfBirth : Date;
  nationalId : string;
  passportNumber : option string;
  address : Address;
  documents : list KYCDocument;
  emailVerified : bool;
  phoneVerified : bool;
  identityVerified : bool;
  preferences : CustomerPreferences;
  registrationDate : Date;
  lastLoginDate : option Date;
  status : string;
  complianceStatus : string;
  complianceNotes : option string;
  complianceCheckedAt : option Date;
  createdAt : Date;
  updatedAt : Date
}.

(** [/^\w+([.-]?\w+)*@\w+([.-]?\w+)*(\.\w{2,3})+$/], the [match] of [email]. *)
Definition emailMatch : re :=
  let word := plus (Chr [Word]) in
  let more := Star (Seq (opt (Chr [Lit "."; Lit "-"])) word) in
  Seq word (Seq more (Seq (Chr [Lit "@"]) (Seq word (Seq more
    (plus (Seq (Chr [Lit "."]) (between 2 3 (Chr [Word])))))))).

(** The [match] of [phone]: the pattern of the request validator. *)
Definition phoneMatch : re := Validator.phonePattern.

Definition statusValues : list string :=
  ["active"; "inactive"; "suspended"; "pending_verification"].

Definition complianceStatusValues : list string :=
  ["pending"; "approved"; "rejected"; "under_review"].

Definition oneOf (values : list string) (s : string) : bool :=
  existsb (String.eqb s) values.

(** *** [new Customer(data)]: casting, setters and defaults *)

(** A required path that cannot be read from the data (it is missing,
    or not of the path's type) is represented by a value that the
    validators of the path reject, as [required] rejects the missing
    value: the empty text, and for the date of birth the present moment. *)

Definition getString (k : string) (o : JObject) : option string :=
  match prop k o with Some (JStr s) => Some s | _ => None end.

Definition getDateField (k : string) (o : JObject) : option Date :=
  match prop k o with Some (JDate d) => Some d | _ => None end.

Definition getBool (k : string) (fallback : bool) (o : JObject) : bool :=
  match prop k o with Some (JBool b) => b | _ => fallback end.

Definition getObject (k : string) (o : JObject) : JObject :=
  match prop k o with Some (JObj x) => x | _ => [] end.

Definition orElse {A : Type} (x : option A) (d : A) : A :=
  match x with Some a => a | None => d end.

Definition castAddress (o : JObject) : Address :=
  {| street := JsString.trim (orElse (getString "street" o) "");
     city := JsString.trim (orElse (getString "city" o) "");
     state := JsString.trim (orElse (getString "state" o) "");
     postalCode := JsString.trim (orElse (getString "postalCode" o) "");
     country := JsString.trim (orElse (getString "country" o) "Colombia") |}.

Definition castDocument (now : Date) (v : JValue) : KYCDocument :=
  let o := match v with JObj o => o | _ => [] end in
  {| docType := orElse (getString "type" o) "";
     filename := orElse (getString "filename" o) "";
     uploadDate := orElse (getDateField "uploadDate" o) now;
     verified := getBool "verified" false o;
     verifiedBy := getString "verifiedBy" o;
     verifiedAt := getDateField "verifiedAt" o |}.

Definition castPreferences (o : JObject) : CustomerPreferences :=
  let n := getObject "notificationPreferences" o in
  {| language := orElse (getString "language" o) "es";
     currency := orElse (getString "currency" o) "COP";
     notificationPreferences :=
       {| byEmail := getBool "email" true n; bySms := getBool "sms" true n;
          byPush := getBool "push" true n |};
     marketingConsent := getBool "marketingConsent" false o |}.

(** The document [new Customer(data)] builds. *)
Definition newCustomer (id : ObjectId) (now : Date) (data : JObject) : Customer :=
  {| _id := id;
     firstName := JsString.trim (orElse (getString "firstName" data) "");
     lastName := JsString.trim (orElse (getString "lastName" data) "");
     email := JsString.trim (JsString.toLowerCase (orElse (getString "email" data) ""));
     phone := JsString.trim (orElse (getString "phone" data) "");
     dateOfBirth := orElse (getDateField "dateOfBirth" data) now;
     nationalId := JsString.trim (orElse (getString "nationalId" data) "");
     passportNumber := option_map JsString.trim (getString "passportNumber" data);
     address := castAddress (getObject "address" data);
     documents :=
       map (castDocument now)
         match prop "documents" data with Some (JArr l) => l | _ => [] end;
     emailVerified := false;
     phoneVerified := false;
     identityVerified := false;
     preferences := castPreferences (getObject "preferences" data);
     registrationDate := now;
     lastLoginDate := None;
     status := "pending_verification";
     complianceStatus := "pending";
     complianceNotes := None;
     complianceCheckedAt := None;
     createdAt := now;
     updatedAt := now |}.

(** *** The validators of the schema, run by [save] *)

Definition lengthBetween (lo hi : Z) (s : string) : bool :=
  (lo <=? JsString.len s) && (JsString.len s <=? hi).

Definition nonEmpty (s : string) : bool := negb (String.eqb s "").

(** The [validator] of [dateOfBirth]. *)
Definition dateOfBirthValidator (today value : Date) : bool :=
  let age := getFullYear today - getFullYear value in
  (18 <=? age) && (age <=? 120).

Definition documentValid (d : KYCDocument) : bool :=
  oneOf Validator.documentTypes (docType d) && nonEmpty (filename d).

(** The paths whose validators fail at [today]. *)
Definition invalidPaths (today : Date) (c : Customer) : list string :=
  let check (name : string) (ok : bool) := if ok then [] else [name] in
  check "firstName" (nonEmpty (firstName c) && lengthBetween 2 50 (firstName c))
  ++ check "lastName" (nonEmpty (lastName c) && lengthBetween 2 50 (lastName c))
  ++ check "email" (nonEmpty (email c) && Regex.test emailMatch (email c))
  ++ check "phone" (nonEmpty (phone c) && Regex.test phoneMatch (phone c))
  ++ check "dateOfBirth" (dateOfBirthValidator today (dateOfBirth c))
  ++ check "nationalId" (nonEmpty (nationalId c) && lengthBetween 8 20 (nationalId c))
  ++ check "passportNumber"
       match passportNumber c with Some p => lengthBetween 6 15 p | None => true end
  ++ check "address.street" (nonEmpty (street (address c)))
  ++ check "address.city" (nonEmpty (city (address c)))
  ++ check "address.state" (nonEmpty (state (address c)))
  ++ check "address.postalCode" (nonEmpty (postalCode (address c)))
  ++ check "address.country" (nonEmpty (country (address c)))
  ++ check "documents" (forallb documentValid (documents c))
  ++ check "preferences.language" (oneOf ["es"; "en"] (language (preferences c)))
  ++ check "preferences.currency" (oneOf ["COP"; "USD"; "EUR"] (currency (preferences c)))
  ++ check "status" (oneOf statusValues (status c))
  ++ check "complianceStatus" (oneOf complianceStatusValues (complianceStatus c)).

(** *** The collection *)

(** The stored documents, in the order the collection is scanned. *)
Definition Collection : Type := list Customer.

(** What a handler can be rejected with. *)
Inductive Error : Type :=
| AppError (message : string) (statusCode : Z)
| ValidationError (paths : list string)
| DuplicateKey (keyField keyValue : string)       (* code 11000 *)
| PlainError (message : string).

Definition findOne (p : Customer -> bool) (db : Collection) : option Customer :=
  find p db.

Definition findById (id : ObjectId) (db : Collection) : option Customer :=
  findOne (fun c => String.eqb (_id c) id) db.

Definition countDocuments (p : Customer -> bool) (db : Collection) : Z :=
  Z.of_nat (List.length (filter p db)).

(** [save()] of a new document: the validators, the [pre('save')] hook,
    then the insert under the unique indexes of [email] and [nationalId]. *)
Definition save (today : Date) (c : Customer) (db : Collection)
  : Error + Collection :=
  match invalidPaths today c with
  | (_ :: _) as bad => inl (ValidationError bad)
  | [] =>
      if negb (nonEmpty (nationalId c))
         && negb (nonEmpty (orElse (passportNumber c) ""))
      then inl (PlainError "At least one identity document is required")
      else if existsb (fun d => String.eqb (email d) (email c)) db
      then inl (DuplicateKey "email" (email c))
      else if existsb (fun d => String.eqb (nationalId d) (nationalId c)) db
      then inl (DuplicateKey "nationalId" (nationalId c))
      else inr (db ++ [c])
  end.

Definition setStatus (s : string) (today : Date) (c : Customer) : Customer :=
  {| _id := _id c; firstName := firstName c; lastName := lastName c;
     email := email c; phone := phone c; dateOfBirth := dateOfBirth c;
     nationalId := nationalId c; passportNumber := passportNumber c;
     address := address c; documents := documents c;
     emailVerified := emailVerified c; phoneVerified := phoneVerified c;
     identityVerified := identityVerified c; preferences := preferences c;
     registrationDate := registrationDate c; lastLoginDate := lastLoginDate c;
     status := s;
     complianceStatus := complianceStatus c; complianceNotes := complianceNotes c;
     complianceCheckedAt := complianceCheckedAt c;
     createdAt := createdAt c; updatedAt := today |}.

(** [findByIdAndUpdate(id, update, { new: true })]: the first document
    with that id is replaced by its update (with [updatedAt] bumped);
    the updated document is returned, [None] when no document has the id. *)
Fixpoint findByIdAndUpdate (id : ObjectId) (update : Customer -> Customer)
  (db : Collection) : option Customer * Collection :=
  match db with
  | [] => (None, [])
  | c :: db' =>
      if String.eqb (_id c) id
      then (Some (update c), update c :: db')
      else let '(r, db'') := findByIdAndUpdate id update db' in (r, c :: db'')
  end.

(** [select('-documents -__v')]. *)
Definition withoutDocuments (c : Customer) : Customer :=
  {| _id := _id c; firstName := firstName c; lastName := lastName c;
     email := email c; phone := phone c; dateOfBirth := dateOfBirth c;
     nationalId := nationalId c; passportNumber := passportNumber c;
     address := address c; documents := [];
     emailVerified := emailVerified c; phoneVerified := phoneVerified c;
     identityVerified := identityVerified c; preferences := preferences c;
     registrationDate := registrationDate c; lastLoginDate := lastLoginDate c;
     status := status c;
     complianceStatus := complianceStatus c; complianceNotes := complianceNotes c;
     complianceCheckedAt := complianceCheckedAt c;
     createdAt := createdAt c; updatedAt := updatedAt c |}.

(** [sort({ createdAt: -1 })]: newest first; documents created at the
    same instant keep their scan order. *)
Fixpoint insertNewestFirst (c : Customer) (sorted : list Customer) : list Customer :=
  match sorted with
  | [] => [c]
  | d :: rest =>
      if JsDate.ltb (createdAt c) (createdAt d)
      then d :: insertNewestFirst c rest
      else c :: sorted
  end.

Definition sortByCreatedAtDesc (l : list Customer) : list Customer :=
  fold_right insertNewestFirst [] l.

(** The hexadecimal text of an identifier: a text that names an
    identifier is cast to it whatever the case of its digits. *)
Definition castObjectId (s : string) : ObjectId := JsString.toLowerCase s.

(** [customer.documents.push(d)], with the [updatedAt] that [save()]
    stamps on a changed document. *)
Definition pushDocument (d : KYCDocument) (today : Date) (c : Customer) : Customer :=
  {| _id := _id c; firstName := firstName c; lastName := lastName c;
     email := email c; phone := phone c; dateOfBirth := dateOfBirth c;
     nationalId := nationalId c; passportNumber := passportNumber c;
     address := address c; documents := documents c ++ [d];
     emailVerified := emailVerified c; phoneVerified := phoneVerified c;
     identityVerified := identityVerified c; preferences := preferences c;
     registrationDate := registrationDate c; lastLoginDate := lastLoginDate c;
     status := status c;
     complianceStatus := complianceStatus c; complianceNotes := complianceNotes c;
     complianceCheckedAt := complianceCheckedAt c;
     createdAt := createdAt c; updatedAt := today |}.

(** [save()] of a document that was loaded from the collection: the
    validators run on the document as it is now (the [pre('save')]
    check looks at new documents only), then the stored document with
    the same [_id] is replaced. *)
Definition saveLoaded (today : Date) (c : Customer) (db : Collection)
  : Error + Collection :=
  match invalidPaths today c with
  | (_ :: _) as bad => inl (ValidationError bad)
  | [] => inr (snd (findByIdAndUpdate (_id c) (fun _ => c) db))
  end.

End Model.

(* ===================================================================== *)
(** ** src/middleware/errorHandler.ts *)
(* ===================================================================== *)

Module ErrorHandler.

Import Model.

Record Pagination : Type := {
  currentPage : Z;
  totalPages : Z;
  totalItems : Z;
  itemsPerPage : Z;
  hasNextPage : bool;
  hasPreviousPage : bool
}.

(** The [data] of a success response. *)
Inductive Data : Type :=
| NoData                                           (* null *)
| OneCustomer (c : Customer)
| Customers (cs : list Customer)
| CustomerAccounts (id firstName lastName email : string) (accounts : JValue).

Record Response : Type := {
  statusCode : Z;
  success : bool;
  message : string;
  data : Data;
  pagination : option Pagination;
  timestamp : JsDate.Date
}.

(** How a handler ends: it sent a response, or it handed an error to
    [next] (directly, or through [catchAsync] when its promise rejects);
    the error handler answers an [AppError] with its own status code
    and message. *)
Inductive Result : Type :=
| Sent (r : Response)
| Failed (e : Error).

Definition sendSuccess (now : JsDate.Date) (data : Data) (message : string)
  (statusCode : Z) : Response :=
  {| statusCode := statusCode; success := true; message := message; data := data;
     pagination := None; timestamp := now |}.

(** [Math.ceil(a / b)] for a positive [b]. *)
Definition ceilDiv (a b : Z) : Z := - ((- a) / b).

Definition sendPaginatedResponse (now : JsDate.Date) (data : list Customer)
  (totalCount page limit : Z) (message : string) : Response :=
  let totalPages := ceilDiv totalCount limit in
  {| statusCode := 200; success := true; message := message; data := Customers data;
     pagination := Some {| currentPage := page;
                           totalPages := totalPages;
                           totalItems := totalCount;
                           itemsPerPage := limit;
                           hasNextPage := page <? totalPages;
                           hasPreviousPage := 1 <? page |};
     timestamp := now |}.

End ErrorHandler.

(* ===================================================================== *)
(** ** src/services/externalServices.ts *)
(* ===================================================================== *)

Module ExternalServicesClient.

(** What [axios] hands back: a response with its parsed body ... *)
Record AxiosResponse : Type := {
  status : Z;
  data : option JValue
}.

(** ... or an error: its [code], the response when the remote answered,
    and its own message. *)
Record AxiosError : Type := {
  code : option string;
  response : option AxiosResponse;
  message : string
}.

(** The outcome of one awaited request. *)
Inductive Settled : Type :=
| Fulfilled (r : AxiosResponse)
| RejectedAxios (e : AxiosError)       (* axios.isAxiosError(error) *)
| RejectedOther.                       (* anything else thrown *)

(** How a method of the client ends. *)
Inductive Completion (A : Type) : Type :=
| Return (a : A)
| Throw (message : string).

Arguments Return {A} a.
Arguments Throw {A} message.

(** [x.k] of a value that may be missing ([x?.k]). *)
Definition field (k : string) (v : option JValue) : option JValue :=
  match v with Some (JObj o) => prop k o | _ => None end.

(** The text a template literal gives a value. *)
Fixpoint text (v : JValue) : string :=
  match v with
  | JNull => "null"
  | JBool true => "true"
  | JBool false => "false"
  | JNum n =>
      if n <? 0
      then ("-" ++ NilEmpty.string_of_uint (N.to_uint (Z.to_N (- n))))%string
      else NilEmpty.string_of_uint (N.to_uint (Z.to_N n))
  | JStr s => s
  | JDate _ => "[object Date]"
  | JArr l =>
      String.concat ","
        (map (fun x => match x with JNull => "" | _ => text x end) l)
  | JObj _ => "[object Object]"
  end.

Definition statusOf (e : AxiosError) : option Z := option_map status (response e).

(** [error.response?.data] *)
Definition responseData (e : AxiosError) : option JValue :=
  match response e with Some r => data r | None => None end.

Definition isStatus (e : AxiosError) (n : Z) : bool :=
  match statusOf e with Some s => s =? n | None => false end.

Definition isCode (e : AxiosError) (c : string) : bool :=
  match code e with Some x => String.eqb x c | None => false end.

(** [getCustomerAccounts(customerId)], given how the request to MS2 settled. *)
Definition getCustomerAccounts (settled : Settled) : Completion JValue :=
  match settled with
  | Fulfilled response =>
      if truthy (data response) && truthy (field "success" (data response))
      then Return (if truthy (field "data" (data response))
                   then match field "data" (data response) with
                        | Some accounts => accounts
                        | None => JArr []
                        end
                   else JArr [])
      else Return (JArr [])
  | RejectedAxios error =>
      if isCode error "ECONNREFUSED"
      then Throw "Account service is currently unavailable. Please try again later."
      else if isStatus error 404
      then Return (JArr [])
      else if isStatus error 500
      then Throw "Account service error. Please try again later."
      else
        let remote := field "message" (responseData error) in
        Throw ("Account service error: "
               ++ (if truthy remote
                   then match remote with Some m => text m | None => message error end
                   else message error))%string
  | RejectedOther =>
      Throw "Failed to retrieve customer accounts. Please try again later."
  end.

(** [triggerComplianceCheck(request)], given how the request to MS4
    settled. [Return None] is [undefined], [Return (Some JNull)] is [null]. *)
Definition triggerComplianceCheck (settled : Settled) : Completion (option JValue) :=
  match settled with
  | Fulfilled response =>
      if truthy (data response) && truthy (field "success" (data response))
      then Return (field "data" (data response))
      else Return (Some JNull)
  | RejectedAxios error =>
      if isCode error "ECONNREFUSED"
      then Return (Some JNull)
      else if isStatus error 400
      then
        let remote := field "message" (responseData error) in
        Throw ("Compliance validation error: "
               ++ (if truthy remote
                   then match remote with Some m => text m | None => "Invalid data" end
                   else "Invalid data"))%string
      else if match statusOf error with Some s => 500 <=? s | None => false end
      then Return (Some JNull)
      else Return (Some JNull)
  | RejectedOther => Return (Some JNull)
  end.

(** One entry of what [Promise.allSettled] resolves to. *)
Inductive PromiseSettledResult (A : Type) : Type :=
| fulfilled (value : A)
| rejected.

Arguments fulfilled {A} value.
Arguments rejected {A}.

(** [checkMS2Health()], given how the request to [/health] of MS2
    settled; its [catch] turns every failure into [false]. *)
Definition checkMS2Health (settled : Settled) : PromiseSettledResult bool :=
  match settled with
  | Fulfilled response => fulfilled (status response =? 200)
  | _ => fulfilled false
  end.

(** [checkMS4Health()] *)
Definition checkMS4Health (settled : Settled) : PromiseSettledResult bool :=
  match settled with
  | Fulfilled response => fulfilled (status response =? 200)
  | _ => fulfilled false
  end.

Record ServicesHealth : Type := {
  ms2 : bool;
  ms4 : bool;
  overall : bool
}.

(** [getServicesHealth()], given how the two health requests settled. *)
Definition getServicesHealth (ms2Settled ms4Settled : Settled) : ServicesHealth :=
  let ms2Health := checkMS2Health ms2Settled in
  let ms4Health := checkMS4Health ms4Settled in
  let ms2Status := match ms2Health with fulfilled value => value | rejected => false end in
  let ms4Status := match ms4Health with fulfilled value => value | rejected => false end in
  {| ms2 := ms2Status; ms4 := ms4Status; overall := ms2Status && ms4Status |}.

End ExternalServicesClient.

(* ===================================================================== *)
(** ** src/controllers/CustomerController.ts *)
(* ===================================================================== *)

Module CustomerController.

Import JsDate.
Import Model.
Import ErrorHandler.

(** [stored === given] for a stored text and a property of the request. *)
Definition sameText (stored : string) (given : option JValue) : bool :=
  match given with
  | Some (JStr s) => String.eqb stored s
  | _ => false
  end.

(** [createCustomer]: [id] is the identifier the new document gets,
    [now] the time of the request. The compliance check it schedules
    runs after the response ([complianceCheckSettled] below). *)
Definition createCustomer (id : ObjectId) (now : Date) (customerData : JObject)
  (db : Collection) : Result * Collection :=
  let existingCustomer :=
    findOne (fun c => sameText (email c) (prop "email" customerData)
                      || sameText (nationalId c) (prop "nationalId" customerData)) db in
  let conflict :=
    match existingCustomer with
    | Some existing =>
        if sameText (email existing) (prop "email" customerData)
        then Some (AppError "Email address is already registered" 409)
        else if sameText (nationalId existing) (prop "nationalId" customerData)
        then Some (AppError "National ID is already registered" 409)
        else None
    | None => None
    end in
  match conflict with
  | Some err => (Failed err, db)
  | None =>
      let newCustomer := newCustomer id now customerData in
      match save now newCustomer db with
      | inl err => (Failed err, db)
      | inr db' =>
          (Sent (sendSuccess now (OneCustomer newCustomer)
                   "Customer created successfully" 201), db')
      end
  end.

(** [getCustomerById] *)
Definition getCustomerById (id : ObjectId) (now : Date) (db : Collection) : Result :=
  match findById id db with
  | None => Failed (AppError "Customer not found" 404)
  | Some customer =>
      Sent (sendSuccess now (OneCustomer customer) "Customer retrieved successfully" 200)
  end.

(** [accounts.length] in a template literal. *)
Definition lengthText (accounts : JValue) : string :=
  match accounts with
  | JArr l => NilEmpty.string_of_uint (Nat.to_uint (List.length l))
  | JStr s => NilEmpty.string_of_uint (Nat.to_uint (String.length s))
  | _ => "undefined"
  end.

(** [getCustomerAccounts], given how the request to MS2 settles. *)
Definition getCustomerAccounts (id : ObjectId) (now : Date)
  (settled : ExternalServicesClient.Settled) (db : Collection) : Result :=
  match findById id db with
  | None => Failed (AppError "Customer not found" 404)
  | Some customer =>
      match ExternalServicesClient.getCustomerAccounts settled with
      | ExternalServicesClient.Return accounts =>
          Sent (sendSuccess now
                  (CustomerAccounts (_id customer) (firstName customer)
                     (lastName customer) (email customer) accounts)
                  ("Retrieved " ++ lengthText accounts ++ " accounts for customer")%string
                  200)
      | ExternalServicesClient.Throw message => Failed (AppError message 503)
      end
  end.

Section Search.

(** [{ $regex: pattern, $options: 'i' }] applied to a text: the
    database's matcher. *)
Variable regexMatch : string -> string -> bool.

(** The database reads the pattern of every [$regex] of a filter before
    it looks at a document: a text that is no regular expression makes
    it reject the query, with this message. *)
Variable regexError : string -> option string.

(** The filter [searchCustomers] builds from the validated query. *)
Definition searchFilter (query : JObject) (c : Customer) : bool :=
  (match prop "q" query with
   | Some (JStr q) =>
       if truthy (Some (JStr q))
       then regexMatch q (firstName c) || regexMatch q (lastName c)
            || regexMatch q (email c) || regexMatch q (nationalId c)
       else true
   | _ => true
   end)
  && (match prop "status" query with
      | Some (JStr s) => if truthy (Some (JStr s)) then String.eqb (status c) s else true
      | _ => true
      end)
  && (match prop "complianceStatus" query with
      | Some (JStr s) =>
          if truthy (Some (JStr s)) then String.eqb (complianceStatus c) s else true
      | _ => true
      end)
  && (match prop "country" query with
      | Some (JStr s) =>
          if truthy (Some (JStr s)) then regexMatch s (country (address c)) else true
      | _ => true
      end).

(** [find(filter).select(..).sort({createdAt: -1}).skip(skip).limit(limit)] *)
Definition findPage (filter : Customer -> bool) (skip limit : Z) (db : Collection)
  : list Customer :=
  firstn (Z.to_nat limit)
    (skipn (Z.to_nat skip)
       (sortByCreatedAtDesc (map withoutDocuments (List.filter filter db)))).

(** The patterns the filter of [searchCustomers] hands to the database:
    [q] (in the four branches of [$or]) and [country], each when it is
    given and truthy. *)
Definition filterPatterns (query : JObject) : list string :=
  (match prop "q" query with
   | Some (JStr q) => if truthy (Some (JStr q)) then [q] else []
   | _ => []
   end)
  ++ (match prop "country" query with
      | Some (JStr s) => if truthy (Some (JStr s)) then [s] else []
      | _ => []
      end).

(** What the database rejects a filter with these patterns with, if it
    rejects it. *)
Fixpoint firstError (patterns : list string) : option string :=
  match patterns with
  | [] => None
  | pattern :: rest =>
      match regexError pattern with
      | Some message => Some message
      | None => firstError rest
      end
  end.

(** What [countDocuments(filter)] and [find(filter)] are rejected with,
    if the database rejects the filter. *)
Definition filterError (query : JObject) : option string :=
  firstError (filterPatterns query).

(** [searchCustomers] on a validated query, whose [page] and [limit]
    are numbers.  The rejection of [countDocuments], the first call to
    the database, is handed to [next] by [catchAsync]. *)
Definition searchCustomers (now : Date) (query : JObject) (db : Collection) : Result :=
  match filterError query with
  | Some message => Failed (PlainError message)
  | None =>
      match prop "page" query, prop "limit" query with
      | Some (JNum page), Some (JNum limit) =>
          let filter := searchFilter query in
          let totalCount := countDocuments filter db in
          let skip := (page - 1) * limit in
          let customers := findPage filter skip limit db in
          Sent (sendPaginatedResponse now customers totalCount page limit
                  ("Retrieved "
                   ++ NilEmpty.string_of_uint (Nat.to_uint (List.length customers))
                   ++ " customers")%string)
      | _, _ => Failed (PlainError "page and limit must be numbers")
      end
  end.

End Search.

(** [deleteCustomer] *)
Definition deleteCustomer (id : ObjectId) (now : Date) (db : Collection)
  : Result * Collection :=
  match findByIdAndUpdate id (setStatus "inactive" now) db with
  | (None, _) => (Failed (AppError "Customer not found" 404), db)
  | (Some _, db') =>
      (Sent (sendSuccess now NoData "Customer deactivated successfully" 200), db')
  end.

(** What the callback scheduled by [triggerComplianceCheckAsync] makes
    of the request to MS4 once it has settled, up to its update of the
    record: a truthy result goes on to the update ([Completed]); a
    falsy one is logged as to be retried; an error thrown by the client
    is caught and logged.  [triggerComplianceCheckAsync] below is the
    callback with the update. *)
Inductive Logged : Type :=
| Completed (complianceResult : JValue)
| WillRetry
| Caught (message : string).

Definition complianceCheckSettled (settled : ExternalServicesClient.Settled) : Logged :=
  match ExternalServicesClient.triggerComplianceCheck settled with
  | ExternalServicesClient.Return complianceResult =>
      if truthy complianceResult
      then match complianceResult with
           | Some result => Completed result
           | None => WillRetry
           end
      else WillRetry
  | ExternalServicesClient.Throw message => Caught message
  end.

Section Compliance.

(** [Customer.findByIdAndUpdate(customer._id, { complianceStatus:
    complianceResult.status, complianceNotes: complianceResult.notes,
    complianceCheckedAt: new Date(complianceResult.checkedAt) })], as
    the library and the database carry it out for a compliance result:
    the call is rejected with a message (the date that cannot be cast,
    say) or it resolves; with the collection afterwards. *)
Variable findByIdAndUpdateCompliance :
  ObjectId -> JValue -> Collection -> option string * Collection.

(** The callback [triggerComplianceCheckAsync] schedules for a
    customer, run on how the request to MS4 settled: what it logs and
    the collection afterwards.  Everything happens inside one [try]:
    an error of the client and a rejected update both end in the
    [catch]. *)
Definition triggerComplianceCheckAsync (customer : Customer)
  (settled : ExternalServicesClient.Settled) (db : Collection) : Logged * Collection :=
  match ExternalServicesClient.triggerComplianceCheck settled with
  | ExternalServicesClient.Return complianceResult =>
      if truthy complianceResult
      then match complianceResult with
           | Some result =>
               match findByIdAndUpdateCompliance (_id customer) result db with
               | (Some message, db') => (Caught message, db')
               | (None, db') => (Completed result, db')
               end
           | None => (WillRetry, db)
           end
      else (WillRetry, db)
  | ExternalServicesClient.Throw message => (Caught message, db)
  end.

End Compliance.

(** [getCustomerByNationalId]; the parameter is [req.params.nationalId],
    a text or [undefined].  The library casts the filter
    [{ nationalId }] through the schema of the model, whose [trim]
    applies to it, before the database compares. *)
Definition getCustomerByNationalId (nationalId : option string) (now : Date)
  (db : Collection) : Result :=
  if match nationalId with None | Some EmptyString => true | Some _ => false end
  then Failed (AppError "National ID is required" 400)
  else
    match findOne (fun c => match nationalId with
                            | Some given =>
                                String.eqb (Model.nationalId c) (JsString.trim given)
                            | None => false
                            end) db with
    | None => Failed (AppError "Customer not found with this National ID" 404)
    | Some customer =>
        Sent (sendSuccess now (OneCustomer customer) "Customer retrieved successfully" 200)
    end.

Section Update.

(** [Customer.findByIdAndUpdate(id, updateData, { new: true,
    runValidators: true })], as the library and the database carry it
    out on a collection: the call is rejected (by casting, by an update
    validator, by a unique index), or it resolves to the updated
    document, to [null] when no document has the id; with the
    collection afterwards. *)
Variable findByIdAndUpdateValidated :
  ObjectId -> JObject -> Date -> Collection -> (Error + option Customer) * Collection.

(** [updateCustomer] *)
Definition updateCustomer (id : ObjectId) (now : Date) (updateData : JObject)
  (db : Collection) : Result * Collection :=
  let emailInUse :=
    if truthy (prop "email" updateData)
    then
      let existingCustomer :=
        findOne (fun c => sameText (email c) (prop "email" updateData)
                          && negb (String.eqb (_id c) id)) db in
      match existingCustomer with Some _ => true | None => false end
    else false in
  if emailInUse
  then (Failed (AppError "Email address is already in use by another customer" 409), db)
  else
    match findByIdAndUpdateValidated id updateData now db with
    | (inl err, db') => (Failed err, db')
    | (inr None, db') => (Failed (AppError "Customer not found" 404), db')
    | (inr (Some customer), db') =>
        (Sent (sendSuccess now (OneCustomer customer) "Customer updated successfully" 200),
         db')
    end.

End Update.

(** The document types after which [addKycDocument] asks for a new
    compliance check. *)
Definition identityDocumentTypes : list string :=
  ["national_id"; "passport"; "driving_license"].

(** [addKycDocument]; the third component is the customer a compliance
    check was scheduled for, if one was. *)
Definition addKycDocument (id : ObjectId) (now : Date) (documentData : JObject)
  (db : Collection) : Result * Collection * option Customer :=
  match findById id db with
  | None => (Failed (AppError "Customer not found" 404), db, None)
  | Some found =>
      let document :=
        {| docType := orElse (getString "type" documentData) "";
           filename := orElse (getString "filename" documentData) "";
           uploadDate := now;
           verified := false;
           verifiedBy := None;
           verifiedAt := None |} in
      let customer := pushDocument document now found in
      match saveLoaded now customer db with
      | inl err => (Failed err, db, None)
      | inr db' =>
          (Sent (sendSuccess now (OneCustomer customer) "Document added successfully" 200),
           db',
           if match prop "type" documentData with
              | Some (JStr t) => existsb (String.eqb t) identityDocumentTypes
              | _ => false
              end
           then Some customer
           else None)
      end
  end.

Section Health.

(** What [process.uptime()] returns. *)
Variable Uptime : Type.

Record HealthServices : Type := {
  database : bool;
  ms2_accounts : bool;
  ms4_compliance : bool
}.

Record HealthData : Type := {
  status : string;
  timestamp : Date;
  services : HealthServices;
  version : string;
  uptime : Uptime
}.

(** [getHealthStatus]: the status code and the body of the response,
    given [mongoose.connection.readyState] and how the health requests
    to the two collaborators settled. *)
Definition getHealthStatus (readyState : Z) (seconds : Uptime) (now : Date)
  (ms2Settled ms4Settled : ExternalServicesClient.Settled) : Z * HealthData :=
  let dbStatus := readyState =? 1 in
  let servicesHealth := ExternalServicesClient.getServicesHealth ms2Settled ms4Settled in
  let healthData :=
    {| status := if dbStatus && ExternalServicesClient.overall servicesHealth
                 then "healthy" else "degraded";
       timestamp := now;
       services :=
         {| database := dbStatus;
            ms2_accounts := ExternalServicesClient.ms2 servicesHealth;
            ms4_compliance := ExternalServicesClient.ms4 servicesHealth |};
       version := "1.0.0";
       uptime := seconds |} in
  let statusCode := if String.eqb (status healthData) "healthy" then 200 else 503 in
  (statusCode, healthData).

End Health.

End CustomerController.

(* ===================================================================== *)
(** ** src/routes/customerRoutes.ts *)
(* ===================================================================== *)

Module Routes.

Import Model.
Import ErrorHandler.
Import Validator.

(** What the client gets from a route: the 400 of a validation
    middleware, or what the handler did. *)
Inductive Answer : Type :=
| Invalid (statusCode : Z) (message : string) (errors : list FieldError)
| Handled (r : Result).

(** A validation middleware in front of the rest of a route: the rest
    runs only when the middleware calls [next()]. *)
Definition guard (m : Middleware)
  (next : option JValue -> Collection -> Answer * Collection)
  (db : Collection) : Answer * Collection :=
  match m with
  | Reply statusCode message errors => (Invalid statusCode message errors, db)
  | Next validated => next validated db
  end.

(** The handler at the end of a route. *)
Definition handled (r : Result * Collection) : Answer * Collection :=
  (Handled (fst r), snd r).

Section Router.

Variable rt : Joi.Runtime.
Variable now : JsDate.Date.

(** [router.post('/', validateRequest(createCustomerSchema), createCustomer)] *)
Definition postCustomer (id : ObjectId) (body : JValue) (db : Collection)
  : Answer * Collection :=
  guard (validateRequest rt now createCustomerSchema body)
    (fun validatedBody db =>
       handled
         match validatedBody with
         | Some (JObj customerData) =>
             CustomerController.createCustomer id now customerData db
         | _ => (Failed (PlainError "Cannot read properties of the validated body"), db)
         end) db.

(** [router.put('/:id', validateParams(customerIdSchema),
    validateRequest(updateCustomerSchema), handler)], for whatever the
    handler does with the validated parameters and body. *)
Definition putCustomer
  (handler : option JValue -> option JValue -> Collection -> Result * Collection)
  (params body : JValue) (db : Collection) : Answer * Collection :=
  guard (validateParams rt now customerIdSchema params)
    (fun validatedParams db =>
       guard (validateRequest rt now updateCustomerSchema body)
         (fun validatedBody db => handled (handler validatedParams validatedBody db))
         db) db.

(** [router.get('/', validateQuery(searchCustomerSchema), searchCustomers)] *)
Definition getCustomers (regexMatch : string -> string -> bool)
  (regexError : string -> option string)
  (query : JValue) (db : Collection) : Answer * Collection :=
  guard (validateQuery rt now searchCustomerSchema query)
    (fun validatedQuery db =>
       handled
         match validatedQuery with
         | Some (JObj q) =>
             (CustomerController.searchCustomers regexMatch regexError now q db, db)
         | _ => (Failed (PlainError "Cannot read properties of the validated query"), db)
         end) db.

(** [const { id } = req.validatedParams], as the model reads it. *)
Definition idOf (validatedParams : option JValue) : option ObjectId :=
  match validatedParams with
  | Some (JObj o) =>
      match prop "id" o with
      | Some (JStr s) => Some (castObjectId s)
      | _ => None
      end
  | _ => None
  end.

(** A route [validateParams(customerIdSchema), handler] whose handler
    only reads the id. *)
Definition withCustomerId (handler : ObjectId -> Collection -> Result * Collection)
  (params : JValue) (db : Collection) : Answer * Collection :=
  guard (validateParams rt now customerIdSchema params)
    (fun validatedParams db =>
       handled
         match idOf validatedParams with
         | Some id => handler id db
         | None => (Failed (PlainError "Cannot read the id of the validated parameters"), db)
         end) db.

(** [router.get('/:id', validateParams(customerIdSchema), getCustomerById)] *)
Definition getCustomer : JValue -> Collection -> Answer * Collection :=
  withCustomerId (fun id db => (CustomerController.getCustomerById id now db, db)).

(** [router.delete('/:id', validateParams(customerIdSchema), deleteCustomer)] *)
Definition deleteCustomer : JValue -> Collection -> Answer * Collection :=
  withCustomerId (fun id db => CustomerController.deleteCustomer id now db).

(** [router.get('/:id/accounts', validateParams(customerIdSchema),
    getCustomerAccounts)], given how the request to MS2 settles. *)
Definition getAccounts (settled : ExternalServicesClient.Settled)
  : JValue -> Collection -> Answer * Collection :=
  withCustomerId
    (fun id db => (CustomerController.getCustomerAccounts id now settled db, db)).

(** [router.post('/:id/documents', validateParams(customerIdSchema),
    validateRequest(addKycDocumentSchema), addKycDocument)] *)
Definition postDocument (params body : JValue) (db : Collection) : Answer * Collection :=
  guard (validateParams rt now customerIdSchema params)
    (fun validatedParams db =>
       guard (validateRequest rt now addKycDocumentSchema body)
         (fun validatedBody db =>
            handled
              match idOf validatedParams, validatedBody with
              | Some id, Some (JObj documentData) =>
                  fst (CustomerController.addKycDocument id now documentData db)
              | _, _ =>
                  (Failed (PlainError "Cannot read properties of the validated request"), db)
              end) db) db.

(** The handler of [router.put('/:id', ...)]: [updateCustomer] on the
    validated parameters and body. *)
Definition updateHandler
  (findByIdAndUpdateValidated :
     ObjectId -> JObject -> JsDate.Date -> Collection ->
     (Error + option Customer) * Collection)
  (validatedParams validatedBody : option JValue) (db : Collection)
  : Result * Collection :=
  match idOf validatedParams, validatedBody with
  | Some id, Some (JObj updateData) =>
      CustomerController.updateCustomer findByIdAndUpdateValidated id now updateData db
  | _, _ => (Failed (PlainError "Cannot read properties of the validated request"), db)
  end.

(** [router.get('/by-national-id/:nationalId', getCustomerByNationalId)] *)
Definition getByNationalId (nationalId : option string) (db : Collection)
  : Answer * Collection :=
  handled (CustomerController.getCustomerByNationalId nationalId now db, db).

End Router.

End Routes.

(* ===================================================================== *)
(** ** src/middleware/errorHandler.ts: the error-handling middleware *)
(* ===================================================================== *)

Module ErrorMiddleware.

(** An error object as the handler reads it: the properties it owns
    and that are enumerable (what a spread copies), the properties it
    finds further up its prototype chain, and its message (own, not
    enumerable). The stack trace goes wherever the object goes. *)
Record CustomError : Type := {
  own : JObject;
  inherited : JObject;
  message : string
}.

(** [err.k] *)
Definition get (k : string) (err : CustomError) : option JValue :=
  match prop k (own err) with
  | Some v => Some v
  | None => prop k (inherited err)
  end.

(** [o.k = v] on the properties of an object. *)
Fixpoint assign (k : string) (v : JValue) (o : JObject) : JObject :=
  match o with
  | [] => [(k, v)]
  | (k', v') :: o' =>
      if String.eqb k k' then (k, v) :: o' else (k', v') :: assign k v o'
  end.

(** [err.k = v] *)
Definition set (k : string) (v : JValue) (err : CustomError) : CustomError :=
  {| own := assign k v (own err); inherited := inherited err; message := message err |}.

(** [a || b] *)
Definition orElse (a : option JValue) (b : JValue) : JValue :=
  if truthy a then match a with Some v => v | None => b end else b.

(** The text a template literal gives a value that may be [undefined]. *)
Definition templateText (v : option JValue) : string :=
  match v with
  | Some x => ExternalServicesClient.text x
  | None => "undefined"
  end.

(** The items of a list under their indices. *)
Fixpoint indexed (i : nat) (l : list JValue) : JObject :=
  match l with
  | [] => []
  | x :: l' => (Joi.indexText i, x) :: indexed (S i) l'
  end.

(** The own enumerable properties of a value that is not [null], as
    [Object.keys], [Object.values] and [v[k]] see them. *)
Definition entries (v : JValue) : JObject :=
  match v with
  | JObj o => o
  | JArr l => indexed O l
  | JStr s => indexed O (map (fun c => JStr (String c EmptyString)) (list_ascii_of_string s))
  | _ => []
  end.

(** [new AppError(message, statusCode)] *)
Definition newAppError (message : string) (statusCode : Z) : CustomError :=
  {| own := [("statusCode", JNum statusCode);
             ("status", JStr (if String.prefix "4" (ExternalServicesClient.text (JNum statusCode))
                              then "fail" else "error"));
             ("isOperational", JBool true)];
     inherited := [("name", JStr "Error")];
     message := message |}.

Definition handleCastErrorDB (err : CustomError) : CustomError :=
  let message :=
    ("Invalid " ++ templateText (get "path" err) ++ ": " ++ templateText (get "value" err))%string in
  newAppError message 400.

Definition handleDuplicateFieldsDB (err : CustomError) : CustomError :=
  let keyValue := orElse (get "keyValue" err) (JObj []) in
  let duplicateField := hd_error (keys (entries keyValue)) in
  let named := truthy (option_map JStr duplicateField) in
  let duplicateValue :=
    if named
    then match duplicateField with
         | Some k => prop k (entries keyValue)
         | None => None
         end
    else Some (JStr "unknown") in
  let fieldIs (k : string) :=
    match duplicateField with Some d => String.eqb d k | None => false end in
  let message :=
    if fieldIs "email"
    then ("Email address '" ++ templateText duplicateValue
          ++ "' is already registered. Please use a different email.")%string
    else if fieldIs "nationalId"
    then ("National ID '" ++ templateText duplicateValue
          ++ "' is already registered. Please verify your identity document.")%string
    else if fieldIs "passportNumber"
    then ("Passport number '" ++ templateText duplicateValue
          ++ "' is already registered.")%string
    else if named
    then (match duplicateField with Some d => d | None => "" end
          ++ " '" ++ templateText duplicateValue
          ++ "' already exists. Please use a different value.")%string
    else "Duplicate field value detected" in
  newAppError message 409.

(** [handleValidationErrorDB]; [None] when it throws a [TypeError]
    ([err.errors] is missing or [null], or one of its values is [null]). *)
Definition handleValidationErrorDB (err : CustomError) : option CustomError :=
  match get "errors" err with
  | None | Some JNull => None
  | Some table =>
      let values := map snd (entries table) in
      if existsb (same JNull) values
      then None
      else
        let errors := map (fun val => prop "message" (entries val)) values in
        let joined :=
          String.concat ". "
            (map (fun m => match m with
                           | None | Some JNull => ""
                           | Some v => ExternalServicesClient.text v
                           end) errors) in
        Some (newAppError ("Invalid input data: " ++ joined) 400)
  end.

Definition handleJWTError : CustomError :=
  newAppError "Invalid token. Please log in again!" 401.

Definition handleJWTExpiredError : CustomError :=
  newAppError "Your token has expired! Please log in again." 401.

(** What the handler sends: the argument of [res.status] and the body
    ([success], [status], [message]); in development the body also
    holds the error object and its stack trace. *)
Record ErrorReply : Type := {
  statusCode : JValue;
  success : bool;
  status : option JValue;
  replyMessage : string;
  error : option CustomError
}.

Definition sendErrorDev (err : CustomError) : ErrorReply :=
  {| statusCode := orElse (get "statusCode" err) (JNum 500);
     success := false;
     status := get "status" err;
     replyMessage := message err;
     error := Some err |}.

Definition sendErrorProd (err : CustomError) : ErrorReply :=
  if truthy (get "isOperational" err)
  then {| statusCode := orElse (get "statusCode" err) (JNum 500);
          success := false;
          status := get "status" err;
          replyMessage := message err;
          error := None |}
  else {| statusCode := JNum 500;
          success := false;
          status := Some (JStr "error");
          replyMessage := "Something went wrong!";
          error := None |}.

(** [error.k === text] *)
Definition isText (k : string) (err : CustomError) (text : string) : bool :=
  match get k err with
  | Some (JStr s) => String.eqb s text
  | _ => false
  end.

(** [globalErrorHandler], given [process.env.NODE_ENV]; [None] when the
    handler itself throws. *)
Definition globalErrorHandler (nodeEnv : option string) (err : CustomError)
  : option ErrorReply :=
  let err := set "statusCode" (orElse (get "statusCode" err) (JNum 500)) err in
  let err := set "status" (orElse (get "status" err) (JStr "error")) err in
  if match nodeEnv with Some e => String.eqb e "development" | None => false end
  then Some (sendErrorDev err)
  else
    let error := {| own := own err; inherited := []; message := message err |} in
    let error := if isText "name" error "CastError" then handleCastErrorDB error else error in
    let error :=
      if match get "code" error with Some (JNum 11000) => true | _ => false end
      then handleDuplicateFieldsDB error
      else error in
    match
      (if isText "name" error "ValidationError"
       then handleValidationErrorDB error
       else Some error)
    with
    | None => None
    | Some error =>
        let error :=
          if isText "name" error "JsonWebTokenError" then handleJWTError else error in
        let error :=
          if isText "name" error "TokenExpiredError" then handleJWTExpiredError else error in
        Some (sendErrorProd error)
    end.

(** The error [notFoundHandler] hands to [next]. *)
Definition notFoundHandler (originalUrl : string) : CustomError :=
  newAppError ("Can't find " ++ originalUrl ++ " on this server!") 404.

End ErrorMiddleware.

(* ===================================================================== *)
(** ** src/middleware/security.ts *)
(* ===================================================================== *)

Module Security.

(** What a middleware of this file does with a request: it answers
    itself, or it calls [next()]. *)
Inductive Checked : Type :=
| Rejected (statusCode : Z) (message : string)
| Next.

(** [validateContentType], given [req.method] and
    [req.headers['content-type']]. *)
Definition validateContentType (method : string) (contentType : option string) : Checked :=
  if existsb (String.eqb method) ["POST"; "PUT"; "PATCH"]
  then
    if negb match contentType with
            | Some t => JsString.includes t "application/json"
            | None => false
            end
    then Rejected 400 "Content-Type must be application/json"
    else Next
  else Next.

End Security.

(* ===================================================================== *)
(** ** A runtime and sample data to run the definitions on *)
(* ===================================================================== *)

(** A stand-in for the library's runtime, used only to evaluate the
    definitions on concrete requests: dates are read from
    [YYYY-MM-DD], numbers from decimal integer literals, and an address
    counts as an email address when it has the shape the model's own
    [match] asks for. The theorems quantify over every runtime. *)
Definition sampleRuntime : Joi.Runtime :=
  {| Joi.isEmail := Regex.test Model.emailMatch;
     Joi.parseDate := JsDate.parseIsoDay;
     Joi.parseNumber := JsString.parseInteger |}.

(** A runtime whose address check accepts top-level domains of any
    length, as the library's does. *)
Definition lenientEmail : Regex.re :=
  let word := Regex.plus (Regex.Chr [Regex.Word]) in
  let more := Regex.Star (Regex.Seq (Regex.opt (Regex.Chr [Regex.Lit "."; Regex.Lit "-"]))
                            word) in
  Regex.Seq word (Regex.Seq more (Regex.Seq (Regex.Chr [Regex.Lit "@"])
    (Regex.Seq word (Regex.Seq more
       (Regex.plus (Regex.Seq (Regex.Chr [Regex.Lit "."])
                      (Regex.Seq (Regex.times 2 (Regex.Chr [Regex.Word]))
                         (Regex.Star (Regex.Chr [Regex.Word]))))))))).

Definition lenientRuntime : Joi.Runtime :=
  {| Joi.isEmail := Regex.test lenientEmail;
     Joi.parseDate := JsDate.parseIsoDay;
     Joi.parseNumber := JsString.parseInteger |}.

(** Noon of 3 November 2026. *)
Definition sampleNow : JsDate.Date := JsDate.mkDate 2026 10 3 43200000.

(** The registration of the specification's example scenario, with the
    email, national identifier and date of birth to choose. *)
Definition sampleRegistration (email nationalId dateOfBirth : string) : JValue :=
  JObj [("firstName", JStr "Ana"); ("lastName", JStr "Ruiz"); ("email", JStr email);
        ("phone", JStr "+57 300 111 2222"); ("dateOfBirth", JStr dateOfBirth);
        ("nationalId", JStr nationalId);
        ("address", JObj [("street", JStr "Calle 1"); ("city", JStr "Bogota");
                          ("state", JStr "Cund."); ("postalCode", JStr "110001")])].

(** What [validateRequest] hands to the handler for a body, [[]] when it
    answered 400. *)
Definition validatedBody (schema : Joi.Schema) (body : JValue) : JObject :=
  match Validator.validateRequest sampleRuntime sampleNow schema body with
  | Validator.Next (Some (JObj data)) => data
  | _ => []
  end.

(* ===================================================================== *)
(** ** The vocabulary of the statements *)
(* ===================================================================== *)

Section DateOfBirth.

Import JsDate.

(** The calendar day of [a] is not after the calendar day of [b]. *)
Definition dayLeb (a b : Date) : bool :=
  (getFullYear a <? getFullYear b)
  || ((getFullYear a =? getFullYear b)
      && ((getMonth a <? getMonth b)
          || ((getMonth a =? getMonth b) && (getDate a <=? getDate b)))).

(** The [k]-th anniversary of a date. *)
Definition anniversary (k : Z) (d : Date) : Date := yearsBefore (- k) d.

(** Whether the [dateOfBirth] rule of [createCustomerSchema] accepts a date. *)
Definition dateOfBirthAccepted (rt : Joi.Runtime) (now value : Date) : bool :=
  match snd (Joi.validate rt true now ["dateOfBirth"] Validator.dateOfBirthSchema
               (Some (JDate value))) with
  | [] => true
  | _ => false
  end.

End DateOfBirth.

(** Booleans of integer comparisons, read as propositions. *)
Ltac boolZ :=
  repeat match goal with
         | H : (_ <? _) = true |- _ => apply Z.ltb_lt in H
         | H : (_ <? _) = false |- _ => apply Z.ltb_ge in H
         | H : (_ <=? _) = true |- _ => apply Z.leb_le in H
         | H : (_ <=? _) = false |- _ => apply Z.leb_gt in H
         | H : (_ =? _) = true |- _ => apply Z.eqb_eq in H
         | H : (_ =? _) = false |- _ => apply Z.eqb_neq in H
         | H : (_ || _)%bool = true |- _ => apply orb_true_iff in H; destruct H
         | H : (_ || _)%bool = false |- _ => apply orb_false_iff in H; destruct H
         | H : (_ && _)%bool = true |- _ => apply andb_true_iff in H; destruct H
         | H : (_ && _)%bool = false |- _ => apply andb_false_iff in H; destruct H
         end.

Ltac propZ :=
  repeat (rewrite orb_true_iff || rewrite andb_true_iff || rewrite Z.ltb_lt
          || rewrite Z.leb_le || rewrite Z.eqb_eq).

Section ObjectSchemas.

Variable rt : Joi.Runtime.
Variable stripUnknown : bool.
Variable now : JsDate.Date.

Section Children.

Variable p : list string.
Variable o : JObject.

(** The outcomes of the children of an object schema, in schema order. *)
Fixpoint eachChild (children : list (string * Joi.Schema))
  : list (string * Joi.Outcome) :=
  match children with
  | [] => []
  | c :: cs =>
      (fst c, Joi.validate rt stripUnknown now (p ++ [fst c]) (snd c) (prop (fst c) o))
        :: eachChild cs
  end.

End Children.

(** The keys of the input that the schema does not declare. *)
Definition unknownOf (children : list (string * Joi.Schema)) (o : JObject) : JObject :=
  filter (fun kv => negb (Joi.declared children (fst kv))) o.

(** Value and errors of an object before its own rules run. *)
Definition objectBody (p : list string) (children : list (string * Joi.Schema))
  (f : Joi.Flags) (o : JObject) : JValue * list Joi.Detail :=
  if stripUnknown
  then (JObj (Joi.childValues (eachChild p o children)),
        Joi.childErrors (eachChild p o children))
  else (JObj (Joi.childValues (eachChild p o children) ++ unknownOf children o),
        Joi.childErrors (eachChild p o children)
          ++ map (fun kv => Joi.report f (p ++ [fst kv]) "object.unknown" (Some (snd kv)))
               (unknownOf children o)).

End ObjectSchemas.

(** The fields [updateCustomerSchema] forbids. *)
Definition immutableFields : list string :=
  ["nationalId"; "dateOfBirth"; "documents"; "emailVerified"; "phoneVerified";
   "identityVerified"; "complianceStatus"; "status"].

(** The message the update schema gives a forbidden field. *)
Definition immutableMessage (k : string) : Joi.Message :=
  if String.eqb k "nationalId"
  then Joi.Custom "National ID cannot be updated directly"
  else if String.eqb k "dateOfBirth"
  then Joi.Custom "Date of birth cannot be updated directly"
  else if String.eqb k "documents"
  then Joi.Custom "Documents must be updated through dedicated endpoints"
  else Joi.Template "any.unknown".

(** The fields of a body that the schema declares. *)
Definition declaredPart (s : Joi.Schema) (o : JObject) : JObject :=
  filter (fun kv => Joi.declared (Joi.childrenOf s) (fst kv)) o.

(** What is left of a value under a schema when the undeclared fields
    are dropped at every depth: in the value itself, in the objects its
    declared fields hold and in the items of its arrays. *)
Fixpoint strip (s : Joi.Schema) (v : JValue) {struct s} : JValue :=
  match s with
  | Joi.Obj children _ =>
      match v with
      | JObj o =>
          JObj (flat_map
                  (fun kv =>
                     (fix look (cs : list (string * Joi.Schema)) : JObject :=
                        match cs with
                        | [] => []
                        | c :: cs' =>
                            if String.eqb (fst kv) (fst c)
                            then [(fst kv, strip (snd c) (snd kv))]
                            else look cs'
                        end) children) o)
      | _ => v
      end
  | Joi.Arr e _ => match v with JArr l => JArr (map (strip e) l) | _ => v end
  | _ => v
  end.

(** The schemas of the sources: no object or array in them is forbidden
    or restricted to listed values, and no object declares a key twice. *)
Fixpoint plain (s : Joi.Schema) : bool :=
  match s with
  | Joi.Obj children f =>
      match Joi.presence f with Joi.Forbidden => false | _ => true end
      && negb (Joi.only f)
      && (fix all (cs : list (string * Joi.Schema)) : bool :=
            match cs with
            | [] => true
            | c :: cs' => negb (existsb (fun d => String.eqb (fst c) (fst d)) cs')
                          && plain (snd c) && all cs'
            end) children
  | Joi.Arr e f =>
      match Joi.presence f with Joi.Forbidden => false | _ => true end
      && negb (Joi.only f) && plain e
  | _ => true
  end.

Fixpoint childrenPlain (cs : list (string * Joi.Schema)) : bool :=
  match cs with
  | [] => true
  | c :: cs' => negb (existsb (fun d => String.eqb (fst c) (fst d)) cs')
                && plain (snd c) && childrenPlain cs'
  end.

(** What [strip] leaves of one field of an object. *)
Definition stripField (children : list (string * Joi.Schema)) (kv : string * JValue)
  : JObject :=
  (fix look (cs : list (string * Joi.Schema)) : JObject :=
     match cs with
     | [] => []
     | c :: cs' =>
         if String.eqb (fst kv) (fst c)
         then [(fst kv, strip (snd c) (snd kv))]
         else look cs'
     end) children.

Section Items.

Variable rt : Joi.Runtime.
Variable now : JsDate.Date.
Variable p : list string.
Variable e : Joi.Schema.

(** The outcomes of the items of an array, with their indices. *)
Fixpoint eachItem (i : nat) (l : list JValue) : list (nat * Joi.Outcome) :=
  match l with
  | [] => []
  | x :: l' =>
      (i, Joi.validate rt true now (p ++ [Joi.indexText i]) e (Some x)) :: eachItem (S i) l'
  end.

End Items.

(** Induction on schemas, through the children of objects and the items
    of arrays. *)
Fixpoint Schema_induction (P : Joi.Schema -> Prop)
  (hAny : forall f, P (Joi.Any f))
  (hStr : forall t l f, P (Joi.Str t l f))
  (hNum : forall f, P (Joi.Num f))
  (hBoolean : forall f, P (Joi.Boolean f))
  (hDat : forall f, P (Joi.Dat f))
  (hArr : forall e f, P e -> P (Joi.Arr e f))
  (hObj : forall children f, Forall (fun c => P (snd c)) children -> P (Joi.Obj children f))
  (s : Joi.Schema) {struct s} : P s :=
  match s with
  | Joi.Any f => hAny f
  | Joi.Str t l f => hStr t l f
  | Joi.Num f => hNum f
  | Joi.Boolean f => hBoolean f
  | Joi.Dat f => hDat f
  | Joi.Arr e f => hArr e f (Schema_induction P hAny hStr hNum hBoolean hDat hArr hObj e)
  | Joi.Obj children f =>
      hObj children f
        ((fix all (cs : list (string * Joi.Schema)) : Forall (fun c => P (snd c)) cs :=
            match cs with
            | [] => Forall_nil _
            | c :: cs' =>
                Forall_cons c
                  (Schema_induction P hAny hStr hNum hBoolean hDat hArr hObj (snd c))
                  (all cs')
            end) children)
  end.

(** What [validateRequest] does with the undeclared fields of a body
    under a schema: the answer is the one the declared part of the body
    gets, also when the undeclared fields are dropped at every depth,
    and a validated body holds declared fields only. *)
Definition stripsUndeclared (rt : Joi.Runtime) (now : JsDate.Date) (s : Joi.Schema)
  (o : JObject) : Prop :=
  Validator.validateRequest rt now s (JObj o)
  = Validator.validateRequest rt now s (JObj (declaredPart s o))
  /\ Validator.validateRequest rt now s (JObj o)
     = Validator.validateRequest rt now s (strip s (JObj o))
  /\ forall validated,
      Validator.validateRequest rt now s (JObj o) = Validator.Next validated ->
      exists o', validated = Some (JObj o')
                 /\ forall k, In k (keys o') -> Joi.declared (Joi.childrenOf s) k = true.

(** The integer a submitted value stands for: a number, or a text the
    runtime reads as one. *)
Definition submittedNumber (rt : Joi.Runtime) (v : JValue) : option Z :=
  match v with
  | JNum n => Some n
  | JStr s => Joi.parseNumber rt s
  | _ => None
  end.


Section Gateway.

Import ExternalServicesClient.

(** The remote answered, with status [s]. *)
Definition answered (e : AxiosError) (s : Z) : Prop :=
  isCode e "ECONNREFUSED" = false /\ statusOf e = Some s.

(** The connection was refused. *)
Definition refused (e : AxiosError) : Prop := isCode e "ECONNREFUSED" = true.

(** [error.response?.data?.message || fallback], as text. *)
Definition remoteMessageOr (fallback : string) (e : AxiosError) : string :=
  if truthy (field "message" (responseData e))
  then match field "message" (responseData e) with
       | Some m => text m
       | None => fallback
       end
  else fallback.

(** A response body that is not [{ success: <truthy>, ... }]. *)
Definition malformed (r : AxiosResponse) : Prop :=
  (truthy (data r) && truthy (field "success" (data r)))%bool = false.

End Gateway.

(** A rejection by the remote validation (HTTP 400), as axios reports it. *)
Definition sampleBadRequest : ExternalServicesClient.AxiosError :=
  {| ExternalServicesClient.code := Some "ERR_BAD_REQUEST";
     ExternalServicesClient.response :=
       Some {| ExternalServicesClient.status := 400;
               ExternalServicesClient.data :=
                 Some (JObj [("success", JBool false);
                             ("message", JStr "nationalId is not valid")]) |};
     ExternalServicesClient.message := "Request failed with status code 400" |}.

(** A remote 500 whose body carries a message. *)
Definition sampleServerError : ExternalServicesClient.AxiosError :=
  {| ExternalServicesClient.code := Some "ERR_BAD_RESPONSE";
     ExternalServicesClient.response :=
       Some {| ExternalServicesClient.status := 500;
               ExternalServicesClient.data :=
                 Some (JObj [("success", JBool false);
                             ("message", JStr "ledger database is down")]) |};
     ExternalServicesClient.message := "Request failed with status code 500" |}.

(** A stored customer with the given identifier, email, national
    identifier and creation time. *)
Definition sampleCustomer (id email nationalId : string) (created : JsDate.Date)
  : Model.Customer :=
  {| Model._id := id;
     Model.firstName := "Ana";
     Model.lastName := "Ruiz";
     Model.email := email;
     Model.phone := "+57 300 111 2222";
     Model.dateOfBirth := JsDate.mkDate 1990 0 1 0;
     Model.nationalId := nationalId;
     Model.passportNumber := None;
     Model.address :=
       {| Model.street := "Calle 1"; Model.city := "Bogota"; Model.state := "Cund.";
          Model.postalCode := "110001"; Model.country := "Colombia" |};
     Model.documents := [];
     Model.emailVerified := false;
     Model.phoneVerified := false;
     Model.identityVerified := false;
     Model.preferences :=
       {| Model.language := "es"; Model.currency := "COP";
          Model.notificationPreferences :=
            {| Model.byEmail := true; Model.bySms := true; Model.byPush := true |};
          Model.marketingConsent := false |};
     Model.registrationDate := created;
     Model.lastLoginDate := None;
     Model.status := "pending_verification";
     Model.complianceStatus := "pending";
     Model.complianceNotes := None;
     Model.complianceCheckedAt := None;
     Model.createdAt := created;
     Model.updatedAt := created |}.

(** [a] was not created before [b]. *)
Definition newestFirst (a b : Model.Customer) : Prop :=
  JsDate.ltb (Model.createdAt a) (Model.createdAt b) = false.

(** A text that does not start with white space. *)
Definition startsClean (s : string) : Prop :=
  match s with
  | EmptyString => True
  | String c _ => JsString.isSpace c = false
  end.

(** The first stored record, in scan order, that has the email or the
    national identifier: what the [findOne] of [createCustomer] returns. *)
Definition firstMatch (em nid : string) (db : Model.Collection) : option Model.Customer :=
  Model.findOne (fun c => String.eqb (Model.email c) em
                          || String.eqb (Model.nationalId c) nid) db.

Definition emailTaken : Model.Error :=
  Model.AppError "Email address is already registered" 409.

Definition nationalIdTaken : Model.Error :=
  Model.AppError "National ID is already registered" 409.

(** Two stored customers: the first has the national identifier of the
    registration below, the second has its email. *)
Definition sampleTwoOwners : Model.Collection :=
  [sampleCustomer "c1" "bea@x.com" "11111111" (JsDate.mkDate 2026 0 10 0);
   sampleCustomer "c2" "ana@x.com" "22222222" (JsDate.mkDate 2026 1 20 0)].

(** The query [?page=2&limit=10], as the router hands it over. *)
Definition samplePageTwo : JValue := JObj [("page", JStr "2"); ("limit", JStr "10")].

(** The query [?page=2&limit=1]. *)
Definition sampleSecondOfTwo : JValue := JObj [("page", JStr "2"); ("limit", JStr "1")].

(** The query [?q=abc(]: three letters and an opening parenthesis. *)
Definition sampleUnclosedGroup : JValue := JObj [("q", JStr "abc(")].

(** The last character of a text is an opening parenthesis. *)
Fixpoint endsWithOpen (s : string) : bool :=
  match s with
  | EmptyString => false
  | String c EmptyString => Ascii.eqb c "("
  | String _ r => endsWithOpen r
  end.

(** A database that rejects one kind of ill-formed pattern, as the
    regular expression library of the database does: a pattern without
    backslash and without bracket whose last character opens a group.
    It lets every other pattern pass. *)
Definition sampleRegexError (pattern : string) : option string :=
  if endsWithOpen pattern
     && forallb (fun c => negb ((nat_of_ascii c =? 92)%nat || (nat_of_ascii c =? 91)%nat))
          (list_ascii_of_string pattern)
  then Some "Regular expression is invalid: missing closing parenthesis"
  else None.

Definition validatedQuery (query : JValue) : JObject :=
  match Validator.validateQuery sampleRuntime sampleNow Validator.searchCustomerSchema
          query with
  | Validator.Next (Some (JObj q)) => q
  | _ => []
  end.

(* ===================================================================== *)
(** ** The vocabulary of the further properties *)
(* ===================================================================== *)

(** *** Request validation *)

(** A hexadecimal digit, in either case. *)
Definition isHexDigit (c : ascii) : bool :=
  let n := nat_of_ascii c in
  JsString.isDigit c || ((97 <=? n) && (n <=? 102))%nat || ((65 <=? n) && (n <=? 70))%nat.

(** A text of exactly 24 hexadecimal digits. *)
Definition hex24 (s : string) : bool :=
  (String.length s =? 24)%nat && forallb isHexDigit (list_ascii_of_string s).

(** The one error [validateParams(customerIdSchema)] reports for a text
    that is no identifier. *)
Definition invalidId (s : string) : Validator.FieldError :=
  {| Validator.field := "id";
     Validator.message :=
       if String.eqb s "" then Joi.Template "string.empty"
       else Joi.Custom "Invalid customer ID format";
     Validator.value := Some (JStr s) |}.

(** A text of ASCII characters.  On these the white space of
    [JsString.isSpace] is the white space of JavaScript, for [trim] and
    for the class [\s]; further white space (the no-break space, say)
    lies outside ASCII. *)
Definition asciiText (s : string) : bool :=
  forallb (fun c => (nat_of_ascii c <? 128)%nat) (list_ascii_of_string s).

(** A character a phone number may hold after its optional plus sign. *)
Definition isPhoneChar (c : ascii) : bool :=
  JsString.isDigit c || JsString.isSpace c
  || Ascii.eqb c "-" || Ascii.eqb c "(" || Ascii.eqb c ")".

(** The texts [phonePattern] describes: an optional plus sign, then 10
    to 15 digits, spaces, hyphens or parentheses. *)
Definition phoneShape (s : string) : bool :=
  let body := match s with String "+" r => r | _ => s end in
  ((10 <=? String.length body)%nat && (String.length body <=? 15)%nat
   && forallb isPhoneChar (list_ascii_of_string body))%bool.

(** The message of the create schema for a phone it does not accept. *)
Definition phoneMessage (trimmed : string) : Joi.Message :=
  if String.eqb trimmed ""
  then Joi.Custom "Phone number is required"
  else Joi.Custom "Please provide a valid phone number (10-15 digits)".

(** The fields [createCustomerSchema] requires. *)
Definition requiredFields : list string :=
  ["firstName"; "lastName"; "email"; "phone"; "dateOfBirth"; "nationalId"; "address"].

(** The message the create schema gives a missing required field. *)
Definition requiredMessage (k : string) : Joi.Message :=
  if String.eqb k "dateOfBirth"
  then Joi.Custom "Date of birth is required"
  else Joi.Template "any.required".

(** The one error of an update that holds no declared field. *)
Definition emptyUpdate : Validator.FieldError :=
  {| Validator.field := "";
     Validator.message := Joi.Custom "At least one field must be provided for update";
     Validator.value := Some (JObj []) |}.

(** The schema an object schema declares for a key. *)
Definition childSchema (s : Joi.Schema) (k : string) : Joi.Schema :=
  match find (fun c => String.eqb k (fst c)) (Joi.childrenOf s) with
  | Some c => snd c
  | None => Joi.any
  end.

(** A preferences object that holds every setting the request left
    out, at its default. *)
Definition completedPreferences (given completed : JObject) : Prop :=
  (prop "language" given = None -> prop "language" completed = Some (JStr "es"))
  /\ (prop "currency" given = None -> prop "currency" completed = Some (JStr "COP"))
  /\ (prop "notificationPreferences" given = None ->
      prop "notificationPreferences" completed = Some (JObj []))
  /\ (prop "marketingConsent" given = None ->
      prop "marketingConsent" completed = Some (JBool false)).

(** What a text schema makes of a text before it checks it. *)
Definition coerced (trims lowers : bool) (raw : string) : string :=
  let x := if lowers then JsString.toLowerCase raw else raw in
  if trims then JsString.trim x else x.

(** *** The validators of the model *)

(** The paths on which the validators of the model reject a
    registration with this email and date of birth, when everything
    else passes: the email when it has not the shape the model asks
    for, the date of birth when it lies 121 calendar years back. *)
Definition secondGate (today : JsDate.Date) (em : string) (dob : JsDate.Date) : list string :=
  (if Regex.test Model.emailMatch em then [] else ["email"])
  ++ (if JsDate.getFullYear today - JsDate.getFullYear dob =? 121
      then ["dateOfBirth"] else []).

(** The texts an expression matches. *)
Inductive matches : Regex.re -> string -> Prop :=
| MEps : matches Regex.Eps ""
| MChr (k : list Regex.atom) (c : ascii) :
    existsb (fun a => Regex.inAtom a c) k = true ->
    matches (Regex.Chr k) (String c "")
| MSeq (a b : Regex.re) (s t : string) :
    matches a s -> matches b t -> matches (Regex.Seq a b) (s ++ t)
| MAltL (a b : Regex.re) (s : string) : matches a s -> matches (Regex.Alt a b) s
| MAltR (a b : Regex.re) (s : string) : matches b s -> matches (Regex.Alt a b) s
| MStar0 (a : Regex.re) : matches (Regex.Star a) ""
| MStarS (a : Regex.re) (s t : string) :
    matches a s -> matches (Regex.Star a) t -> matches (Regex.Star a) (s ++ t).

(** The text after the last full stop of a text. *)
Fixpoint lastLabel (s : string) : option string :=
  match s with
  | EmptyString => None
  | String c r =>
      match lastLabel r with
      | Some l => Some l
      | None => if Ascii.eqb c "." then Some r else None
      end
  end.

(** The text ends in a full stop followed by two or three word characters. *)
Definition shortLastLabel (s : string) : bool :=
  match lastLabel s with
  | Some l =>
      ((2 <=? String.length l)%nat && (String.length l <=? 3)%nat
       && forallb JsString.isWord (list_ascii_of_string l))%bool
  | None => false
  end.

(** *** The handlers *)

(** The answer of a lookup that found a customer. *)
Definition retrieved (now : JsDate.Date) (customer : Model.Customer) : ErrorHandler.Result :=
  ErrorHandler.Sent
    (ErrorHandler.sendSuccess now (ErrorHandler.OneCustomer customer)
       "Customer retrieved successfully" 200).

(** The two texts the unique indexes of the collection are built on. *)
Definition uniqueKeysOf (c : Model.Customer) : string * string :=
  (Model.email c, Model.nationalId c).

(** No two stored customers share an email or a national identifier. *)
Definition uniqueKeys (db : Model.Collection) : Prop :=
  NoDup (map Model.email db) /\ NoDup (map Model.nationalId db).

(** The document [addKycDocument] pushes for a type and a file name. *)
Definition uploaded (t fn : string) (now : JsDate.Date) : Model.KYCDocument :=
  {| Model.docType := t;
     Model.filename := fn;
     Model.uploadDate := now;
     Model.verified := false;
     Model.verifiedBy := None;
     Model.verifiedAt := None |}.

(** [after] is [before] with the document at the end of its documents
    and with the time of the change; nothing else differs. *)
Definition documentAdded (d : Model.KYCDocument) (today : JsDate.Date)
  (before after : Model.Customer) : Prop :=
  Model.documents after = Model.documents before ++ [d]
  /\ Model.updatedAt after = today
  /\ Model._id after = Model._id before
  /\ Model.firstName after = Model.firstName before
  /\ Model.lastName after = Model.lastName before
  /\ Model.email after = Model.email before
  /\ Model.phone after = Model.phone before
  /\ Model.dateOfBirth after = Model.dateOfBirth before
  /\ Model.nationalId after = Model.nationalId before
  /\ Model.passportNumber after = Model.passportNumber before
  /\ Model.address after = Model.address before
  /\ Model.emailVerified after = Model.emailVerified before
  /\ Model.phoneVerified after = Model.phoneVerified before
  /\ Model.identityVerified after = Model.identityVerified before
  /\ Model.preferences after = Model.preferences before
  /\ Model.registrationDate after = Model.registrationDate before
  /\ Model.lastLoginDate after = Model.lastLoginDate before
  /\ Model.status after = Model.status before
  /\ Model.complianceStatus after = Model.complianceStatus before
  /\ Model.complianceNotes after = Model.complianceNotes before
  /\ Model.complianceCheckedAt after = Model.complianceCheckedAt before
  /\ Model.createdAt after = Model.createdAt before.

Definition emailInUse : Model.Error :=
  Model.AppError "Email address is already in use by another customer" 409.

(** A stored customer that passes the validators of the model. *)
Definition sampleValidCustomer : Model.Customer :=
  sampleCustomer "c1" "ana@x.com" "12345678" (JsDate.mkDate 2026 0 10 0).

(** Everything a search matches, in the order of the result pages. *)
Definition allMatches (filter : Model.Customer -> bool) (db : Model.Collection)
  : list Model.Customer :=
  Model.sortByCreatedAtDesc (map Model.withoutDocuments (List.filter filter db)).

(** The items [searchCustomers] puts on a page. *)
Definition pageItems (filter : Model.Customer -> bool) (page limit : Z)
  (db : Model.Collection) : list Model.Customer :=
  CustomerController.findPage filter ((page - 1) * limit) limit db.

(** The pages 1, 2, ..., [pages]. *)
Definition pageNumbers (pages : Z) : list Z :=
  map (fun i => Z.of_nat i + 1) (seq 0 (Z.to_nat pages)).

(** The health request was answered with status 200. *)
Definition healthy200 (settled : ExternalServicesClient.Settled) : Prop :=
  exists r, settled = ExternalServicesClient.Fulfilled r
            /\ ExternalServicesClient.status r = 200.

(** The request to MS2 brought an answer the client turns into a list
    of accounts: a response, or the remote's 404. *)
Definition accountsServed (settled : ExternalServicesClient.Settled) : Prop :=
  (exists r, settled = ExternalServicesClient.Fulfilled r)
  \/ (exists e, settled = ExternalServicesClient.RejectedAxios e /\ answered e 404).

(** MS4 gave a response the client hands on as a result: a body with
    a truthy [success], whose [data] is this result and is truthy. *)
Definition complianceResult (settled : ExternalServicesClient.Settled) (result : JValue)
  : Prop :=
  exists r,
    settled = ExternalServicesClient.Fulfilled r
    /\ ~ malformed r
    /\ ExternalServicesClient.field "data" (ExternalServicesClient.data r) = Some result
    /\ truthy (Some result) = true.

(** *** The middlewares *)

(** The copy [{ ...err }] the handler works on outside development,
    made after it has filled in [statusCode] and [status]. *)
Definition spreadCopy (err : ErrorMiddleware.CustomError) : ErrorMiddleware.CustomError :=
  let err1 :=
    ErrorMiddleware.set "statusCode"
      (ErrorMiddleware.orElse (ErrorMiddleware.get "statusCode" err) (JNum 500)) err in
  let err2 :=
    ErrorMiddleware.set "status"
      (ErrorMiddleware.orElse (ErrorMiddleware.get "status" err1) (JStr "error")) err1 in
  {| ErrorMiddleware.own := ErrorMiddleware.own err2;
     ErrorMiddleware.inherited := [];
     ErrorMiddleware.message := ErrorMiddleware.message err2 |}.

(** The names for which the handler replaces the error by one of its own. *)
Definition handledNames : list string :=
  ["CastError"; "ValidationError"; "JsonWebTokenError"; "TokenExpiredError"].

(** The answer that tells the client nothing about the error. *)
Definition genericReply : ErrorMiddleware.ErrorReply :=
  {| ErrorMiddleware.statusCode := JNum 500;
     ErrorMiddleware.success := false;
     ErrorMiddleware.status := Some (JStr "error");
     ErrorMiddleware.replyMessage := "Something went wrong!";
     ErrorMiddleware.error := None |}.

(** An error that was not built by [new AppError] and that none of the
    special cases of the handler recognises, as far as its own
    enumerable properties tell. *)
Definition unexpected (err : ErrorMiddleware.CustomError) : Prop :=
  truthy (prop "isOperational" (ErrorMiddleware.own err)) = false
  /\ (forall n, In n handledNames ->
        prop "name" (ErrorMiddleware.own err) <> Some (JStr n))
  /\ prop "code" (ErrorMiddleware.own err) <> Some (JNum 11000).

(** The error of the driver for a document that violates the unique
    index of [field]: code 11000 and the offending key. *)
Definition duplicateKeyError (err : ErrorMiddleware.CustomError) (field : string)
  (value : JValue) : Prop :=
  prop "code" (ErrorMiddleware.own err) = Some (JNum 11000)
  /\ prop "name" (ErrorMiddleware.own err) <> Some (JStr "CastError")
  /\ exists rest,
       prop "keyValue" (ErrorMiddleware.own err) = Some (JObj ((field, value) :: rest)).

(** A plain [new Error(message)]. *)
Definition plainError (message : string) : ErrorMiddleware.CustomError :=
  {| ErrorMiddleware.own := [];
     ErrorMiddleware.inherited := [("name", JStr "Error")];
     ErrorMiddleware.message := message |}.

(** The driver's error for a second document with the same email. *)
Definition sampleDuplicateEmail : ErrorMiddleware.CustomError :=
  {| ErrorMiddleware.own :=
       [("index", JNum 0); ("code", JNum 11000);
        ("keyPattern", JObj [("email", JNum 1)]);
        ("keyValue", JObj [("email", JStr "ana@x.com")])];
     ErrorMiddleware.inherited := [("name", JStr "MongoServerError")];
     ErrorMiddleware.message := "E11000 duplicate key error collection: customers" |}.

(** [needle] occurs somewhere in [haystack]. *)
Definition occursIn (needle haystack : string) : Prop :=
  exists before after, haystack = (before ++ needle ++ after)%string.

(** The methods whose requests [validateContentType] looks at. *)
Definition bodyMethods : list string := ["POST"; "PUT"; "PATCH"].


(* ===================================================================== *)
(** * Properties *)
(* ===================================================================== *)

(** ** The date-of-birth rule of the create schema *)

Lemma age_cases (today value : JsDate.Date) :
  (Validator.age today value = JsDate.getFullYear today - JsDate.getFullYear value - 1
   /\ (JsDate.getMonth today < JsDate.getMonth value
       \/ (JsDate.getMonth today = JsDate.getMonth value
           /\ JsDate.getDate today < JsDate.getDate value)))
  \/ (Validator.age today value = JsDate.getFullYear today - JsDate.getFullYear value
      /\ (JsDate.getMonth value < JsDate.getMonth today
          \/ (JsDate.getMonth today = JsDate.getMonth value
              /\ JsDate.getDate value <= JsDate.getDate today))).
Proof.
  unfold Validator.age.
  destruct ((JsDate.getMonth today - JsDate.getMonth value <? 0)
            || ((JsDate.getMonth today - JsDate.getMonth value =? 0)
                && (JsDate.getDate today <? JsDate.getDate value)))%bool eqn:E;
    boolZ; lia.
Qed.

(** The age of the custom rule is the number of whole calendar years
    from the date of birth to today: the [k]-th anniversary has come
    exactly when [k] is at most the age. *)
Lemma age_whole_years (today value : JsDate.Date) (k : Z) :
  k <= Validator.age today value <-> dayLeb (anniversary k value) today = true.
Proof.
  unfold dayLeb, anniversary, JsDate.yearsBefore; cbn.
  propZ.
  destruct (age_cases today value) as [[-> H] | [-> H]]; lia.
Qed.

Lemma dateOfBirthAccepted_eq (rt : Joi.Runtime) (now value : JsDate.Date) :
  dateOfBirthAccepted rt now value
  = (negb (JsDate.ltb now value)
     && (18 <=? Validator.age now value) && (Validator.age now value <=? 120))%bool.
Proof.
  unfold dateOfBirthAccepted; cbn.
  unfold Validator.dateOfBirthCustom.
  destruct (JsDate.ltb now value); cbn.
  - reflexivity.
  - destruct (Validator.age now value <? 18) eqn:E1; cbn.
    + boolZ. destruct (18 <=? Validator.age now value) eqn:E2; boolZ; [lia | reflexivity].
    + destruct (120 <? Validator.age now value) eqn:E2; cbn; boolZ.
      * destruct (Validator.age now value <=? 120) eqn:E3; boolZ; [lia |].
        now rewrite andb_false_r.
      * destruct (18 <=? Validator.age now value) eqn:E3,
                 (Validator.age now value <=? 120) eqn:E4; boolZ; try lia; reflexivity.
Qed.

Lemma ltb_later_year (a b : JsDate.Date) :
  JsDate.getFullYear a < JsDate.getFullYear b -> JsDate.ltb b a = false.
Proof.
  intros H. unfold JsDate.ltb.
  destruct (JsDate.getFullYear b <? JsDate.getFullYear a) eqn:E1; boolZ; [lia |].
  destruct (JsDate.getFullYear b =? JsDate.getFullYear a) eqn:E2; boolZ; [lia |].
  reflexivity.
Qed.

Lemma age_exactly_18 (now : JsDate.Date) :
  Validator.age now (JsDate.yearsBefore 18 now) = 18.
Proof.
  destruct (age_cases now (JsDate.yearsBefore 18 now)) as [[-> H] | [-> H]];
    cbn in *; lia.
Qed.

Lemma age_day_short (now : JsDate.Date) :
  Validator.age now (JsDate.yearsBefore 18 (JsDate.nextDay now)) = 17.
Proof.
  destruct (age_cases now (JsDate.yearsBefore 18 (JsDate.nextDay now)))
    as [[-> H] | [-> H]];
    unfold JsDate.nextDay in *;
    destruct (JsDate.getDate now <? JsDate.daysInMonth (JsDate.getFullYear now)
                                      (JsDate.getMonth now)) eqn:E1;
    try destruct (JsDate.getMonth now <? 11) eqn:E2;
    cbn in *; boolZ; lia.
Qed.

(** C3. The create schema's date-of-birth rule computes the age by
    calendar difference (year, then month, then day): the age is the
    number of anniversaries that have come; a date of birth exactly 18
    years before the validation time passes; a date one day short of 18
    years (the 18th birthday is tomorrow), and any later calendar day,
    fails; a date in the future fails; an age above 120 fails. *)
Theorem C3_date_of_birth_rule (rt : Joi.Runtime) (now : JsDate.Date) :
  (forall value k,
      k <= Validator.age now value <-> dayLeb (anniversary k value) now = true)
  /\ dateOfBirthAccepted rt now (JsDate.yearsBefore 18 now) = true
  /\ dateOfBirthAccepted rt now (JsDate.yearsBefore 18 (JsDate.nextDay now)) = false
  /\ (forall value,
        dayLeb value (JsDate.yearsBefore 18 now) = false ->
        dateOfBirthAccepted rt now value = false)
  /\ (forall value, JsDate.ltb now value = true -> dateOfBirthAccepted rt now value = false)
  /\ (forall value, 120 < Validator.age now value -> dateOfBirthAccepted rt now value = false).
Proof.
  repeat split.
  - apply age_whole_years.
  - apply age_whole_years.
  - rewrite dateOfBirthAccepted_eq, age_exactly_18, ltb_later_year by (cbn; lia).
    reflexivity.
  - rewrite dateOfBirthAccepted_eq, age_day_short. cbn. now rewrite andb_false_r.
  - intros value H. rewrite dateOfBirthAccepted_eq.
    assert (A : ~ 18 <= Validator.age now value).
    { rewrite age_whole_years. intros A.
      unfold dayLeb, anniversary, JsDate.yearsBefore in *. cbn in *.
      boolZ; lia. }
    destruct (18 <=? Validator.age now value) eqn:E; boolZ; [lia |].
    now rewrite andb_false_r.
  - intros value H. rewrite dateOfBirthAccepted_eq, H. reflexivity.
  - intros value H. rewrite dateOfBirthAccepted_eq.
    destruct (Validator.age now value <=? 120) eqn:E; boolZ; [lia |].
    now rewrite andb_false_r.
Qed.

Lemma C3_date_of_birth_rule_witness :
  dateOfBirthAccepted sampleRuntime sampleNow (JsDate.yearsBefore 18 sampleNow) = true
  /\ dateOfBirthAccepted sampleRuntime sampleNow (JsDate.mkDate 2008 10 4 0) = false
  /\ dateOfBirthAccepted sampleRuntime sampleNow (JsDate.mkDate 2026 10 4 0) = false
  /\ dateOfBirthAccepted sampleRuntime sampleNow (JsDate.mkDate 1905 10 3 0) = false.
Proof.
  destruct (C3_date_of_birth_rule sampleRuntime sampleNow)
    as (_ & Exact & _ & Late & Future & Old).
  split; [exact Exact |].
  split; [apply (Late (JsDate.mkDate 2008 10 4 0)); reflexivity |].
  split; [apply (Future (JsDate.mkDate 2026 10 4 0)); reflexivity |].
  apply (Old (JsDate.mkDate 1905 10 3 0)). vm_compute. reflexivity.
Defined.

(** ** Object schemas *)

Lemma validate_object rt su now p children f o :
  Joi.presence f <> Joi.Forbidden -> Joi.allowed f = [] -> Joi.only f = false ->
  Joi.validate rt su now p (Joi.Obj children f) (Some (JObj o)) =
  match snd (objectBody rt su now p children f o) with
  | [] => (Some (fst (objectBody rt su now p children f o)),
           Joi.runRules rt now f p (fst (objectBody rt su now p children f o)))
  | _ :: _ => (Some (fst (objectBody rt su now p children f o)),
               snd (objectBody rt su now p children f o))
  end.
Proof.
  intros Hp Ha Ho.
  cbn. rewrite Ha, Ho. cbn.
  unfold objectBody, unknownOf.
  destruct (Joi.presence f); try contradiction; destruct su; reflexivity.
Qed.

Lemma eachChild_errors rt su now p o children c e :
  In c children ->
  In e (snd (Joi.validate rt su now (p ++ [fst c]) (snd c) (prop (fst c) o))) ->
  In e (Joi.childErrors (eachChild rt su now p o children)).
Proof.
  unfold Joi.childErrors.
  induction children as [| c' cs IH]; intros Hc He; [destruct Hc |].
  cbn. apply in_or_app. destruct Hc as [-> | Hc].
  - left. exact He.
  - right. apply IH; assumption.
Qed.

(** An error of a child makes [validateRequest] answer 400 with that
    error among the field errors. *)
Lemma validateRequest_child_error rt now children f o c e :
  Joi.presence f <> Joi.Forbidden -> Joi.allowed f = [] -> Joi.only f = false ->
  In c children ->
  In e (snd (Joi.validate rt true now ([] ++ [fst c]) (snd c) (prop (fst c) o))) ->
  exists errors,
    Validator.validateRequest rt now (Joi.Obj children f) (JObj o)
    = Validator.Reply 400 "Validation error" errors
    /\ In (Validator.fieldError e) errors.
Proof.
  intros Hp Ha Ho Hc He.
  unfold Validator.validateRequest.
  rewrite validate_object by assumption.
  pose proof (eachChild_errors rt true now [] o children c e Hc He) as Hin.
  unfold objectBody. cbn [fst snd].
  destruct (Joi.childErrors (eachChild rt true now [] o children)) as [| d l] eqn:E.
  - destruct Hin.
  - eexists. split; [reflexivity |].
    apply in_map. exact Hin.
Qed.

(** ** The update schema and its immutable fields *)

(** C2. An update body that includes one of the immutable fields
    (nationalId, dateOfBirth, documents, emailVerified, phoneVerified,
    identityVerified, complianceStatus, status), whatever its value and
    whatever is stored, is answered 400 by the update-schema validation
    with a field error for that field; the route answers 400 (with these
    errors, or with those of the id parameter when that is ill-formed),
    the handler does not run and the collection is left as it was. *)
Theorem C2_update_rejects_immutable_fields
  (rt : Joi.Runtime) (now : JsDate.Date) (o : JObject) (k : string) (v : JValue)
  (handler : option JValue -> option JValue -> Model.Collection ->
             ErrorHandler.Result * Model.Collection)
  (params : JValue) (db : Model.Collection) :
  In k immutableFields ->
  prop k o = Some v ->
  exists errors,
    Validator.validateRequest rt now Validator.updateCustomerSchema (JObj o)
    = Validator.Reply 400 "Validation error" errors
    /\ In {| Validator.field := k;
             Validator.message := immutableMessage k;
             Validator.value := Some v |} errors
    /\ (forall validatedParams,
          Validator.validateParams rt now Validator.customerIdSchema params
          = Validator.Next validatedParams ->
          Routes.putCustomer rt now handler params (JObj o) db
          = (Routes.Invalid 400 "Validation error" errors, db))
    /\ exists message errors',
         Routes.putCustomer rt now handler params (JObj o) db
         = (Routes.Invalid 400 message errors', db).
Proof.
  intros Hk Hv.
  assert (H : exists errors,
             Validator.validateRequest rt now Validator.updateCustomerSchema (JObj o)
             = Validator.Reply 400 "Validation error" errors
             /\ In {| Validator.field := k;
                      Validator.message := immutableMessage k;
                      Validator.value := Some v |} errors).
  { cbn in Hk.
    repeat (destruct Hk as [<- | Hk]); try contradiction;
      match goal with
      | |- exists _, _ /\ In (Validator.Build_FieldError ?key _ _) _ =>
          match eval cbv in
                (find (fun c => String.eqb key (fst c))
                   (Joi.childrenOf Validator.updateCustomerSchema)) with
          | Some ?c =>
              destruct (validateRequest_child_error rt now
                          (Joi.childrenOf Validator.updateCustomerSchema)
                          (Joi.flagsOf Validator.updateCustomerSchema) o c
                          (Joi.report (Joi.flagsOf (snd c)) [key] "any.unknown" (Some v)))
                as (errors & E1 & E2);
              [ discriminate | reflexivity | reflexivity
              | cbn; tauto
              | cbn [fst snd]; rewrite Hv; cbn; left; reflexivity
              | exists errors; split; [exact E1 | exact E2] ]
          end
      end. }
  destruct H as (errors & E1 & E2).
  exists errors. split; [exact E1 |]. split; [exact E2 |].
  unfold Routes.putCustomer, Routes.guard. rewrite E1.
  split.
  - intros validatedParams ->. reflexivity.
  - unfold Validator.validateParams.
    destruct (Joi.validate rt false now [] Validator.customerIdSchema (Some params))
      as [value [| d l]]; eexists; eexists; reflexivity.
Qed.

Lemma C2_update_rejects_immutable_fields_witness :
  exists errors,
    Validator.validateRequest sampleRuntime sampleNow Validator.updateCustomerSchema
      (JObj [("firstName", JStr "Ana"); ("status", JStr "inactive")])
    = Validator.Reply 400 "Validation error" errors
    /\ In {| Validator.field := "status";
             Validator.message := immutableMessage "status";
             Validator.value := Some (JStr "inactive") |} errors
    /\ (forall validatedParams,
          Validator.validateParams sampleRuntime sampleNow Validator.customerIdSchema
            (JObj [("id", JStr "65f1a2b3c4d5e6f708192a3b")])
          = Validator.Next validatedParams ->
          Routes.putCustomer sampleRuntime sampleNow
            (fun _ _ db => (ErrorHandler.Failed (Model.PlainError "not reached"), db))
            (JObj [("id", JStr "65f1a2b3c4d5e6f708192a3b")])
            (JObj [("firstName", JStr "Ana"); ("status", JStr "inactive")]) []
          = (Routes.Invalid 400 "Validation error" errors, []))
    /\ exists message errors',
         Routes.putCustomer sampleRuntime sampleNow
           (fun _ _ db => (ErrorHandler.Failed (Model.PlainError "not reached"), db))
           (JObj [("id", JStr "65f1a2b3c4d5e6f708192a3b")])
           (JObj [("firstName", JStr "Ana"); ("status", JStr "inactive")]) []
         = (Routes.Invalid 400 message errors', []).
Proof.
  apply (C2_update_rejects_immutable_fields sampleRuntime sampleNow
           [("firstName", JStr "Ana"); ("status", JStr "inactive")]
           "status" (JStr "inactive")).
  - cbn. tauto.
  - reflexivity.
Defined.

(** ** Undeclared fields are stripped *)

Lemma prop_filter (q : string -> bool) (k : string) (o : JObject) :
  q k = true -> prop k (filter (fun kv => q (fst kv)) o) = prop k o.
Proof.
  intros Hk. induction o as [| [k' v] o IH]; [reflexivity |].
  cbn. destruct (q k') eqn:Q; cbn.
  - now rewrite IH.
  - destruct (String.eqb_spec k k') as [-> | _]; [congruence | exact IH].
Qed.

Lemma declared_In children c :
  In c children -> Joi.declared children (fst c) = true.
Proof.
  intros H. unfold Joi.declared. apply existsb_exists.
  exists c. split; [exact H | apply String.eqb_refl].
Qed.

Lemma eachChild_filter rt su now p o (q : string -> bool) children :
  (forall c, In c children -> q (fst c) = true) ->
  eachChild rt su now p (filter (fun kv => q (fst kv)) o) children
  = eachChild rt su now p o children.
Proof.
  induction children as [| c cs IH]; intros H; [reflexivity |].
  cbn. rewrite prop_filter by (apply H; now left).
  rewrite IH by (intros c' Hc'; apply H; now right). reflexivity.
Qed.

Lemma childValues_keys rt su now p o children k :
  In k (keys (Joi.childValues (eachChild rt su now p o children))) ->
  Joi.declared children k = true.
Proof.
  unfold keys, Joi.childValues, Joi.declared.
  induction children as [| c cs IH]; cbn; [intros [] |].
  rewrite map_app, in_app_iff. intros [H | H].
  - destruct (fst (Joi.validate rt su now (p ++ [fst c]) (snd c) (prop (fst c) o)));
      cbn in H; [| destruct H].
    destruct H as [<- | []]. now rewrite String.eqb_refl.
  - rewrite (IH H). apply orb_true_r.
Qed.

(** With [stripUnknown], an object schema gives a body the outcome it
    gives the declared part of the body. *)
Lemma validate_declaredPart rt now p children f o :
  Joi.presence f <> Joi.Forbidden -> Joi.allowed f = [] -> Joi.only f = false ->
  Joi.validate rt true now p (Joi.Obj children f) (Some (JObj o))
  = Joi.validate rt true now p (Joi.Obj children f)
      (Some (JObj (declaredPart (Joi.Obj children f) o))).
Proof.
  intros Hp Ha Ho. rewrite !validate_object by assumption.
  unfold objectBody, declaredPart. cbn [Joi.childrenOf fst snd].
  rewrite (eachChild_filter rt true now p o (Joi.declared children))
    by apply declared_In.
  reflexivity.
Qed.

Lemma same_object_never o l : existsb (same (JObj o)) l = false.
Proof. induction l as [| x l IH]; [reflexivity | exact IH]. Qed.

Lemma same_array_never a l : existsb (same (JArr a)) l = false.
Proof. induction l as [| x l IH]; [reflexivity | exact IH]. Qed.

Lemma validate_object_congr rt now p children f o o' :
  Joi.presence f <> Joi.Forbidden -> Joi.only f = false ->
  eachChild rt true now p o children = eachChild rt true now p o' children ->
  Joi.validate rt true now p (Joi.Obj children f) (Some (JObj o))
  = Joi.validate rt true now p (Joi.Obj children f) (Some (JObj o')).
Proof.
  intros Hp Ho E. cbn. rewrite !same_object_never, Ho.
  destruct (Joi.presence f); try contradiction;
    fold (eachChild rt true now p o) (eachChild rt true now p o');
    now rewrite E.
Qed.

Lemma validate_array_congr rt now p e f l l' :
  Joi.presence f <> Joi.Forbidden -> Joi.only f = false ->
  eachItem rt now p e O l = eachItem rt now p e O l' ->
  Joi.validate rt true now p (Joi.Arr e f) (Some (JArr l))
  = Joi.validate rt true now p (Joi.Arr e f) (Some (JArr l')).
Proof.
  intros Hp Ho E. cbn. rewrite !same_array_never, Ho.
  destruct (Joi.presence f); try contradiction;
    fold (eachItem rt now p e);
    now rewrite E.
Qed.

Lemma stripField_found children kv c :
  childrenPlain children = true -> In c children ->
  String.eqb (fst kv) (fst c) = true ->
  stripField children kv = [(fst kv, strip (snd c) (snd kv))].
Proof.
  unfold stripField.
  induction children as [| d cs IH]; intros Hpl Hc Hk; [destruct Hc |].
  cbn in Hpl. apply andb_true_iff in Hpl. destruct Hpl as [Hpl Hcs].
  apply andb_true_iff in Hpl. destruct Hpl as [Hfresh _].
  destruct Hc as [-> | Hc].
  - now rewrite Hk.
  - destruct (String.eqb_spec (fst kv) (fst d)) as [E | _].
    + exfalso. apply String.eqb_eq in Hk.
      apply negb_true_iff in Hfresh.
      assert (X : existsb (fun x => String.eqb (fst d) (fst x)) cs = true).
      { apply existsb_exists. exists c. split; [exact Hc |].
        apply String.eqb_eq. congruence. }
      congruence.
    + now apply IH.
Qed.

Lemma stripField_key children kv x :
  In x (stripField children kv) -> fst x = fst kv.
Proof.
  unfold stripField. induction children as [| d cs IH]; cbn; [intros [] |].
  destruct (String.eqb (fst kv) (fst d)); [| exact IH].
  intros [<- | []]. reflexivity.
Qed.

Lemma prop_skip k (a b : JObject) :
  (forall x, In x a -> fst x <> k) -> prop k (a ++ b) = prop k b.
Proof.
  induction a as [| [k' v] a IH]; intros H; [reflexivity |].
  cbn. destruct (String.eqb_spec k k') as [-> | _].
  - exfalso. apply (H (k', v)); [now left | reflexivity].
  - apply IH. intros x Hx. apply H. now right.
Qed.

Lemma prop_stripped children c o :
  childrenPlain children = true -> In c children ->
  prop (fst c) (flat_map (stripField children) o)
  = option_map (strip (snd c)) (prop (fst c) o).
Proof.
  intros Hpl Hc. induction o as [| [k v] o IH]; [reflexivity |].
  cbn [flat_map prop].
  destruct (String.eqb_spec (fst c) k) as [E | E].
  - rewrite (stripField_found children (k, v) c Hpl Hc)
      by (cbn; apply String.eqb_eq; congruence).
    cbn. rewrite <- E, String.eqb_refl. reflexivity.
  - rewrite prop_skip; [exact IH |].
    intros x Hx. rewrite (stripField_key _ _ _ Hx). cbn. congruence.
Qed.

Lemma strip_object children f o :
  strip (Joi.Obj children f) (JObj o) = JObj (flat_map (stripField children) o).
Proof. reflexivity. Qed.

Lemma childrenPlain_In children c :
  childrenPlain children = true -> In c children -> plain (snd c) = true.
Proof.
  induction children as [| d cs IH]; intros Hpl Hc; [destruct Hc |].
  cbn in Hpl. apply andb_true_iff in Hpl. destruct Hpl as [Hpl Hcs].
  apply andb_true_iff in Hpl. destruct Hpl as [_ Hd].
  destruct Hc as [<- | Hc]; [exact Hd | now apply IH].
Qed.

(** With [stripUnknown], a schema gives a value the outcome it gives
    the value without its undeclared fields, at every depth. *)
Lemma validate_strip rt now s :
  plain s = true ->
  forall p v,
    Joi.validate rt true now p s (Some v)
    = Joi.validate rt true now p s (Some (strip s v)).
Proof.
  induction s as [| | | | | e f IHe | children f IHc] using Schema_induction;
    try reflexivity.
  - intros Hpl p v. cbn in Hpl.
    apply andb_true_iff in Hpl. destruct Hpl as [Hpl He].
    apply andb_true_iff in Hpl. destruct Hpl as [Hp Ho].
    apply negb_true_iff in Ho.
    destruct v; try reflexivity.
    cbn [strip]. apply validate_array_congr; try assumption.
    + intros E. now rewrite E in Hp.
    + generalize O. induction l as [| x l IHl]; intros i; [reflexivity |].
      cbn. now rewrite <- (IHe He), IHl.
  - intros Hpl p v. cbn in Hpl.
    apply andb_true_iff in Hpl. destruct Hpl as [Hpl Hcs].
    apply andb_true_iff in Hpl. destruct Hpl as [Hp Ho].
    apply negb_true_iff in Ho.
    fold (childrenPlain children) in Hcs.
    destruct v; try reflexivity.
    rewrite strip_object. apply validate_object_congr; try assumption.
    + intros E. now rewrite E in Hp.
    + assert (G : forall cs,
                 (forall c, In c cs -> In c children) ->
                 eachChild rt true now p o cs
                 = eachChild rt true now p (flat_map (stripField children) o) cs).
      { induction cs as [| c cs IHcs]; intros Hsub; [reflexivity |].
        cbn. rewrite (prop_stripped children c o Hcs (Hsub c (or_introl eq_refl))).
        rewrite IHcs by (intros d Hd; apply Hsub; now right).
        f_equal. f_equal.
        destruct (prop (fst c) o) as [x |]; [| reflexivity].
        cbn. rewrite Forall_forall in IHc.
        apply (IHc c (Hsub c (or_introl eq_refl))).
        exact (childrenPlain_In children c Hcs (Hsub c (or_introl eq_refl))). }
      apply G. auto.
Qed.

Lemma object_stripsUndeclared rt now children f o :
  Joi.presence f <> Joi.Forbidden -> Joi.allowed f = [] -> Joi.only f = false ->
  plain (Joi.Obj children f) = true ->
  stripsUndeclared rt now (Joi.Obj children f) o.
Proof.
  intros Hp Ha Ho Hpl. split; [| split].
  - unfold Validator.validateRequest.
    now rewrite <- validate_declaredPart.
  - unfold Validator.validateRequest.
    now rewrite <- (validate_strip rt now _ Hpl).
  - intros validated. unfold Validator.validateRequest.
    rewrite validate_object by assumption.
    unfold objectBody. cbn [fst snd Joi.childrenOf].
    destruct (Joi.childErrors (eachChild rt true now [] o children)).
    + destruct (Joi.runRules rt now f []
                  (JObj (Joi.childValues (eachChild rt true now [] o children))));
        [| discriminate].
      intros [= <-]. eexists. split; [reflexivity |].
      intros k. apply childValues_keys.
    + discriminate.
Qed.

(** C10. For a create or an update request, the fields of the body that
    the schema does not declare are dropped by the validation and cause
    no error: the validation answers as it answers the declared part of
    the body (also with the undeclared fields of nested objects
    dropped), a validated body holds declared fields only, and the
    route leaves the response and the collection it would leave had the
    undeclared fields not been sent. (The forbidden fields of the update
    schema are declared, and do error: C2.) *)
Theorem C10_undeclared_fields_are_stripped
  (rt : Joi.Runtime) (now : JsDate.Date) (id : Model.ObjectId)
  (handler : option JValue -> option JValue -> Model.Collection ->
             ErrorHandler.Result * Model.Collection)
  (params : JValue) (o : JObject) (db : Model.Collection) :
  stripsUndeclared rt now Validator.createCustomerSchema o
  /\ stripsUndeclared rt now Validator.updateCustomerSchema o
  /\ Routes.postCustomer rt now id (JObj o) db
     = Routes.postCustomer rt now id
         (JObj (declaredPart Validator.createCustomerSchema o)) db
  /\ Routes.postCustomer rt now id (JObj o) db
     = Routes.postCustomer rt now id (strip Validator.createCustomerSchema (JObj o)) db
  /\ Routes.putCustomer rt now handler params (JObj o) db
     = Routes.putCustomer rt now handler params
         (JObj (declaredPart Validator.updateCustomerSchema o)) db
  /\ Routes.putCustomer rt now handler params (JObj o) db
     = Routes.putCustomer rt now handler params
         (strip Validator.updateCustomerSchema (JObj o)) db.
Proof.
  assert (C : stripsUndeclared rt now Validator.createCustomerSchema o)
    by (apply object_stripsUndeclared;
        [discriminate | reflexivity | reflexivity | vm_compute; reflexivity]).
  assert (U : stripsUndeclared rt now Validator.updateCustomerSchema o)
    by (apply object_stripsUndeclared;
        [discriminate | reflexivity | reflexivity | vm_compute; reflexivity]).
  split; [exact C |]. split; [exact U |].
  destruct C as (C1 & C2 & _). destruct U as (U1 & U2 & _).
  unfold Routes.postCustomer, Routes.putCustomer.
  repeat split.
  - now rewrite C1.
  - now rewrite C2.
  - now rewrite U1.
  - now rewrite U2.
Qed.

Lemma C10_undeclared_fields_are_stripped_witness :
  Routes.postCustomer sampleRuntime sampleNow "c1"
    (JObj [("firstName", JStr "Ana"); ("isAdmin", JBool true);
           ("address", JObj [("street", JStr "Calle 1"); ("geo", JStr "4.6,-74.1")])]) []
  = Routes.postCustomer sampleRuntime sampleNow "c1"
      (JObj [("firstName", JStr "Ana");
             ("address", JObj [("street", JStr "Calle 1")])]) [].
Proof.
  exact (proj1 (proj2 (proj2 (proj2
           (C10_undeclared_fields_are_stripped sampleRuntime sampleNow "c1"
              (fun _ _ db => (ErrorHandler.Failed (Model.PlainError "unused"), db))
              JNull
              [("firstName", JStr "Ana"); ("isAdmin", JBool true);
               ("address", JObj [("street", JStr "Calle 1"); ("geo", JStr "4.6,-74.1")])]
              []))))).
Defined.

(** ** The search query *)

Lemma prop_childValues_absent rt su now p o children k :
  ~ In k (map fst children) ->
  prop k (Joi.childValues (eachChild rt su now p o children)) = None.
Proof.
  unfold Joi.childValues.
  induction children as [| c cs IH]; cbn; intros H; [reflexivity |].
  destruct (fst (Joi.validate rt su now (p ++ [fst c]) (snd c) (prop (fst c) o))); cbn.
  - destruct (String.eqb_spec k (fst c)) as [-> | _]; [tauto |].
    apply IH. tauto.
  - apply IH. tauto.
Qed.

(** The validated object holds, under the key of a child, the value
    that child's schema left. *)
Lemma prop_childValues rt su now p o children c :
  NoDup (map fst children) -> In c children ->
  prop (fst c) (Joi.childValues (eachChild rt su now p o children))
  = fst (Joi.validate rt su now (p ++ [fst c]) (snd c) (prop (fst c) o)).
Proof.
  induction children as [| c' cs IH]; intros Hn Hc; [destruct Hc |].
  cbn in Hn. inversion Hn as [| ? ? Hnot Hn']; subst.
  change (Joi.childValues (eachChild rt su now p o (c' :: cs)))
    with ((match fst (Joi.validate rt su now (p ++ [fst c']) (snd c') (prop (fst c') o)) with
           | Some v => [(fst c', v)]
           | None => []
           end) ++ Joi.childValues (eachChild rt su now p o cs)).
  destruct Hc as [-> | Hc].
  - destruct (fst (Joi.validate rt su now (p ++ [fst c]) (snd c) (prop (fst c) o))); cbn.
    + now rewrite String.eqb_refl.
    + now apply prop_childValues_absent.
  - assert (fst c <> fst c') by (intros E; apply Hnot; rewrite <- E; now apply in_map).
    destruct (fst (Joi.validate rt su now (p ++ [fst c']) (snd c') (prop (fst c') o))); cbn.
    + destruct (String.eqb_spec (fst c) (fst c')); [contradiction | now apply IH].
    + now apply IH.
Qed.

Lemma childErrors_nil rt su now p o children c :
  Joi.childErrors (eachChild rt su now p o children) = [] ->
  In c children ->
  snd (Joi.validate rt su now (p ++ [fst c]) (snd c) (prop (fst c) o)) = [].
Proof.
  intros E Hc.
  destruct (snd (Joi.validate rt su now (p ++ [fst c]) (snd c) (prop (fst c) o)))
    as [| e l] eqn:Es; [reflexivity |].
  assert (In e (Joi.childErrors (eachChild rt su now p o children)))
    by (apply (eachChild_errors rt su now p o children c); [assumption | rewrite Es; now left]).
  rewrite E in *. contradiction.
Qed.


(** A query that [validateQuery] lets through: no child reported an
    error, and the validated query is made of the children's values. *)
Lemma validateQuery_next rt now children f o validated :
  Joi.presence f <> Joi.Forbidden -> Joi.allowed f = [] -> Joi.only f = false ->
  Validator.validateQuery rt now (Joi.Obj children f) (JObj o) = Validator.Next validated ->
  Joi.childErrors (eachChild rt true now [] o children) = []
  /\ validated = Some (JObj (Joi.childValues (eachChild rt true now [] o children))).
Proof.
  intros Hp Ha Ho. unfold Validator.validateQuery.
  rewrite validate_object by assumption.
  unfold objectBody. cbn [fst snd].
  destruct (Joi.childErrors (eachChild rt true now [] o children)); [| discriminate].
  destruct (Joi.runRules rt now f []
              (JObj (Joi.childValues (eachChild rt true now [] o children))));
    [| discriminate].
  intros [= <-]. split; reflexivity.
Qed.




Lemma search_children :
  In ("q", Validator.qSchema) (Joi.childrenOf Validator.searchCustomerSchema)
  /\ In ("page", Validator.pageSchema) (Joi.childrenOf Validator.searchCustomerSchema)
  /\ In ("limit", Validator.limitSchema) (Joi.childrenOf Validator.searchCustomerSchema)
  /\ NoDup (map fst (Joi.childrenOf Validator.searchCustomerSchema)).
Proof.
  repeat split; try (cbn; tauto).
  cbn. repeat (constructor; [cbn; intuition discriminate |]). constructor.
Qed.


Lemma limit_outcome rt su now p v n :
  submittedNumber rt v = Some n ->
  Joi.validate rt su now p Validator.limitSchema (Some v)
  = (Some (JNum n),
     (if n <? 1
      then [Joi.report (Joi.flagsOf Validator.limitSchema) p "number.min" (Some (JNum n))]
      else [])
     ++ (if 100 <? n
         then [Joi.report (Joi.flagsOf Validator.limitSchema) p "number.max" (Some (JNum n))]
         else [])).
Proof.
  intros H. destruct v; try discriminate; cbn in H.
  - injection H as ->. cbn.
    destruct (n <? 1), (100 <? n); reflexivity.
  - cbn. rewrite H. cbn.
    destruct (n <? 1), (100 <? n); reflexivity.
Qed.




(** ** The gateway *)

Lemma isStatus_answered e s :
  answered e s -> forall n, ExternalServicesClient.isStatus e n = (s =? n).
Proof.
  intros [_ H] n. unfold ExternalServicesClient.isStatus. now rewrite H.
Qed.

(** C4, as the code has it. [triggerComplianceCheck] returns [null]
    when the connection is refused, when the remote answers with any
    status other than 400 (5xx among them), when no answer came, when
    something else was thrown, and when the response body is malformed.
    On a remote 400 it raises "Compliance validation error: ..." with
    the remote message; the scheduled callback catches and logs it. *)
Theorem C4_compliance_check_failures (settled : ExternalServicesClient.Settled) :
  (forall e, settled = ExternalServicesClient.RejectedAxios e -> refused e ->
             ExternalServicesClient.triggerComplianceCheck settled
             = ExternalServicesClient.Return (Some JNull))
  /\ (forall e s, settled = ExternalServicesClient.RejectedAxios e ->
                  answered e s -> s <> 400 ->
                  ExternalServicesClient.triggerComplianceCheck settled
                  = ExternalServicesClient.Return (Some JNull))
  /\ (forall e, settled = ExternalServicesClient.RejectedAxios e ->
                ExternalServicesClient.response e = None ->
                ExternalServicesClient.triggerComplianceCheck settled
                = ExternalServicesClient.Return (Some JNull))
  /\ (settled = ExternalServicesClient.RejectedOther ->
      ExternalServicesClient.triggerComplianceCheck settled
      = ExternalServicesClient.Return (Some JNull))
  /\ (forall r, settled = ExternalServicesClient.Fulfilled r -> malformed r ->
                ExternalServicesClient.triggerComplianceCheck settled
                = ExternalServicesClient.Return (Some JNull))
  /\ (forall e, settled = ExternalServicesClient.RejectedAxios e -> answered e 400 ->
                ExternalServicesClient.triggerComplianceCheck settled
                = ExternalServicesClient.Throw
                    ("Compliance validation error: " ++ remoteMessageOr "Invalid data" e)
                /\ CustomerController.complianceCheckSettled settled
                   = CustomerController.Caught
                       ("Compliance validation error: "
                        ++ remoteMessageOr "Invalid data" e)).
Proof.
  split; [| split; [| split; [| split; [| split]]]].
  - intros e -> R. cbn. unfold refused in R. now rewrite R.
  - intros e s -> A Hs. cbn.
    rewrite (isStatus_answered e s A 400). destruct A as [-> _].
    destruct (Z.eqb_spec s 400); [contradiction |].
    now destruct (match ExternalServicesClient.statusOf e with
                  | Some s0 => 500 <=? s0
                  | None => false
                  end).
  - intros e -> N. cbn.
    unfold ExternalServicesClient.isStatus, ExternalServicesClient.statusOf.
    rewrite N. cbn.
    now destruct (ExternalServicesClient.isCode e "ECONNREFUSED").
  - intros ->. reflexivity.
  - intros r -> M. cbn. unfold malformed in M. now rewrite M.
  - intros e -> A.
    assert (E : ExternalServicesClient.triggerComplianceCheck
                  (ExternalServicesClient.RejectedAxios e)
                = ExternalServicesClient.Throw
                    ("Compliance validation error: "
                     ++ remoteMessageOr "Invalid data" e)).
    { cbn. rewrite (isStatus_answered e 400 A 400). destruct A as [-> _]. reflexivity. }
    split; [exact E |].
    unfold CustomerController.complianceCheckSettled. now rewrite E.
Qed.

Lemma C4_compliance_check_failures_witness :
  ExternalServicesClient.triggerComplianceCheck
    (ExternalServicesClient.RejectedAxios sampleBadRequest)
  = ExternalServicesClient.Throw
      ("Compliance validation error: " ++ remoteMessageOr "Invalid data" sampleBadRequest)
  /\ CustomerController.complianceCheckSettled
       (ExternalServicesClient.RejectedAxios sampleBadRequest)
     = CustomerController.Caught
         ("Compliance validation error: " ++ remoteMessageOr "Invalid data" sampleBadRequest).
Proof.
  apply (proj2 (proj2 (proj2 (proj2 (proj2
           (C4_compliance_check_failures
              (ExternalServicesClient.RejectedAxios sampleBadRequest))))))
           sampleBadRequest eq_refl).
  split; reflexivity.
Defined.

(** On a remote 400 the client raises an error instead of returning [null]. *)
Lemma C4_remote_400_raises :
  ExternalServicesClient.triggerComplianceCheck
    (ExternalServicesClient.RejectedAxios sampleBadRequest)
  = ExternalServicesClient.Throw "Compliance validation error: nationalId is not valid"
  /\ ExternalServicesClient.triggerComplianceCheck
       (ExternalServicesClient.RejectedAxios sampleBadRequest)
     <> ExternalServicesClient.Return (Some JNull).
Proof.
  split; [reflexivity | discriminate].
Qed.

(** C5, as the code has it. For the accounts lookup: a remote 404 gives
    the empty list; a refused connection raises "Account service is
    currently unavailable ..."; a remote 500 raises a fixed "Account
    service error. Please try again later." (without the remote
    message); any other status, and a request that got no answer,
    raises "Account service error: " followed by the remote message
    when the response body has one and by the transport's message
    otherwise. Whatever the client raises, [getCustomerAccounts] of the
    controller hands on with status 503 for an existing customer. *)
Theorem C5_accounts_lookup_failures
  (e : ExternalServicesClient.AxiosError) (id : Model.ObjectId) (now : JsDate.Date)
  (db : Model.Collection) :
  (answered e 404 ->
   ExternalServicesClient.getCustomerAccounts (ExternalServicesClient.RejectedAxios e)
   = ExternalServicesClient.Return (JArr []))
  /\ (refused e ->
      ExternalServicesClient.getCustomerAccounts (ExternalServicesClient.RejectedAxios e)
      = ExternalServicesClient.Throw
          "Account service is currently unavailable. Please try again later.")
  /\ (answered e 500 ->
      ExternalServicesClient.getCustomerAccounts (ExternalServicesClient.RejectedAxios e)
      = ExternalServicesClient.Throw "Account service error. Please try again later.")
  /\ (forall s, answered e s -> s <> 404 -> s <> 500 ->
      ExternalServicesClient.getCustomerAccounts (ExternalServicesClient.RejectedAxios e)
      = ExternalServicesClient.Throw
          ("Account service error: "
           ++ remoteMessageOr (ExternalServicesClient.message e) e))
  /\ (forall settled message customer,
         ExternalServicesClient.getCustomerAccounts settled
         = ExternalServicesClient.Throw message ->
         Model.findById id db = Some customer ->
         CustomerController.getCustomerAccounts id now settled db
         = ErrorHandler.Failed (Model.AppError message 503)).
Proof.
  split; [| split; [| split; [| split]]].
  - intros A. cbn. rewrite (isStatus_answered e 404 A 404). destruct A as [-> _].
    reflexivity.
  - intros R. cbn. unfold refused in R. now rewrite R.
  - intros A. cbn. rewrite !(isStatus_answered e 500 A). destruct A as [-> _].
    reflexivity.
  - intros s A H4 H5. cbn. rewrite !(isStatus_answered e s A). destruct A as [-> _].
    destruct (Z.eqb_spec s 404); [contradiction |].
    destruct (Z.eqb_spec s 500); [contradiction |].
    reflexivity.
  - intros settled message customer T F.
    unfold CustomerController.getCustomerAccounts. now rewrite F, T.
Qed.

Lemma C5_accounts_lookup_failures_witness :
  ExternalServicesClient.getCustomerAccounts
    (ExternalServicesClient.RejectedAxios sampleServerError)
  = ExternalServicesClient.Throw "Account service error. Please try again later.".
Proof.
  apply (proj1 (proj2 (proj2
           (C5_accounts_lookup_failures sampleServerError "" sampleNow [])))).
  split; reflexivity.
Defined.

(** On a remote 500 the error the client raises does not carry the
    remote message. *)
Lemma C5_remote_500_drops_the_message :
  ExternalServicesClient.responseData sampleServerError
  = Some (JObj [("success", JBool false); ("message", JStr "ledger database is down")])
  /\ ExternalServicesClient.getCustomerAccounts
       (ExternalServicesClient.RejectedAxios sampleServerError)
     = ExternalServicesClient.Throw "Account service error. Please try again later."
  /\ JsString.includes "Account service error. Please try again later."
       "ledger database is down" = false.
Proof.
  repeat split.
Qed.

(** ** Sample records *)

(** ** Soft delete *)

Lemma findByIdAndUpdate_absent id update db :
  Model.findById id db = None ->
  Model.findByIdAndUpdate id update db = (None, db).
Proof.
  unfold Model.findById, Model.findOne.
  induction db as [| c db IH]; cbn; [reflexivity |].
  destruct (String.eqb (Model._id c) id); [discriminate |].
  intros H. now rewrite (IH H).
Qed.

Lemma findByIdAndUpdate_present id update db c :
  (forall x, Model._id (update x) = Model._id x) ->
  Model.findById id db = Some c ->
  exists db',
    Model.findByIdAndUpdate id update db = (Some (update c), db')
    /\ Model.findById id db' = Some (update c)
    /\ map Model._id db' = map Model._id db.
Proof.
  intros Hid. unfold Model.findById, Model.findOne.
  induction db as [| d db IH]; cbn; [discriminate |].
  destruct (String.eqb (Model._id d) id) eqn:E.
  - intros [= ->]. eexists. split; [reflexivity |]. split.
    + cbn. now rewrite Hid, E.
    + cbn. now rewrite Hid.
  - intros H. destruct (IH H) as (db' & E1 & E2 & E3).
    rewrite E1. eexists. split; [reflexivity |]. split.
    + cbn. now rewrite E.
    + cbn. now rewrite E3.
Qed.

(** Updating twice is updating once with the later update, when the
    later update forgets the earlier one. *)
Lemma findByIdAndUpdate_twice id u1 u2 db :
  (forall x, Model._id (u1 x) = Model._id x) ->
  (forall x, u2 (u1 x) = u2 x) ->
  snd (Model.findByIdAndUpdate id u2 (snd (Model.findByIdAndUpdate id u1 db)))
  = snd (Model.findByIdAndUpdate id u2 db).
Proof.
  intros Hid H21. induction db as [| d db IH]; cbn; [reflexivity |].
  destruct (String.eqb (Model._id d) id) eqn:E; cbn.
  - now rewrite Hid, E, H21.
  - destruct (Model.findByIdAndUpdate id u1 db) as [r1 db1] eqn:E1. cbn in *.
    rewrite E.
    destruct (Model.findByIdAndUpdate id u2 db1) as [r2 db2] eqn:E2.
    destruct (Model.findByIdAndUpdate id u2 db) as [r3 db3] eqn:E3.
    cbn in *. now rewrite IH.
Qed.

(** C8. Soft delete is idempotent on stored records: for a stored
    customer, two deletions in a row both answer 200 and leave the
    record inactive, and the collection after the two is the one a
    single deletion (at the later time) leaves; the deletion of an
    absent id fails with 404 and changes nothing; no deletion removes
    a record. *)
Theorem C8_soft_delete_idempotent
  (id : Model.ObjectId) (now1 now2 : JsDate.Date) (db : Model.Collection) :
  (forall c, Model.findById id db = Some c ->
     exists db1 db2 c1 c2,
       CustomerController.deleteCustomer id now1 db
       = (ErrorHandler.Sent (ErrorHandler.sendSuccess now1 ErrorHandler.NoData
                               "Customer deactivated successfully" 200), db1)
       /\ CustomerController.deleteCustomer id now2 db1
          = (ErrorHandler.Sent (ErrorHandler.sendSuccess now2 ErrorHandler.NoData
                                  "Customer deactivated successfully" 200), db2)
       /\ Model.findById id db1 = Some c1 /\ Model.status c1 = "inactive"
       /\ Model.findById id db2 = Some c2 /\ Model.status c2 = "inactive"
       /\ db2 = snd (CustomerController.deleteCustomer id now2 db))
  /\ (Model.findById id db = None ->
      CustomerController.deleteCustomer id now1 db
      = (ErrorHandler.Failed (Model.AppError "Customer not found" 404), db))
  /\ map Model._id (snd (CustomerController.deleteCustomer id now1 db))
     = map Model._id db.
Proof.
  assert (Hid : forall now x,
             Model._id (Model.setStatus "inactive" now x) = Model._id x)
    by reflexivity.
  split; [| split].
  - intros c Hc.
    destruct (findByIdAndUpdate_present id (Model.setStatus "inactive" now1) db c
                (Hid now1) Hc) as (db1 & E1 & F1 & _).
    destruct (findByIdAndUpdate_present id (Model.setStatus "inactive" now2) db1 _
                (Hid now2) F1) as (db2 & E2 & F2 & _).
    exists db1, db2, (Model.setStatus "inactive" now1 c),
      (Model.setStatus "inactive" now2 (Model.setStatus "inactive" now1 c)).
    unfold CustomerController.deleteCustomer. rewrite E1, E2.
    repeat split; try assumption.
    pose proof (findByIdAndUpdate_twice id (Model.setStatus "inactive" now1)
                  (Model.setStatus "inactive" now2) db (Hid now1)
                  (fun x => eq_refl)) as T.
    rewrite E1 in T. cbn [snd] in T. rewrite E2 in T. cbn [snd] in T.
    destruct (findByIdAndUpdate_present id (Model.setStatus "inactive" now2) db c
                (Hid now2) Hc) as (db4 & E4 & _).
    rewrite E4 in *. exact T.
  - intros Hn. unfold CustomerController.deleteCustomer.
    now rewrite (findByIdAndUpdate_absent id _ db Hn).
  - unfold CustomerController.deleteCustomer.
    destruct (Model.findById id db) as [c |] eqn:F.
    + destruct (findByIdAndUpdate_present id (Model.setStatus "inactive" now1) db c
                  (Hid now1) F) as (db1 & E1 & _ & M).
      now rewrite E1.
    + now rewrite (findByIdAndUpdate_absent id _ db F).
Qed.

Lemma C8_soft_delete_idempotent_witness :
  exists db1 db2 c1 c2,
    CustomerController.deleteCustomer "c2" sampleNow sampleTwoOwners
    = (ErrorHandler.Sent (ErrorHandler.sendSuccess sampleNow ErrorHandler.NoData
                            "Customer deactivated successfully" 200), db1)
    /\ CustomerController.deleteCustomer "c2" (JsDate.nextDay sampleNow) db1
       = (ErrorHandler.Sent
            (ErrorHandler.sendSuccess (JsDate.nextDay sampleNow) ErrorHandler.NoData
               "Customer deactivated successfully" 200), db2)
    /\ Model.findById "c2" db1 = Some c1 /\ Model.status c1 = "inactive"
    /\ Model.findById "c2" db2 = Some c2 /\ Model.status c2 = "inactive"
    /\ db2 = snd (CustomerController.deleteCustomer "c2" (JsDate.nextDay sampleNow)
                    sampleTwoOwners).
Proof.
  apply (proj1 (C8_soft_delete_idempotent "c2" sampleNow (JsDate.nextDay sampleNow)
                  sampleTwoOwners)
           (sampleCustomer "c2" "ana@x.com" "22222222" (JsDate.mkDate 2026 1 20 0))).
  reflexivity.
Defined.

(** ** Search: order and pagination *)

Lemma ltb_iff (a b : JsDate.Date) :
  JsDate.ltb a b = true <->
  JsDate.getFullYear a < JsDate.getFullYear b
  \/ (JsDate.getFullYear a = JsDate.getFullYear b
      /\ (JsDate.getMonth a < JsDate.getMonth b
          \/ (JsDate.getMonth a = JsDate.getMonth b
              /\ (JsDate.getDate a < JsDate.getDate b
                  \/ (JsDate.getDate a = JsDate.getDate b
                      /\ JsDate.timeOfDay a < JsDate.timeOfDay b))))).
Proof.
  unfold JsDate.ltb. propZ. reflexivity.
Qed.

Lemma ltb_false_iff (a b : JsDate.Date) :
  JsDate.ltb a b = false <-> ~ (JsDate.ltb a b = true).
Proof.
  destruct (JsDate.ltb a b); split; intros; try reflexivity; try discriminate; tauto.
Qed.

Lemma ltb_asym (a b : JsDate.Date) :
  JsDate.ltb a b = true -> JsDate.ltb b a = false.
Proof.
  rewrite ltb_false_iff, !ltb_iff. lia.
Qed.

Lemma newestFirst_trans : Relations_1.Transitive newestFirst.
Proof.
  intros a b c. unfold newestFirst.
  rewrite !ltb_false_iff, !ltb_iff. lia.
Qed.

Lemma insertNewestFirst_perm c l :
  Permutation (Model.insertNewestFirst c l) (c :: l).
Proof.
  induction l as [| d l IH]; cbn; [reflexivity |].
  destruct (JsDate.ltb (Model.createdAt c) (Model.createdAt d)); [| reflexivity].
  rewrite IH. apply perm_swap.
Qed.

Lemma insertNewestFirst_sorted c l :
  Sorted newestFirst l -> Sorted newestFirst (Model.insertNewestFirst c l).
Proof.
  induction l as [| d l IH]; intros S; cbn.
  - repeat constructor.
  - inversion S as [| ? ? S' Hd]; subst.
    destruct (JsDate.ltb (Model.createdAt c) (Model.createdAt d)) eqn:E.
    + constructor; [now apply IH |].
      destruct l as [| d' l]; cbn.
      * constructor. now apply ltb_asym.
      * destruct (JsDate.ltb (Model.createdAt c) (Model.createdAt d')).
        -- constructor. now inversion Hd.
        -- constructor. now apply ltb_asym.
    + constructor; [assumption |]. constructor. exact E.
Qed.

Lemma sortByCreatedAtDesc_perm l : Permutation (Model.sortByCreatedAtDesc l) l.
Proof.
  induction l as [| c l IH]; cbn; [reflexivity |].
  rewrite insertNewestFirst_perm. now constructor.
Qed.

Lemma sortByCreatedAtDesc_sorted l :
  StronglySorted newestFirst (Model.sortByCreatedAtDesc l).
Proof.
  apply Sorted_StronglySorted; [exact newestFirst_trans |].
  induction l as [| c l IH]; cbn; [constructor |].
  now apply insertNewestFirst_sorted.
Qed.

(** [ceilDiv a b] is the least number of pages of [b] items that hold [a] items. *)
Lemma ceilDiv_spec (a b : Z) :
  0 < b ->
  (ErrorHandler.ceilDiv a b - 1) * b < a <= ErrorHandler.ceilDiv a b * b.
Proof.
  intros Hb. unfold ErrorHandler.ceilDiv.
  pose proof (Z.div_mod (- a) b ltac:(lia)) as D.
  pose proof (Z.mod_pos_bound (- a) b Hb) as M.
  nia.
Qed.

Lemma ceilDiv_next (a b page : Z) :
  0 < b -> (page < ErrorHandler.ceilDiv a b <-> page * b < a).
Proof.
  intros Hb. pose proof (ceilDiv_spec a b Hb). nia.
Qed.

Lemma page_accepted rt su now p item :
  snd (Joi.validate rt su now p Validator.pageSchema item) = [] ->
  exists n, fst (Joi.validate rt su now p Validator.pageSchema item) = Some (JNum n) /\ 1 <= n.
Proof.
  destruct item as [v |]; [| intros _; exists 1; split; [reflexivity | lia]].
  assert (N : forall n,
             snd (Joi.validate rt su now p Validator.pageSchema (Some (JNum n))) = [] ->
             exists m, fst (Joi.validate rt su now p Validator.pageSchema (Some (JNum n)))
                       = Some (JNum m) /\ 1 <= m).
  { intros n. cbn. destruct (n <? 1) eqn:E; cbn; [discriminate |].
    intros _. exists n. boolZ. split; [reflexivity | lia]. }
  destruct v; try (cbn; discriminate); [exact (N n) |].
  cbn. destruct (Joi.parseNumber rt s) as [n |] eqn:P; [| cbn; discriminate].
  specialize (N n). cbn in N. exact N.
Qed.

Lemma limit_accepted rt su now p item :
  snd (Joi.validate rt su now p Validator.limitSchema item) = [] ->
  exists n, fst (Joi.validate rt su now p Validator.limitSchema item) = Some (JNum n)
            /\ 1 <= n <= 100.
Proof.
  destruct item as [v |]; [| intros _; exists 10; split; [reflexivity | lia]].
  destruct (submittedNumber rt v) as [n |] eqn:S.
  - rewrite (limit_outcome rt su now p v n S). cbn [fst snd].
    destruct (n <? 1) eqn:E1; [discriminate |].
    destruct (100 <? n) eqn:E2; [discriminate |].
    intros _. exists n. boolZ. split; [reflexivity | lia].
  - destruct v; try discriminate; try (cbn; discriminate).
    cbn in S. cbn. rewrite S. cbn. discriminate.
Qed.

(** A validated search query carries a page of at least 1 and a limit
    between 1 and 100. *)
Lemma validated_query_page_limit rt now raw query :
  Validator.validateQuery rt now Validator.searchCustomerSchema raw
  = Validator.Next (Some (JObj query)) ->
  exists page limit,
    prop "page" query = Some (JNum page) /\ prop "limit" query = Some (JNum limit)
    /\ 1 <= page /\ 1 <= limit <= 100.
Proof.
  intros H.
  destruct raw as [| | | | | | o]; try (cbn in H; discriminate).
  destruct search_children as (_ & Hpage & Hlimit & Hnd).
  apply (validateQuery_next rt now (Joi.childrenOf Validator.searchCustomerSchema)
           (Joi.flagsOf Validator.searchCustomerSchema)) in H;
    [| discriminate | reflexivity | reflexivity].
  destruct H as (Hnil & Hv).
  assert (Hq : query = Joi.childValues
                         (eachChild rt true now [] o
                            (Joi.childrenOf Validator.searchCustomerSchema)))
    by congruence.
  clear Hv. subst query.
  pose proof (prop_childValues rt true now [] o _ ("page", Validator.pageSchema) Hnd Hpage) as P.
  pose proof (prop_childValues rt true now [] o _ ("limit", Validator.limitSchema) Hnd Hlimit) as L.
  pose proof (childErrors_nil rt true now [] o _ ("page", Validator.pageSchema) Hnil Hpage) as Pe.
  pose proof (childErrors_nil rt true now [] o _ ("limit", Validator.limitSchema) Hnil Hlimit) as Le.
  cbn [fst snd] in P, L, Pe, Le.
  destruct (page_accepted rt true now _ _ Pe) as (page & Ep & Hp).
  destruct (limit_accepted rt true now _ _ Le) as (limit & El & Hl).
  exists page, limit. rewrite P, L, Ep, El. repeat split; lia.
Qed.

Lemma firstError_none regexError patterns :
  (forall pattern, In pattern patterns -> regexError pattern = None) ->
  CustomerController.firstError regexError patterns = None.
Proof.
  induction patterns as [| p ps IH]; intros H; [reflexivity |].
  cbn. rewrite (H p (or_introl eq_refl)). apply IH.
  intros q Hq. apply H. now right.
Qed.

Lemma firstError_some regexError patterns :
  (exists pattern, In pattern patterns /\ regexError pattern <> None) ->
  exists pattern message,
    In pattern patterns /\ regexError pattern = Some message
    /\ CustomerController.firstError regexError patterns = Some message.
Proof.
  induction patterns as [| p ps IH]; intros (q & Hq & N); [destruct Hq |].
  cbn. destruct (regexError p) as [m |] eqn:E.
  - exists p, m. split; [now left |]. split; [exact E | reflexivity].
  - destruct Hq as [-> | Hq]; [congruence |].
    destruct (IH (ex_intro _ q (conj Hq N))) as (p' & m & I & E' & F).
    exists p', m. split; [now right |]. split; assumption.
Qed.

(** C6, as the code has it. A validated search request reaches
    [searchCustomers] with page [p] and limit [l].  The free-text term
    and the country go to the database as regular expressions: when it
    rejects one of them, the request fails with the error of the
    database and there is no page.  When it accepts them, with [n]
    matching records: the page holds the records that follow the first
    [(p-1)*l] of the matches ordered newest first, at most [l] of them;
    the metadata is currentPage = p, totalPages = ceil(n/l),
    totalItems = n, itemsPerPage = l, hasNextPage = (p < totalPages),
    hasPreviousPage = (p > 1); and hasNextPage holds exactly when
    records remain after the page. *)
Theorem C6_search_pagination
  (rt : Joi.Runtime) (regexMatch : string -> string -> bool)
  (regexError : string -> option string) (now : JsDate.Date)
  (raw : JValue) (query : JObject) (db : Model.Collection) :
  Validator.validateQuery rt now Validator.searchCustomerSchema raw
  = Validator.Next (Some (JObj query)) ->
  Routes.getCustomers rt now regexMatch regexError raw db
  = (Routes.Handled
       (CustomerController.searchCustomers regexMatch regexError now query db), db)
  /\ ((exists pattern, In pattern (CustomerController.filterPatterns query)
                       /\ regexError pattern <> None) ->
      exists pattern message,
        In pattern (CustomerController.filterPatterns query)
        /\ regexError pattern = Some message
        /\ CustomerController.searchCustomers regexMatch regexError now query db
           = ErrorHandler.Failed (Model.PlainError message))
  /\ ((forall pattern, In pattern (CustomerController.filterPatterns query) ->
                       regexError pattern = None) ->
      exists page limit ordered message,
        prop "page" query = Some (JNum page) /\ prop "limit" query = Some (JNum limit)
        /\ 1 <= page /\ 1 <= limit <= 100
        /\ Permutation ordered
             (map Model.withoutDocuments
                (filter (CustomerController.searchFilter regexMatch query) db))
        /\ StronglySorted newestFirst ordered
        /\ (let n := Model.countDocuments
                       (CustomerController.searchFilter regexMatch query) db in
            let pages := ErrorHandler.ceilDiv n limit in
            n = Z.of_nat (List.length ordered)
            /\ (pages - 1) * limit < n <= pages * limit
            /\ ((page <? pages) = true <-> page * limit < n)
            /\ ((1 <? page) = true <-> 1 < page)
            /\ CustomerController.searchCustomers regexMatch regexError now query db
               = ErrorHandler.Sent
                   {| ErrorHandler.statusCode := 200;
                      ErrorHandler.success := true;
                      ErrorHandler.message := message;
                      ErrorHandler.data :=
                        ErrorHandler.Customers
                          (firstn (Z.to_nat limit)
                             (skipn (Z.to_nat ((page - 1) * limit)) ordered));
                      ErrorHandler.pagination :=
                        Some {| ErrorHandler.currentPage := page;
                                ErrorHandler.totalPages := pages;
                                ErrorHandler.totalItems := n;
                                ErrorHandler.itemsPerPage := limit;
                                ErrorHandler.hasNextPage := page <? pages;
                                ErrorHandler.hasPreviousPage := 1 <? page |};
                      ErrorHandler.timestamp := now |})).
Proof.
  intros H.
  split; [unfold Routes.getCustomers, Routes.guard; now rewrite H |].
  split.
  { intros R.
    destruct (firstError_some regexError _ R) as (pattern & message & I & E & F).
    exists pattern, message. split; [exact I |]. split; [exact E |].
    unfold CustomerController.searchCustomers, CustomerController.filterError.
    now rewrite F. }
  intros A.
  destruct (validated_query_page_limit rt now raw query H)
    as (page & limit & Ep & El & Hp & Hl).
  exists page, limit,
    (Model.sortByCreatedAtDesc
       (map Model.withoutDocuments
          (filter (CustomerController.searchFilter regexMatch query) db))).
  eexists.
  split; [exact Ep |]. split; [exact El |]. split; [exact Hp |]. split; [exact Hl |].
  split; [apply sortByCreatedAtDesc_perm |].
  split; [apply sortByCreatedAtDesc_sorted |].
  cbv zeta.
  split.
  { unfold Model.countDocuments.
    now rewrite (Permutation_length (sortByCreatedAtDesc_perm _)), length_map. }
  split; [apply ceilDiv_spec; lia |].
  split; [rewrite Z.ltb_lt; apply ceilDiv_next; lia |].
  split; [apply Z.ltb_lt |].
  unfold CustomerController.searchCustomers, CustomerController.filterError.
  rewrite (firstError_none regexError _ A), Ep, El.
  unfold ErrorHandler.sendPaginatedResponse, CustomerController.findPage.
  reflexivity.
Qed.

Lemma C6_search_pagination_witness :
  exists message,
    CustomerController.searchCustomers (fun _ _ => true) sampleRegexError sampleNow
      (validatedQuery sampleSecondOfTwo) sampleTwoOwners
    = ErrorHandler.Sent
        {| ErrorHandler.statusCode := 200;
           ErrorHandler.success := true;
           ErrorHandler.message := message;
           ErrorHandler.data :=
             ErrorHandler.Customers
               [Model.withoutDocuments
                  (sampleCustomer "c1" "bea@x.com" "11111111" (JsDate.mkDate 2026 0 10 0))];
           ErrorHandler.pagination :=
             Some {| ErrorHandler.currentPage := 2;
                     ErrorHandler.totalPages := 2;
                     ErrorHandler.totalItems := 2;
                     ErrorHandler.itemsPerPage := 1;
                     ErrorHandler.hasNextPage := false;
                     ErrorHandler.hasPreviousPage := true |};
           ErrorHandler.timestamp := sampleNow |}.
Proof.
  destruct (C6_search_pagination sampleRuntime (fun _ _ => true) sampleRegexError sampleNow
              sampleSecondOfTwo (validatedQuery sampleSecondOfTwo) sampleTwoOwners eq_refl)
    as (_ & _ & H).
  destruct H as (page & limit & ordered & message & Ep & El & _ & _ & P & S & H);
    [intros pattern I; destruct I |].
  cbv zeta in H. destruct H as (_ & _ & _ & _ & H).
  exists message. rewrite H.
  assert (page = 2) as -> by (vm_compute in Ep; congruence).
  assert (limit = 1) as -> by (vm_compute in El; congruence).
  apply Permutation_sym, Permutation_length_2_inv in P.
  destruct P as [-> | ->].
  - exfalso. inversion S as [| a l S' F]; subst.
    inversion F as [| b l' N F']; subst. vm_compute in N. discriminate N.
  - reflexivity.
Defined.

(** A validated search request that gets no page: the query [?q=abc(]
    passes the search schema, the database rejects its pattern, and the
    request ends in the error of the database. *)
Lemma C6_rejected_pattern_gives_no_page :
  exists query,
    Validator.validateQuery sampleRuntime sampleNow Validator.searchCustomerSchema
      sampleUnclosedGroup
    = Validator.Next (Some (JObj query))
    /\ prop "q" query = Some (JStr "abc(")
    /\ Routes.getCustomers sampleRuntime sampleNow (fun _ _ => true) sampleRegexError
         sampleUnclosedGroup sampleTwoOwners
       = (Routes.Handled
            (ErrorHandler.Failed
               (Model.PlainError
                  "Regular expression is invalid: missing closing parenthesis")),
          sampleTwoOwners).
Proof.
  eexists. split; [vm_compute; reflexivity |]. split; vm_compute; reflexivity.
Qed.

(** ** Normal forms of texts *)

Lemma lowerChar_idem (c : ascii) :
  JsString.lowerChar (JsString.lowerChar c) = JsString.lowerChar c.
Proof.
  destruct c as [[] [] [] [] [] [] [] []]; reflexivity.
Qed.

Lemma isSpace_lowerChar (c : ascii) :
  JsString.isSpace (JsString.lowerChar c) = JsString.isSpace c.
Proof.
  destruct c as [[] [] [] [] [] [] [] []]; reflexivity.
Qed.

Lemma toLowerCase_idem (s : string) :
  JsString.toLowerCase (JsString.toLowerCase s) = JsString.toLowerCase s.
Proof.
  induction s as [| c s IH]; cbn; [reflexivity |].
  now rewrite lowerChar_idem, IH.
Qed.

Lemma trimStart_toLowerCase (s : string) :
  JsString.trimStart (JsString.toLowerCase s) = JsString.toLowerCase (JsString.trimStart s).
Proof.
  induction s as [| c s IH]; cbn; [reflexivity |].
  rewrite isSpace_lowerChar. now destruct (JsString.isSpace c).
Qed.

Lemma trimEnd_toLowerCase (s : string) :
  JsString.trimEnd (JsString.toLowerCase s) = JsString.toLowerCase (JsString.trimEnd s).
Proof.
  induction s as [| c s IH]; cbn; [reflexivity |].
  rewrite IH, isSpace_lowerChar.
  destruct (JsString.trimEnd s); cbn; [now destruct (JsString.isSpace c) | reflexivity].
Qed.

Lemma trim_toLowerCase (s : string) :
  JsString.trim (JsString.toLowerCase s) = JsString.toLowerCase (JsString.trim s).
Proof.
  unfold JsString.trim. now rewrite trimStart_toLowerCase, trimEnd_toLowerCase.
Qed.

Lemma trimStart_clean (s : string) : startsClean (JsString.trimStart s).
Proof.
  induction s as [| c s IH]; cbn; [exact I |].
  destruct (JsString.isSpace c) eqn:E; [exact IH | exact E].
Qed.

Lemma trimStart_of_clean (s : string) : startsClean s -> JsString.trimStart s = s.
Proof.
  destruct s as [| c s]; cbn; [reflexivity |]. now intros ->.
Qed.

Lemma trimEnd_clean (s : string) : startsClean s -> startsClean (JsString.trimEnd s).
Proof.
  destruct s as [| c s]; cbn; [trivial |].
  intros E. destruct (JsString.trimEnd s); cbn; [now rewrite E | exact E].
Qed.

Lemma trimEnd_idem (s : string) :
  JsString.trimEnd (JsString.trimEnd s) = JsString.trimEnd s.
Proof.
  induction s as [| c s IH]; cbn; [reflexivity |].
  destruct (JsString.trimEnd s) as [| d r] eqn:E.
  - destruct (JsString.isSpace c) eqn:Ec; cbn; [reflexivity | now rewrite Ec].
  - cbn [JsString.trimEnd] in *. now rewrite IH.
Qed.

Lemma trim_idem (s : string) : JsString.trim (JsString.trim s) = JsString.trim s.
Proof.
  unfold JsString.trim.
  rewrite (trimStart_of_clean (JsString.trimEnd (JsString.trimStart s)))
    by (apply trimEnd_clean, trimStart_clean).
  apply trimEnd_idem.
Qed.

(** What the request validation leaves of an email is what the model's
    setters leave of it. *)
Lemma email_normal (raw : string) :
  JsString.trim (JsString.toLowerCase (JsString.trim (JsString.toLowerCase raw)))
  = JsString.trim (JsString.toLowerCase raw).
Proof.
  now rewrite <- trim_toLowerCase, toLowerCase_idem, trim_idem.
Qed.

(** ** Registration *)

Lemma create_children :
  In ("email", Validator.emailSchema) (Joi.childrenOf Validator.createCustomerSchema)
  /\ In ("nationalId", Validator.nationalIdSchema) (Joi.childrenOf Validator.createCustomerSchema)
  /\ NoDup (map fst (Joi.childrenOf Validator.createCustomerSchema)).
Proof.
  repeat split; try (cbn; tauto).
  cbn. repeat (constructor; [cbn; intuition discriminate |]). constructor.
Qed.

Lemma validateRequest_next rt now children f body validated :
  Joi.presence f <> Joi.Forbidden -> Joi.allowed f = [] -> Joi.only f = false ->
  Validator.validateRequest rt now (Joi.Obj children f) body = Validator.Next validated ->
  exists o,
    body = JObj o
    /\ Joi.childErrors (eachChild rt true now [] o children) = []
    /\ validated = Some (JObj (Joi.childValues (eachChild rt true now [] o children))).
Proof.
  intros Hp Ha Ho H.
  assert (B : exists o, body = JObj o).
  { destruct body; try (exists o; reflexivity); exfalso;
      unfold Validator.validateRequest in H; cbn in H; rewrite Ha, Ho in H;
      destruct (Joi.presence f); try contradiction; cbn in H; discriminate. }
  destruct B as (o & ->). exists o. split; [reflexivity |].
  unfold Validator.validateRequest in H.
  rewrite validate_object in H by assumption.
  unfold objectBody in H. cbn [fst snd] in H.
  destruct (Joi.childErrors (eachChild rt true now [] o children)); [| discriminate].
  destruct (Joi.runRules rt now f []
              (JObj (Joi.childValues (eachChild rt true now [] o children))));
    [| discriminate].
  split; [reflexivity | congruence].
Qed.

Lemma email_accepted rt su now p item :
  snd (Joi.validate rt su now p Validator.emailSchema item) = [] ->
  exists raw,
    fst (Joi.validate rt su now p Validator.emailSchema item)
    = Some (JStr (JsString.trim (JsString.toLowerCase raw))).
Proof.
  destruct item as [v |]; [| cbn; discriminate].
  destruct v; try (cbn; discriminate).
  intros H. exists s. revert H.
  cbn -[JsString.trim JsString.toLowerCase].
  destruct (JsString.trim (JsString.toLowerCase s)); cbn; [discriminate |].
  intros _. reflexivity.
Qed.

Lemma nationalId_accepted rt su now p item :
  snd (Joi.validate rt su now p Validator.nationalIdSchema item) = [] ->
  exists raw,
    fst (Joi.validate rt su now p Validator.nationalIdSchema item) = Some (JStr (JsString.trim raw)).
Proof.
  destruct item as [v |]; [| cbn; discriminate].
  destruct v; try (cbn; discriminate).
  intros H. exists s. revert H.
  cbn -[JsString.trim JsString.len Z.ltb].
  destruct (JsString.trim s); cbn -[JsString.len Z.ltb]; [discriminate |].
  intros _. reflexivity.
Qed.

(** A validated registration carries a lower-cased, trimmed email and a
    trimmed national identifier. *)
Lemma validated_registration rt now body data :
  Validator.validateRequest rt now Validator.createCustomerSchema body
  = Validator.Next (Some (JObj data)) ->
  exists rawEmail rawId,
    prop "email" data = Some (JStr (JsString.trim (JsString.toLowerCase rawEmail)))
    /\ prop "nationalId" data = Some (JStr (JsString.trim rawId)).
Proof.
  intros H.
  destruct create_children as (He & Hn & Hnd).
  apply (validateRequest_next rt now (Joi.childrenOf Validator.createCustomerSchema)
           (Joi.flagsOf Validator.createCustomerSchema)) in H;
    [| discriminate | reflexivity | reflexivity].
  destruct H as (o & -> & Hnil & Hv).
  assert (Hd : data = Joi.childValues
                        (eachChild rt true now [] o
                           (Joi.childrenOf Validator.createCustomerSchema)))
    by congruence.
  clear Hv. subst data.
  pose proof (prop_childValues rt true now [] o _ ("email", Validator.emailSchema) Hnd He) as P.
  pose proof (prop_childValues rt true now [] o _ ("nationalId", Validator.nationalIdSchema) Hnd Hn)
    as L.
  pose proof (childErrors_nil rt true now [] o _ ("email", Validator.emailSchema) Hnil He) as Pe.
  pose proof (childErrors_nil rt true now [] o _ ("nationalId", Validator.nationalIdSchema) Hnil Hn)
    as Le.
  cbn [fst snd] in P, L, Pe, Le.
  destruct (email_accepted rt true now _ _ Pe) as (rawEmail & Ee).
  destruct (nationalId_accepted rt true now _ _ Le) as (rawId & En).
  exists rawEmail, rawId. now rewrite P, L, Ee, En.
Qed.

Lemma find_first {A : Type} (p : A -> bool) (l : list A) (x : A) :
  In x l -> p x = true -> exists y, find p l = Some y /\ In y l /\ p y = true.
Proof.
  intros Hx Hp. destruct (find p l) as [y |] eqn:F.
  - exists y. destruct (find_some _ _ F). auto.
  - rewrite (find_none _ _ F x Hx) in Hp. discriminate.
Qed.

Lemma find_nothing {A : Type} (p : A -> bool) (l : list A) :
  (forall x, In x l -> p x = false) -> find p l = None.
Proof.
  intros H. induction l as [| a l IH]; [reflexivity |].
  cbn. rewrite (H a (or_introl eq_refl)). apply IH.
  intros x Hx. apply H. now right.
Qed.

Lemma existsb_nothing {A : Type} (p : A -> bool) (l : list A) :
  (forall x, In x l -> p x = false) -> existsb p l = false.
Proof.
  intros H. induction l as [| a l IH]; [reflexivity |].
  cbn. rewrite (H a (or_introl eq_refl)). apply IH.
  intros x Hx. apply H. now right.
Qed.

Lemma createCustomer_conflict id now data db em nid e :
  prop "email" data = Some (JStr em) ->
  prop "nationalId" data = Some (JStr nid) ->
  firstMatch em nid db = Some e ->
  CustomerController.createCustomer id now data db
  = (ErrorHandler.Failed
       (if String.eqb (Model.email e) em then emailTaken else nationalIdTaken), db).
Proof.
  intros He Hn F. unfold CustomerController.createCustomer.
  rewrite He, Hn. cbn [CustomerController.sameText].
  unfold firstMatch in F. rewrite F.
  destruct (find_some _ _ F) as [_ P]. cbn beta in P.
  destruct (String.eqb (Model.email e) em); [reflexivity |].
  cbn in P. now rewrite P.
Qed.

Lemma invalidPaths_nationalId today c :
  Model.invalidPaths today c = [] -> Model.nonEmpty (Model.nationalId c) = true.
Proof.
  unfold Model.invalidPaths. cbv beta zeta. intros H.
  repeat (apply app_eq_nil in H; destruct H as [? H]).
  destruct (Model.nonEmpty (Model.nationalId c)); [reflexivity |].
  match goal with
  | X : (if (false && _)%bool then _ else _) = [] |- _ => cbn in X; discriminate
  end.
Qed.

Lemma createCustomer_persists id now data db em nid :
  prop "email" data = Some (JStr em) ->
  prop "nationalId" data = Some (JStr nid) ->
  firstMatch em nid db = None ->
  Model.invalidPaths now (Model.newCustomer id now data) = [] ->
  Model.email (Model.newCustomer id now data) = em ->
  Model.nationalId (Model.newCustomer id now data) = nid ->
  CustomerController.createCustomer id now data db
  = (ErrorHandler.Sent
       (ErrorHandler.sendSuccess now
          (ErrorHandler.OneCustomer (Model.newCustomer id now data))
          "Customer created successfully" 201),
     db ++ [Model.newCustomer id now data]).
Proof.
  intros He Hn F V Ee En. unfold CustomerController.createCustomer.
  rewrite He, Hn. cbn [CustomerController.sameText].
  unfold firstMatch in F. rewrite F. cbv zeta.
  unfold Model.save. rewrite V, (invalidPaths_nationalId now _ V). cbn [negb andb].
  assert (A : forall d, In d db ->
                (String.eqb (Model.email d) em
                 || String.eqb (Model.nationalId d) nid)%bool = false)
    by (intros d Hd; exact (find_none _ _ F d Hd)).
  rewrite Ee, En.
  rewrite !existsb_nothing; [reflexivity | |];
    intros d Hd; specialize (A d Hd); now apply orb_false_iff in A.
Qed.

Lemma createCustomer_rejected id now data db em nid :
  prop "email" data = Some (JStr em) ->
  prop "nationalId" data = Some (JStr nid) ->
  firstMatch em nid db = None ->
  Model.invalidPaths now (Model.newCustomer id now data) <> [] ->
  CustomerController.createCustomer id now data db
  = (ErrorHandler.Failed
       (Model.ValidationError
          (Model.invalidPaths now (Model.newCustomer id now data))), db).
Proof.
  intros He Hn F V. unfold CustomerController.createCustomer.
  rewrite He, Hn. cbn [CustomerController.sameText].
  unfold firstMatch in F. rewrite F. cbv zeta.
  unfold Model.save.
  destruct (Model.invalidPaths now (Model.newCustomer id now data));
    [contradiction | reflexivity].
Qed.

Lemma newCustomer_identity id now data em nid :
  prop "email" data = Some (JStr em) ->
  prop "nationalId" data = Some (JStr nid) ->
  Model.email (Model.newCustomer id now data)
  = JsString.trim (JsString.toLowerCase em)
  /\ Model.nationalId (Model.newCustomer id now data) = JsString.trim nid.
Proof.
  intros He Hn. unfold Model.newCustomer, Model.getString. cbn.
  now rewrite He, Hn.
Qed.

(** C1, as the code has it. For a registration that passed the create
    schema: when a stored record has its email or its national
    identifier, the registration fails with a 409 whose message names a
    field that a stored record does have in common with it, and the
    collection is unchanged; when no stored record has either, the
    document built from it is appended to the collection and returned
    with status 201 (its email and national identifier being the
    validated ones) if it passes the validators the model runs on save,
    and otherwise the save is rejected and the collection is unchanged. *)
Theorem C1_registration_conflict_or_insert
  (rt : Joi.Runtime) (now : JsDate.Date) (id : Model.ObjectId)
  (body : JValue) (data : JObject) (db : Model.Collection) :
  Validator.validateRequest rt now Validator.createCustomerSchema body
  = Validator.Next (Some (JObj data)) ->
  exists em nid,
    prop "email" data = Some (JStr em) /\ prop "nationalId" data = Some (JStr nid)
    /\ ((exists c, In c db /\ (Model.email c = em \/ Model.nationalId c = nid)) ->
        (Routes.postCustomer rt now id body db
           = (Routes.Handled (ErrorHandler.Failed emailTaken), db)
         /\ exists c, In c db /\ Model.email c = em)
        \/ (Routes.postCustomer rt now id body db
              = (Routes.Handled (ErrorHandler.Failed nationalIdTaken), db)
            /\ exists c, In c db /\ Model.nationalId c = nid))
    /\ ((forall c, In c db -> Model.email c <> em /\ Model.nationalId c <> nid) ->
        Model.invalidPaths now (Model.newCustomer id now data) = [] ->
        Routes.postCustomer rt now id body db
        = (Routes.Handled
             (ErrorHandler.Sent
                (ErrorHandler.sendSuccess now
                   (ErrorHandler.OneCustomer (Model.newCustomer id now data))
                   "Customer created successfully" 201)),
           db ++ [Model.newCustomer id now data])
        /\ Model.email (Model.newCustomer id now data) = em
        /\ Model.nationalId (Model.newCustomer id now data) = nid)
    /\ ((forall c, In c db -> Model.email c <> em /\ Model.nationalId c <> nid) ->
        Model.invalidPaths now (Model.newCustomer id now data) <> [] ->
        Routes.postCustomer rt now id body db
        = (Routes.Handled
             (ErrorHandler.Failed
                (Model.ValidationError
                   (Model.invalidPaths now (Model.newCustomer id now data)))), db)).
Proof.
  intros H.
  destruct (validated_registration rt now body data H) as (rawEmail & rawId & He & Hn).
  exists (JsString.trim (JsString.toLowerCase rawEmail)), (JsString.trim rawId).
  split; [exact He |]. split; [exact Hn |].
  assert (R : forall r,
             CustomerController.createCustomer id now data db = r ->
             Routes.postCustomer rt now id body db
             = (Routes.Handled (fst r), snd r)).
  { intros r <-. unfold Routes.postCustomer, Routes.guard. now rewrite H. }
  assert (Free : (forall c, In c db ->
                    Model.email c <> JsString.trim (JsString.toLowerCase rawEmail)
                    /\ Model.nationalId c <> JsString.trim rawId) ->
                 firstMatch (JsString.trim (JsString.toLowerCase rawEmail))
                   (JsString.trim rawId) db = None).
  { intros Hfree. apply find_nothing. intros c Hc. destruct (Hfree c Hc) as [A B].
    apply orb_false_iff. split; now apply String.eqb_neq. }
  split; [| split].
  - intros (c & Hc & Hm).
    destruct (find_first
                (fun c => String.eqb (Model.email c)
                            (JsString.trim (JsString.toLowerCase rawEmail))
                          || String.eqb (Model.nationalId c) (JsString.trim rawId))%bool
                db c Hc) as (e & F & Hin & P).
    { apply orb_true_iff. destruct Hm as [<- | <-];
        [left | right]; apply String.eqb_refl. }
    pose proof (createCustomer_conflict id now data db _ _ e He Hn F) as C.
    destruct (String.eqb_spec (Model.email e)
                (JsString.trim (JsString.toLowerCase rawEmail))) as [E | E].
    + left. split; [exact (R _ C) | now exists e].
    + right. split; [exact (R _ C) |]. exists e. split; [exact Hin |].
      cbn in P. now apply String.eqb_eq in P.
  - intros Hfree V.
    destruct (newCustomer_identity id now data _ _ He Hn) as (E1 & E2).
    rewrite email_normal in E1. rewrite trim_idem in E2.
    split; [| split; assumption].
    apply (R (_, _)).
    apply (createCustomer_persists id now data db _ _ He Hn); auto.
  - intros Hfree V.
    apply (R (_, _)).
    apply (createCustomer_rejected id now data db _ _ He Hn); auto.
Qed.

Lemma C1_registration_conflict_or_insert_witness :
  Routes.postCustomer sampleRuntime sampleNow "c1"
    (sampleRegistration "ANA@X.COM" "12345678" "1990-01-01") []
  = (Routes.Handled
       (ErrorHandler.Sent
          (ErrorHandler.sendSuccess sampleNow
             (ErrorHandler.OneCustomer
                (sampleCustomer "c1" "ana@x.com" "12345678" sampleNow))
             "Customer created successfully" 201)),
     [sampleCustomer "c1" "ana@x.com" "12345678" sampleNow]).
Proof.
  destruct (C1_registration_conflict_or_insert sampleRuntime sampleNow "c1"
              (sampleRegistration "ANA@X.COM" "12345678" "1990-01-01")
              (validatedBody Validator.createCustomerSchema
                 (sampleRegistration "ANA@X.COM" "12345678" "1990-01-01"))
              [] eq_refl) as (em & nid & _ & _ & _ & Insert & _).
  apply (Insert (fun c (H : In c []) => match H with end) eq_refl).
Defined.

(** A registration that passes the create schema and collides with no
    stored record, and that is not persisted: the customer is 120 years
    old with the 121st birthday still to come in the year, which the
    create schema accepts and the model's year-difference validator
    does not. *)
Lemma C1_valid_registration_not_persisted :
  Validator.validateRequest sampleRuntime sampleNow Validator.createCustomerSchema
    (sampleRegistration "ANA@X.COM" "12345678" "1905-12-01")
  = Validator.Next
      (Some (JObj (validatedBody Validator.createCustomerSchema
                     (sampleRegistration "ANA@X.COM" "12345678" "1905-12-01"))))
  /\ Routes.postCustomer sampleRuntime sampleNow "c1"
       (sampleRegistration "ANA@X.COM" "12345678" "1905-12-01") []
     = (Routes.Handled (ErrorHandler.Failed (Model.ValidationError ["dateOfBirth"])), []).
Proof.
  split; vm_compute; reflexivity.
Qed.

(** The same for an address whose top-level domain has four letters:
    an address check that accepts it lets the registration through, and
    the [match] of the model's [email] rejects the document on save. *)
Lemma registration_rejected_by_email_pattern :
  Validator.validateRequest lenientRuntime sampleNow Validator.createCustomerSchema
    (sampleRegistration "ana@mail.info" "12345678" "1990-01-01")
  = Validator.Next
      (Some (JObj [("firstName", JStr "Ana"); ("lastName", JStr "Ruiz");
                   ("email", JStr "ana@mail.info"); ("phone", JStr "+57 300 111 2222");
                   ("dateOfBirth", JDate (JsDate.mkDate 1990 0 1 0));
                   ("nationalId", JStr "12345678");
                   ("address", JObj [("street", JStr "Calle 1"); ("city", JStr "Bogota");
                                     ("state", JStr "Cund."); ("postalCode", JStr "110001");
                                     ("country", JStr "Colombia")]);
                   ("documents", JArr []); ("preferences", JObj [])]))
  /\ Routes.postCustomer lenientRuntime sampleNow "c1"
       (sampleRegistration "ana@mail.info" "12345678" "1990-01-01") []
     = (Routes.Handled (ErrorHandler.Failed (Model.ValidationError ["email"])), []).
Proof.
  split; vm_compute; reflexivity.
Qed.

(** C9, as the code has it. When the registration collides with stored
    records, the conflict reported is decided by the first stored record
    (in scan order) that has its email or its national identifier: the
    email conflict when that record has the email (so also when one
    record has both), the national-identifier conflict otherwise. *)
Theorem C9_conflict_follows_first_match
  (id : Model.ObjectId) (now : JsDate.Date) (data : JObject) (db : Model.Collection)
  (em nid : string) (first : Model.Customer) :
  prop "email" data = Some (JStr em) ->
  prop "nationalId" data = Some (JStr nid) ->
  firstMatch em nid db = Some first ->
  (Model.email first = em ->
   CustomerController.createCustomer id now data db
   = (ErrorHandler.Failed emailTaken, db))
  /\ (Model.email first <> em ->
      Model.nationalId first = nid
      /\ CustomerController.createCustomer id now data db
         = (ErrorHandler.Failed nationalIdTaken, db)).
Proof.
  intros He Hn F.
  rewrite (createCustomer_conflict id now data db em nid first He Hn F).
  destruct (find_some _ _ F) as [_ P]. cbn beta in P.
  destruct (String.eqb_spec (Model.email first) em) as [E | E].
  - split; [reflexivity | contradiction].
  - split; [contradiction |]. intros _. split; [| reflexivity].
    cbn in P. now apply String.eqb_eq in P.
Qed.

Lemma C9_conflict_follows_first_match_witness :
  CustomerController.createCustomer "c3" sampleNow
    (validatedBody Validator.createCustomerSchema
       (sampleRegistration "bea@x.com" "11111111" "1990-01-01"))
    sampleTwoOwners
  = (ErrorHandler.Failed emailTaken, sampleTwoOwners).
Proof.
  apply (proj1 (C9_conflict_follows_first_match "c3" sampleNow
                  (validatedBody Validator.createCustomerSchema
                     (sampleRegistration "bea@x.com" "11111111" "1990-01-01"))
                  sampleTwoOwners "bea@x.com" "11111111"
                  (sampleCustomer "c1" "bea@x.com" "11111111" (JsDate.mkDate 2026 0 10 0))
                  eq_refl eq_refl eq_refl)).
  reflexivity.
Defined.

(** Both fields of the registration are taken, by different records,
    and the conflict reported is the one of the national identifier. *)
Lemma C9_national_id_reported_first :
  (exists c, In c sampleTwoOwners /\ Model.email c = "ana@x.com")
  /\ (exists c, In c sampleTwoOwners /\ Model.nationalId c = "11111111")
  /\ Routes.postCustomer sampleRuntime sampleNow "c3"
       (sampleRegistration "ana@x.com" "11111111" "1990-01-01") sampleTwoOwners
     = (Routes.Handled (ErrorHandler.Failed nationalIdTaken), sampleTwoOwners).
Proof.
  split; [| split].
  - eexists. split; [right; left; reflexivity | reflexivity].
  - eexists. split; [left; reflexivity | reflexivity].
  - vm_compute. reflexivity.
Qed.

(* ===================================================================== *)
(** * Further properties *)
(* ===================================================================== *)

(** ** Regular expressions *)

Lemma test_Nul (s : string) : Regex.test Regex.Nul s = false.
Proof. induction s as [| c s IH]; [reflexivity | exact IH]. Qed.

Lemma test_Eps (s : string) : Regex.test Regex.Eps s = String.eqb s "".
Proof. destruct s as [| c s]; [reflexivity | apply test_Nul]. Qed.

Lemma seq_Eps_l (b : Regex.re) : Regex.seq Regex.Eps b = b.
Proof. destruct b; reflexivity. Qed.

Lemma seq_Eps_r (a : Regex.re) : Regex.seq a Regex.Eps = a.
Proof. destruct a; reflexivity. Qed.

Lemma seq_Nul_r (a : Regex.re) : Regex.seq a Regex.Nul = Regex.Nul.
Proof. destruct a; reflexivity. Qed.

Lemma alt_Nul_r (a : Regex.re) : Regex.alt a Regex.Nul = a.
Proof. destruct a; reflexivity. Qed.

(** A sequence built by [seq] matches what the plain sequence matches. *)
Lemma test_Seq_Nul_r (a : Regex.re) (s : string) :
  Regex.test (Regex.Seq a Regex.Nul) s = false.
Proof.
  revert a; induction s as [| c s IH]; intros a; cbn.
  - apply andb_false_r.
  - destruct (Regex.nullable a); rewrite seq_Nul_r; cbn; apply test_Nul.
Qed.

Lemma test_Seq_Eps_l (b : Regex.re) (s : string) :
  Regex.test (Regex.Seq Regex.Eps b) s = Regex.test b s.
Proof. destruct s as [| c s]; reflexivity. Qed.

Lemma test_Seq_Eps_r (a : Regex.re) (s : string) :
  Regex.test (Regex.Seq a Regex.Eps) s = Regex.test a s.
Proof.
  destruct s as [| c s]; cbn.
  - apply andb_true_r.
  - destruct (Regex.nullable a); rewrite seq_Eps_r; [now rewrite alt_Nul_r | reflexivity].
Qed.

Lemma test_Seq_Nul_l (b : Regex.re) (s : string) :
  Regex.test (Regex.Seq Regex.Nul b) s = false.
Proof. destruct s as [| c s]; [reflexivity | apply test_Nul]. Qed.

Lemma test_seq (a b : Regex.re) (s : string) :
  Regex.test (Regex.seq a b) s = Regex.test (Regex.Seq a b) s.
Proof.
  destruct a; cbn [Regex.seq].
  - now rewrite test_Nul, test_Seq_Nul_l.
  - destruct b; try reflexivity;
      now rewrite ?test_Seq_Eps_l, ?test_Nul, ?test_Seq_Nul_r, ?test_Seq_Eps_r.
  - destruct b; try reflexivity; now rewrite ?test_Nul, ?test_Seq_Nul_r, ?test_Seq_Eps_r.
  - destruct b; try reflexivity; now rewrite ?test_Nul, ?test_Seq_Nul_r, ?test_Seq_Eps_r.
  - destruct b; try reflexivity; now rewrite ?test_Nul, ?test_Seq_Nul_r, ?test_Seq_Eps_r.
  - destruct b; try reflexivity; now rewrite ?test_Nul, ?test_Seq_Nul_r, ?test_Seq_Eps_r.
Qed.

(** One character against a class followed by [b]. *)
Lemma test_class_then (k : list Regex.atom) (b : Regex.re) (c : ascii) (s : string) :
  Regex.test (Regex.Seq (Regex.Chr k) b) (String c s)
  = (existsb (fun a => Regex.inAtom a c) k && Regex.test b s)%bool.
Proof.
  cbn [Regex.test Regex.deriv Regex.nullable].
  destruct (existsb (fun a => Regex.inAtom a c) k).
  - now rewrite seq_Eps_l.
  - cbn. apply test_Nul.
Qed.

Section Repetitions.

Variable k : list Regex.atom.

Let inClass (c : ascii) : bool := existsb (fun a => Regex.inAtom a c) k.

Lemma test_upto (b : nat) (s : string) :
  Regex.test (Regex.upto b (Regex.Chr k)) s
  = ((String.length s <=? b)%nat && forallb inClass (list_ascii_of_string s))%bool.
Proof.
  revert s; induction b as [| b IH]; intros [| c s]; try reflexivity.
  - cbn. apply test_Nul.
  - change (Regex.test (Regex.upto (S b) (Regex.Chr k)) (String c s))
      with (Regex.test (Regex.alt Regex.Nul
                          (Regex.deriv c (Regex.Seq (Regex.Chr k)
                                            (Regex.upto b (Regex.Chr k))))) s).
    change (Regex.alt Regex.Nul ?x) with x.
    change (Regex.test (Regex.deriv c ?r) s) with (Regex.test r (String c s)).
    rewrite test_class_then, IH. cbn [String.length list_ascii_of_string forallb].
    fold (inClass c). cbn [Nat.leb].
    destruct (inClass c); cbn; [reflexivity | now rewrite andb_false_r].
Qed.

Lemma test_between (a b : nat) (s : string) :
  Regex.test (Regex.Seq (Regex.times a (Regex.Chr k)) (Regex.upto b (Regex.Chr k))) s
  = ((a <=? String.length s)%nat && (String.length s <=? a + b)%nat
     && forallb inClass (list_ascii_of_string s))%bool.
Proof.
  revert s; induction a as [| a IH]; intros s.
  - cbn [Regex.times]. rewrite test_Seq_Eps_l, test_upto. reflexivity.
  - destruct s as [| c s].
    + reflexivity.
    + cbn [Regex.times].
      change (Regex.test
                (Regex.Seq (Regex.Seq (Regex.Chr k) (Regex.times a (Regex.Chr k)))
                   (Regex.upto b (Regex.Chr k))) (String c s))
        with (Regex.test
                (Regex.seq
                   (Regex.seq (Regex.deriv c (Regex.Chr k)) (Regex.times a (Regex.Chr k)))
                   (Regex.upto b (Regex.Chr k))) s).
      cbn [Regex.deriv]. cbn [String.length list_ascii_of_string forallb].
      fold (inClass c).
      destruct (inClass c).
      * rewrite seq_Eps_l, test_seq, IH. reflexivity.
      * cbn. rewrite test_Nul. now rewrite andb_false_r.
Qed.

End Repetitions.

Lemma append_nil_r (s : string) : (s ++ "")%string = s.
Proof. induction s as [| c s IH]; cbn; [reflexivity | now rewrite IH]. Qed.

Lemma append_assoc (a b c : string) : ((a ++ b) ++ c)%string = (a ++ (b ++ c))%string.
Proof. induction a as [| x a IH]; cbn; [reflexivity | now rewrite IH]. Qed.

Lemma nullable_matches (r : Regex.re) : Regex.nullable r = true -> matches r "".
Proof.
  induction r; cbn; intros H; try discriminate.
  - constructor.
  - apply andb_true_iff in H. destruct H as [H1 H2].
    change "" with ("" ++ "")%string. constructor; auto.
  - apply orb_true_iff in H. destruct H as [H | H]; [apply MAltL | apply MAltR]; auto.
  - constructor.
Qed.

Lemma seq_matches (a b : Regex.re) (s : string) :
  matches (Regex.seq a b) s -> matches (Regex.Seq a b) s.
Proof.
  assert (E : forall x, matches x s -> matches (Regex.Seq Regex.Eps x) s)
    by (intros x H; change s with ("" ++ s)%string; constructor; [constructor | exact H]).
  assert (R : forall x, matches x s -> matches (Regex.Seq x Regex.Eps) s)
    by (intros x H; rewrite <- (append_nil_r s); constructor; [exact H | constructor]).
  destruct a, b; cbn; intros H; auto; inversion H.
Qed.

Lemma alt_matches (a b : Regex.re) (s : string) :
  matches (Regex.alt a b) s -> matches (Regex.Alt a b) s.
Proof.
  unfold Regex.alt.
  destruct a; try (intros H; now apply MAltR);
    destruct b; try (intros H; now apply MAltL);
    match goal with
    | |- matches (if ?c then _ else _) _ -> _ =>
        destruct c; intros H; [now apply MAltL | exact H]
    end.
Qed.

Lemma deriv_matches (c : ascii) (r : Regex.re) (s : string) :
  matches (Regex.deriv c r) s -> matches r (String c s).
Proof.
  revert s; induction r as [| | k | a IHa b IHb | a IHa b IHb | a IHa]; intros s; cbn.
  - intros H; inversion H.
  - intros H; inversion H.
  - destruct (existsb (fun a => Regex.inAtom a c) k) eqn:E; intros H; inversion H; subst.
    now constructor.
  - assert (L : matches (Regex.seq (Regex.deriv c a) b) s ->
                matches (Regex.Seq a b) (String c s)).
    { intros H. apply seq_matches in H. inversion H; subst.
      change (String c (s0 ++ t)) with (String c s0 ++ t)%string.
      constructor; auto. }
    destruct (Regex.nullable a) eqn:N; [| exact L].
    intros H. apply alt_matches in H. inversion H; subst; [now apply L |].
    change (String c s) with ("" ++ String c s)%string.
    constructor; [now apply nullable_matches | now apply IHb].
  - intros H. apply alt_matches in H.
    inversion H; subst; [apply MAltL | apply MAltR]; auto.
  - intros H. apply seq_matches in H. inversion H; subst.
    change (String c (s0 ++ t)) with (String c s0 ++ t)%string.
    constructor; auto.
Qed.

(** Whatever [test] accepts, the expression matches. *)
Lemma test_matches (r : Regex.re) (s : string) : Regex.test r s = true -> matches r s.
Proof.
  revert r; induction s as [| c s IH]; intros r; cbn.
  - apply nullable_matches.
  - intros H. apply deriv_matches. now apply IH.
Qed.

(** ** Identifiers *)

Lemma test_times_class (k : list Regex.atom) (n : nat) (s : string) :
  Regex.test (Regex.times n (Regex.Chr k)) s
  = ((String.length s =? n)%nat
     && forallb (fun c => existsb (fun a => Regex.inAtom a c) k) (list_ascii_of_string s))%bool.
Proof.
  revert s; induction n as [| n IH]; intros [| c s]; try reflexivity.
  - cbn. apply test_Nul.
  - cbn [Regex.times Regex.test Regex.deriv Regex.nullable String.length
         list_ascii_of_string forallb Nat.eqb].
    destruct (existsb (fun a => Regex.inAtom a c) k).
    + rewrite seq_Eps_l, IH. reflexivity.
    + cbn. rewrite test_Nul, andb_false_r. reflexivity.
Qed.

Lemma isHexDigit_class (c : ascii) :
  existsb (fun a => Regex.inAtom a c)
    [Regex.Range "0" "9"; Regex.Range "a" "f"; Regex.Range "A" "F"]
  = isHexDigit c.
Proof.
  destruct c as [[] [] [] [] [] [] [] []]; reflexivity.
Qed.

Lemma test_idPattern (s : string) : Regex.test Validator.idPattern s = hex24 s.
Proof.
  unfold Validator.idPattern, hex24. rewrite test_times_class. f_equal.
  induction (list_ascii_of_string s) as [| c l IH]; [reflexivity |].
  cbn [forallb]. now rewrite isHexDigit_class, IH.
Qed.

Lemma hex24_nonempty (s : string) : hex24 s = true -> String.eqb s "" = false.
Proof. destruct s; [discriminate | reflexivity]. Qed.

Lemma validateParams_id (rt : Joi.Runtime) (now : JsDate.Date) (s : string) :
  Validator.validateParams rt now Validator.customerIdSchema (JObj [("id", JStr s)])
  = if hex24 s
    then Validator.Next (Some (JObj [("id", JStr s)]))
    else Validator.Reply 400 "Invalid parameters" [invalidId s].
Proof.
  unfold invalidId.
  destruct s as [| c s].
  - reflexivity.
  - rewrite <- test_idPattern.
    unfold Validator.validateParams.
    cbn -[Regex.test Validator.idPattern].
    destruct (Regex.test Validator.idPattern (String c s)); reflexivity.
Qed.

(** X1. A path parameter is accepted as a customer identifier exactly
    when it is a text of 24 hexadecimal digits.  The routes with an
    [:id] parameter hand such a text to their handler; any other text
    is answered 400, Invalid parameters, with one error for the field
    id, and neither the handler nor the collection is touched. *)
Theorem customer_id_format
  (rt : Joi.Runtime) (now : JsDate.Date) (s : string)
  (handler : Model.ObjectId -> Model.Collection -> ErrorHandler.Result * Model.Collection)
  (update : option JValue -> option JValue -> Model.Collection ->
            ErrorHandler.Result * Model.Collection)
  (body : JValue) (db : Model.Collection) :
  Validator.validateParams rt now Validator.customerIdSchema (JObj [("id", JStr s)])
  = (if hex24 s
     then Validator.Next (Some (JObj [("id", JStr s)]))
     else Validator.Reply 400 "Invalid parameters" [invalidId s])
  /\ Routes.withCustomerId rt now handler (JObj [("id", JStr s)]) db
     = (if hex24 s
        then Routes.handled (handler (Model.castObjectId s) db)
        else (Routes.Invalid 400 "Invalid parameters" [invalidId s], db))
  /\ (hex24 s = false ->
      Routes.putCustomer rt now update (JObj [("id", JStr s)]) body db
      = (Routes.Invalid 400 "Invalid parameters" [invalidId s], db)
      /\ Routes.postDocument rt now (JObj [("id", JStr s)]) body db
         = (Routes.Invalid 400 "Invalid parameters" [invalidId s], db)).
Proof.
  split; [apply validateParams_id |].
  split.
  - unfold Routes.withCustomerId. rewrite validateParams_id.
    destruct (hex24 s); reflexivity.
  - intros H. unfold Routes.putCustomer, Routes.postDocument.
    rewrite validateParams_id, H. split; reflexivity.
Qed.

(** ** Phone numbers *)

Lemma isPhoneChar_class (c : ascii) :
  existsb (fun a => Regex.inAtom a c)
    [Regex.Digit; Regex.Space; Regex.Lit "-"; Regex.Lit "("; Regex.Lit ")"]
  = isPhoneChar c.
Proof.
  unfold isPhoneChar. cbn. now rewrite orb_false_r, !orb_assoc.
Qed.

Lemma forallb_ext_eq {A : Type} (f g : A -> bool) (l : list A) :
  (forall x, f x = g x) -> forallb f l = forallb g l.
Proof. intros E. induction l as [| x l IH]; cbn; [reflexivity | now rewrite E, IH]. Qed.

Lemma test_phoneBody (s : string) :
  Regex.test
    (Regex.between 10 15
       (Regex.Chr [Regex.Digit; Regex.Space; Regex.Lit "-"; Regex.Lit "("; Regex.Lit ")"])) s
  = ((10 <=? String.length s)%nat && (String.length s <=? 15)%nat
     && forallb isPhoneChar (list_ascii_of_string s))%bool.
Proof.
  unfold Regex.between. rewrite test_between.
  f_equal. apply forallb_ext_eq, isPhoneChar_class.
Qed.

Lemma test_phonePattern (s : string) :
  Regex.test Validator.phonePattern s = phoneShape s.
Proof.
  unfold phoneShape.
  destruct s as [| c s]; [reflexivity |].
  rewrite <- !test_phoneBody.
  destruct (Ascii.eqb_spec c "+") as [-> | N].
  - reflexivity.
  - assert (E : Regex.test Validator.phonePattern (String c s)
                = Regex.test
                    (Regex.between 10 15
                       (Regex.Chr [Regex.Digit; Regex.Space; Regex.Lit "-"; Regex.Lit "(";
                                   Regex.Lit ")"])) (String c s)).
    { unfold Validator.phonePattern.
      cbn [Regex.test Regex.deriv Regex.nullable Regex.opt orb andb existsb Regex.inAtom].
      destruct (Ascii.eqb_spec c "+") as [-> | _]; [now contradiction N |].
      reflexivity. }
    rewrite E.
    destruct c as [[] [] [] [] [] [] [] []]; try reflexivity. now contradiction N.
Qed.

(** ** What the schemas accept *)

Lemma runRules_nil rt now f p v :
  Joi.runRules rt now f p v = [] ->
  Forall (fun r => Joi.ruleError rt now r v = None) (Joi.rules f).
Proof.
  unfold Joi.runRules. induction (Joi.rules f) as [| r rs IH]; intros H; [constructor |].
  cbn in H. destruct (Joi.ruleError rt now r v) eqn:E; [discriminate |].
  constructor; [exact E | now apply IH].
Qed.

Lemma str_outcome rt su now p t l f raw :
  Joi.allowed f = [] -> Joi.presence f <> Joi.Forbidden ->
  Joi.validate rt su now p (Joi.Str t l f) (Some (JStr raw))
  = match coerced t l raw with
    | EmptyString =>
        (Some (JStr ""),
         (if Joi.only f then [Joi.report f p "any.only" (Some (JStr ""))] else [])
         ++ [Joi.report f p "string.empty" (Some (JStr ""))])
    | String c x =>
        (Some (JStr (String c x)),
         (if Joi.only f then [Joi.report f p "any.only" (Some (JStr (String c x)))] else [])
         ++ Joi.runRules rt now f p (JStr (String c x)))
    end.
Proof.
  intros Ha Hp. unfold coerced.
  cbn -[JsString.trim JsString.toLowerCase]. rewrite Ha.
  destruct (Joi.presence f); try contradiction;
    cbn -[JsString.trim JsString.toLowerCase];
    destruct (if t then JsString.trim (if l then JsString.toLowerCase raw else raw)
              else if l then JsString.toLowerCase raw else raw); reflexivity.
Qed.

Lemma str_accepted rt su now p t l f item :
  Joi.allowed f = [] -> Joi.only f = false -> Joi.presence f <> Joi.Forbidden ->
  snd (Joi.validate rt su now p (Joi.Str t l f) item) = [] ->
  (item = None /\ Joi.presence f <> Joi.Required
   /\ fst (Joi.validate rt su now p (Joi.Str t l f) item) = Joi.applyDefault now f)
  \/ (exists raw,
        item = Some (JStr raw)
        /\ coerced t l raw <> ""
        /\ fst (Joi.validate rt su now p (Joi.Str t l f) item)
           = Some (JStr (coerced t l raw))
        /\ Joi.runRules rt now f p (JStr (coerced t l raw)) = []).
Proof.
  intros Ha Ho Hp H.
  destruct item as [v |].
  - right.
    destruct v as [| b | n | raw | d | a | o];
      try (exfalso; revert H; cbn; rewrite Ha, Ho;
           destruct (Joi.presence f); try contradiction; cbn; discriminate).
    exists raw. split; [reflexivity |].
    rewrite str_outcome in * by assumption. rewrite Ho in H.
    destruct (coerced t l raw); [discriminate |].
    split; [discriminate |]. split; [reflexivity | exact H].
  - left. split; [reflexivity |].
    revert H. cbn. destruct (Joi.presence f); try discriminate; try contradiction.
    intros _. split; [discriminate | reflexivity].
Qed.

Lemma existsb_same_text (v : JValue) (vs : list string) :
  existsb (same v) (map JStr vs) = true -> exists t, v = JStr t /\ In t vs.
Proof.
  induction vs as [| x vs IH]; cbn; [discriminate |].
  intros H. apply orb_true_iff in H. destruct H as [H | H].
  - destruct v; try discriminate. apply String.eqb_eq in H. subst. eexists; split; eauto.
  - destruct (IH H) as (t & -> & I). eexists; split; eauto.
Qed.

Lemma valid_accepted rt su now p f vs item :
  Joi.allowed f = map JStr vs -> Joi.only f = true -> Joi.presence f <> Joi.Forbidden ->
  snd (Joi.validate rt su now p (Joi.Str false false f) item) = [] ->
  (item = None /\ Joi.presence f <> Joi.Required
   /\ fst (Joi.validate rt su now p (Joi.Str false false f) item) = Joi.applyDefault now f)
  \/ (exists t,
        item = Some (JStr t) /\ In t vs
        /\ fst (Joi.validate rt su now p (Joi.Str false false f) item) = Some (JStr t)).
Proof.
  intros Ha Ho Hp H.
  destruct item as [v |].
  - right.
    assert (C : Joi.coerce rt (Joi.Str false false f) v = v) by (destruct v; reflexivity).
    revert H. cbn [Joi.validate option_map Joi.flagsOf]. rewrite C, Ha, Ho.
    destruct (Joi.presence f); try contradiction;
      (destruct (existsb (same v) (map JStr vs)) eqn:E;
       [ destruct (existsb_same_text v vs E) as (t & -> & I);
         intros _; exists t; repeat split; assumption
       | destruct (Joi.baseError (Joi.Str false false f) v); cbn; discriminate ]).
  - left. split; [reflexivity |].
    revert H. cbn. destruct (Joi.presence f); try discriminate; try contradiction.
    intros _. split; [discriminate | reflexivity].
Qed.

Lemma object_required rt su now p children f item :
  Joi.presence f = Joi.Required -> Joi.allowed f = [] -> Joi.only f = false ->
  snd (Joi.validate rt su now p (Joi.Obj children f) item) = [] ->
  exists o, item = Some (JObj o).
Proof.
  intros Hp Ha Ho H.
  destruct item as [v |].
  - destruct v as [| b | n | raw | d | a | o]; try (eexists; reflexivity);
      exfalso; revert H; cbn; rewrite Ha, Ho, Hp; cbn; discriminate.
  - exfalso. revert H. cbn. rewrite Hp. discriminate.
Qed.

Lemma object_optional rt su now p children f item :
  Joi.presence f = Joi.Optional -> Joi.allowed f = [] -> Joi.only f = false ->
  snd (Joi.validate rt su now p (Joi.Obj children f) item) = [] ->
  (item = None
   /\ fst (Joi.validate rt su now p (Joi.Obj children f) item) = Joi.applyDefault now f)
  \/ exists o, item = Some (JObj o).
Proof.
  intros Hp Ha Ho H.
  destruct item as [v |].
  - right. destruct v as [| b | n | raw | d | a | o]; try (eexists; reflexivity);
      exfalso; revert H; cbn; rewrite Ha, Ho, Hp; cbn; discriminate.
  - left. split; reflexivity.
Qed.

Lemma validate_array rt now p e f l :
  Joi.presence f <> Joi.Forbidden -> Joi.only f = false ->
  Joi.validate rt true now p (Joi.Arr e f) (Some (JArr l))
  = let values :=
      flat_map (fun r => match fst (snd r) with Some x => [x] | None => [] end)
        (eachItem rt now p e O l) in
    match Joi.childErrors (eachItem rt now p e O l) with
    | [] => (Some (JArr values), Joi.runRules rt now f p (JArr values))
    | _ :: _ => (Some (JArr values), Joi.childErrors (eachItem rt now p e O l))
    end.
Proof.
  intros Hp Ho. cbn. rewrite same_array_never, Ho.
  destruct (Joi.presence f); try contradiction;
    fold (eachItem rt now p e); reflexivity.
Qed.

Lemma array_optional rt now p e f item :
  Joi.presence f = Joi.Optional -> Joi.allowed f = [] -> Joi.only f = false ->
  snd (Joi.validate rt true now p (Joi.Arr e f) item) = [] ->
  (item = None
   /\ fst (Joi.validate rt true now p (Joi.Arr e f) item) = Joi.applyDefault now f)
  \/ exists l,
       item = Some (JArr l)
       /\ Joi.childErrors (eachItem rt now p e O l) = []
       /\ fst (Joi.validate rt true now p (Joi.Arr e f) item)
          = Some (JArr (flat_map (fun r => match fst (snd r) with
                                           | Some x => [x]
                                           | None => []
                                           end) (eachItem rt now p e O l))).
Proof.
  intros Hp Ha Ho H.
  destruct item as [v |].
  - right. destruct v as [| b | n | raw | d | a | o];
      try (exfalso; revert H; cbn; rewrite Ha, Ho, Hp; cbn; discriminate).
    exists a. split; [reflexivity |].
    rewrite validate_array in * by (congruence || assumption).
    cbv zeta in *.
    destruct (Joi.childErrors (eachItem rt now p e 0 a)); [| discriminate].
    split; reflexivity.
  - left. split; reflexivity.
Qed.

Lemma phoneShape_nonempty (s : string) : phoneShape s = true -> String.eqb s "" = false.
Proof. destruct s; [discriminate | reflexivity]. Qed.

Lemma phone_outcome rt now raw :
  Joi.validate rt true now ([] ++ ["phone"])
    (childSchema Validator.createCustomerSchema "phone") (Some (JStr raw))
  = (Some (JStr (JsString.trim raw)),
     if phoneShape (JsString.trim raw)
     then []
     else [{| Joi.path := ["phone"];
              Joi.type := if String.eqb (JsString.trim raw) ""
                          then "string.empty" else "string.pattern.base";
              Joi.message := phoneMessage (JsString.trim raw);
              Joi.value := Some (JStr (JsString.trim raw)) |}]).
Proof.
  change (childSchema Validator.createCustomerSchema "phone")
    with (Joi.Str true false
            (Joi.flagsOf (childSchema Validator.createCustomerSchema "phone"))).
  rewrite str_outcome by (reflexivity || discriminate).
  unfold coerced. rewrite <- test_phonePattern.
  destruct (JsString.trim raw) as [| c x] eqn:T; [reflexivity |].
  cbn -[Regex.test Validator.phonePattern].
  destruct (Regex.test Validator.phonePattern (String c x)); reflexivity.
Qed.

(** X2. On a phone written in ASCII characters, the phone patterns of
    the create schema and of the model accept the same texts: an
    optional plus sign, then 10 to 15 digits, white-space characters,
    hyphens or parentheses.  A registration whose phone is such a text
    and, trimmed, has not this shape is answered 400 with an error for
    the field phone and changes nothing; one that passes carries the
    trimmed phone, which has the shape. *)
Theorem phone_number_format
  (rt : Joi.Runtime) (now : JsDate.Date) (id : Model.ObjectId) (o : JObject) (raw : string)
  (db : Model.Collection) :
  asciiText raw = true ->
  Regex.test Validator.phonePattern raw = phoneShape raw
  /\ Regex.test Model.phoneMatch raw = phoneShape raw
  /\ (prop "phone" o = Some (JStr raw) ->
      phoneShape (JsString.trim raw) = false ->
      exists errors,
        Validator.validateRequest rt now Validator.createCustomerSchema (JObj o)
        = Validator.Reply 400 "Validation error" errors
        /\ In {| Validator.field := "phone";
                 Validator.message := phoneMessage (JsString.trim raw);
                 Validator.value := Some (JStr (JsString.trim raw)) |} errors
        /\ Routes.postCustomer rt now id (JObj o) db
           = (Routes.Invalid 400 "Validation error" errors, db))
  /\ (prop "phone" o = Some (JStr raw) ->
      forall data,
        Validator.validateRequest rt now Validator.createCustomerSchema (JObj o)
        = Validator.Next (Some (JObj data)) ->
        prop "phone" data = Some (JStr (JsString.trim raw))
        /\ phoneShape (JsString.trim raw) = true).
Proof.
  intros _.
  split; [apply test_phonePattern |]. split; [apply test_phonePattern |].
  split.
  - intros P S.
    pose proof (phone_outcome rt now raw) as O. rewrite S in O.
    destruct (validateRequest_child_error rt now
                (Joi.childrenOf Validator.createCustomerSchema)
                (Joi.flagsOf Validator.createCustomerSchema) o
                ("phone", childSchema Validator.createCustomerSchema "phone")
                {| Joi.path := ["phone"];
                   Joi.type := if String.eqb (JsString.trim raw) ""
                               then "string.empty" else "string.pattern.base";
                   Joi.message := phoneMessage (JsString.trim raw);
                   Joi.value := Some (JStr (JsString.trim raw)) |})
      as (errors & E1 & E2);
      [discriminate | reflexivity | reflexivity | cbn; tauto
      | cbn [fst snd]; rewrite P, O; now left |].
    pose proof (E1 : Validator.validateRequest rt now Validator.createCustomerSchema (JObj o)
                     = Validator.Reply 400 "Validation error" errors) as E1'.
    exists errors. split; [exact E1' |]. split; [exact E2 |].
    unfold Routes.postCustomer, Routes.guard. now rewrite E1'.
  - intros P data H.
    destruct create_children as (_ & _ & Hnd).
    apply (validateRequest_next rt now (Joi.childrenOf Validator.createCustomerSchema)
             (Joi.flagsOf Validator.createCustomerSchema)) in H;
      [| discriminate | reflexivity | reflexivity].
    destruct H as (o' & Eo & Hnil & Hv).
    assert (o' = o) by congruence. subst o'. clear Eo.
    assert (Hd : data = Joi.childValues
                          (eachChild rt true now [] o
                             (Joi.childrenOf Validator.createCustomerSchema)))
      by congruence.
    clear Hv.
    pose proof (prop_childValues rt true now [] o
                  (Joi.childrenOf Validator.createCustomerSchema)
                  ("phone", childSchema Validator.createCustomerSchema "phone") Hnd
                  ltac:(cbn; tauto)) as V.
    pose proof (childErrors_nil rt true now [] o
                  (Joi.childrenOf Validator.createCustomerSchema)
                  ("phone", childSchema Validator.createCustomerSchema "phone") Hnil
                  ltac:(cbn; tauto)) as E.
    cbn [fst snd] in V, E. rewrite <- Hd in V.
    rewrite P, phone_outcome in V, E. cbn [fst snd] in V, E.
    split; [exact V |].
    destruct (phoneShape (JsString.trim raw)); [reflexivity | discriminate].
Qed.

Lemma phone_number_format_witness :
  asciiText " 12345 " = true
  /\ exists errors,
       Routes.postCustomer sampleRuntime sampleNow "c1" (JObj [("phone", JStr " 12345 ")]) []
       = (Routes.Invalid 400 "Validation error" errors, [])
       /\ In {| Validator.field := "phone";
                Validator.message :=
                  Joi.Custom "Please provide a valid phone number (10-15 digits)";
                Validator.value := Some (JStr "12345") |} errors.
Proof.
  split; [reflexivity |].
  destruct (phone_number_format sampleRuntime sampleNow "c1" [("phone", JStr " 12345 ")]
              " 12345 " [] eq_refl) as (_ & _ & H & _).
  destruct (H eq_refl eq_refl) as (errors & _ & E2 & E3).
  exists errors. split; [exact E3 | exact E2].
Defined.

(** ** Required fields, empty updates, preferences *)

(** X3. A registration whose body lacks one of the seven required
    fields is answered 400, Validation error, with an error for that
    field, and the collection is left as it was. *)
Theorem registration_requires_fields
  (rt : Joi.Runtime) (now : JsDate.Date) (id : Model.ObjectId) (o : JObject) (k : string)
  (db : Model.Collection) :
  In k requiredFields ->
  prop k o = None ->
  exists errors,
    Validator.validateRequest rt now Validator.createCustomerSchema (JObj o)
    = Validator.Reply 400 "Validation error" errors
    /\ In {| Validator.field := k;
             Validator.message := requiredMessage k;
             Validator.value := None |} errors
    /\ Routes.postCustomer rt now id (JObj o) db
       = (Routes.Invalid 400 "Validation error" errors, db).
Proof.
  intros Hk Hv.
  assert (H : exists errors,
             Validator.validateRequest rt now Validator.createCustomerSchema (JObj o)
             = Validator.Reply 400 "Validation error" errors
             /\ In {| Validator.field := k;
                      Validator.message := requiredMessage k;
                      Validator.value := None |} errors).
  { cbn in Hk.
    repeat (destruct Hk as [<- | Hk]); try contradiction;
      match goal with
      | |- exists _, _ /\ In (Validator.Build_FieldError ?key _ _) _ =>
          match eval cbv in
                (find (fun c => String.eqb key (fst c))
                   (Joi.childrenOf Validator.createCustomerSchema)) with
          | Some ?c =>
              destruct (validateRequest_child_error rt now
                          (Joi.childrenOf Validator.createCustomerSchema)
                          (Joi.flagsOf Validator.createCustomerSchema) o c
                          (Joi.report (Joi.flagsOf (snd c)) [key] "any.required" None))
                as (errors & E1 & E2);
              [ discriminate | reflexivity | reflexivity
              | cbn; tauto
              | cbn [fst snd]; rewrite Hv; cbn; left; reflexivity
              | exists errors; split; [exact E1 | exact E2] ]
          end
      end. }
  destruct H as (errors & E1 & E2).
  exists errors. split; [exact E1 |]. split; [exact E2 |].
  unfold Routes.postCustomer, Routes.guard. now rewrite E1.
Qed.

Lemma registration_requires_fields_witness :
  exists errors,
    Validator.validateRequest sampleRuntime sampleNow Validator.createCustomerSchema
      (JObj [("firstName", JStr "Ana")])
    = Validator.Reply 400 "Validation error" errors
    /\ In {| Validator.field := "dateOfBirth";
             Validator.message := requiredMessage "dateOfBirth";
             Validator.value := None |} errors
    /\ Routes.postCustomer sampleRuntime sampleNow "c1" (JObj [("firstName", JStr "Ana")])
         sampleTwoOwners
       = (Routes.Invalid 400 "Validation error" errors, sampleTwoOwners).
Proof.
  apply (registration_requires_fields sampleRuntime sampleNow "c1"
           [("firstName", JStr "Ana")] "dateOfBirth" sampleTwoOwners).
  - cbn; tauto.
  - reflexivity.
Defined.

Lemma update_object :
  Validator.updateCustomerSchema
  = Joi.Obj (Joi.childrenOf Validator.updateCustomerSchema)
      (Joi.flagsOf Validator.updateCustomerSchema).
Proof. reflexivity. Qed.

(** X4. An update body that holds none of the fields the update schema
    declares is answered 400 with the single error that at least one
    field must be provided, whenever the id parameter is valid; a
    validated update always holds at least one declared field. *)
Theorem update_needs_a_declared_field
  (rt : Joi.Runtime) (now : JsDate.Date) (o : JObject)
  (handler : option JValue -> option JValue -> Model.Collection ->
             ErrorHandler.Result * Model.Collection)
  (params : JValue) (db : Model.Collection) :
  (declaredPart Validator.updateCustomerSchema o = [] ->
   Validator.validateRequest rt now Validator.updateCustomerSchema (JObj o)
   = Validator.Reply 400 "Validation error" [emptyUpdate]
   /\ forall validatedParams,
        Validator.validateParams rt now Validator.customerIdSchema params
        = Validator.Next validatedParams ->
        Routes.putCustomer rt now handler params (JObj o) db
        = (Routes.Invalid 400 "Validation error" [emptyUpdate], db))
  /\ (forall validated,
        Validator.validateRequest rt now Validator.updateCustomerSchema (JObj o)
        = Validator.Next validated ->
        exists k v rest, validated = Some (JObj ((k, v) :: rest))
                         /\ Joi.declared (Joi.childrenOf Validator.updateCustomerSchema) k
                            = true).
Proof.
  split.
  - intros H.
    assert (E : Validator.validateRequest rt now Validator.updateCustomerSchema (JObj o)
                = Validator.Reply 400 "Validation error" [emptyUpdate]).
    { unfold Validator.validateRequest.
      rewrite update_object.
      rewrite validate_declaredPart by (discriminate || reflexivity).
      rewrite <- update_object, H. reflexivity. }
    split; [exact E |].
    intros validatedParams P. unfold Routes.putCustomer, Routes.guard.
    now rewrite P, E.
  - intros validated H.
    unfold Validator.validateRequest in H.
    rewrite update_object in H.
    rewrite validate_object in H by (discriminate || reflexivity).
    unfold objectBody in H. cbn [fst snd] in H.
    destruct (Joi.childErrors
                (eachChild rt true now [] o (Joi.childrenOf Validator.updateCustomerSchema)))
      eqn:Errs; [| discriminate].
    destruct (Joi.childValues
                (eachChild rt true now [] o (Joi.childrenOf Validator.updateCustomerSchema)))
      as [| [k v] rest] eqn:Vals.
    + cbn in H. discriminate.
    + exists k, v, rest. split.
      * destruct (Joi.runRules rt now (Joi.flagsOf Validator.updateCustomerSchema) []
                    (JObj ((k, v) :: rest))); [congruence | discriminate].
      * apply (childValues_keys rt true now [] o). rewrite Vals. cbn. now left.
Qed.

Lemma object_accepted rt su now p children f o :
  Joi.presence f <> Joi.Forbidden -> Joi.allowed f = [] -> Joi.only f = false ->
  snd (Joi.validate rt su now p (Joi.Obj children f) (Some (JObj o))) = [] ->
  Joi.childErrors (eachChild rt su now p o children) = []
  /\ exists rest,
       fst (Joi.validate rt su now p (Joi.Obj children f) (Some (JObj o)))
       = Some (JObj (Joi.childValues (eachChild rt su now p o children) ++ rest))
       /\ (su = true -> rest = []).
Proof.
  intros Hp Ha Ho H.
  rewrite validate_object in * by assumption.
  unfold objectBody in *.
  destruct su; cbn [fst snd] in *.
  - destruct (Joi.childErrors (eachChild rt true now p o children)); [| discriminate].
    split; [reflexivity |]. exists []. rewrite app_nil_r. now split.
  - destruct (Joi.childErrors (eachChild rt false now p o children)
              ++ map (fun kv => Joi.report f (p ++ [fst kv]) "object.unknown" (Some (snd kv)))
                   (unknownOf children o)) eqn:E; [| discriminate].
    apply app_eq_nil in E. destruct E as [E1 E2]. split; [exact E1 |].
    eexists. split; [reflexivity | discriminate].
Qed.

Lemma preferences_completed rt now p f given :
  Joi.presence f <> Joi.Forbidden -> Joi.allowed f = [] -> Joi.only f = false ->
  snd (Joi.validate rt true now p
         (Joi.Obj (Joi.childrenOf Validator.customerPreferencesSchema) f)
         (Some (JObj given))) = [] ->
  exists completed,
    fst (Joi.validate rt true now p
           (Joi.Obj (Joi.childrenOf Validator.customerPreferencesSchema) f)
           (Some (JObj given))) = Some (JObj completed)
    /\ completedPreferences given completed.
Proof.
  intros Hp Ha Ho H.
  destruct (object_accepted rt true now p _ f given Hp Ha Ho H) as (_ & rest & E & R).
  rewrite (R eq_refl), app_nil_r in E.
  eexists. split; [exact E |].
  assert (Hnd : NoDup (map fst (Joi.childrenOf Validator.customerPreferencesSchema))).
  { cbn. repeat (constructor; [cbn; intuition discriminate |]). constructor. }
  unfold completedPreferences.
  repeat split; intros G;
    match goal with
    | |- prop ?key _ = _ =>
        match eval cbv in
              (find (fun c => String.eqb key (fst c))
                 (Joi.childrenOf Validator.customerPreferencesSchema)) with
        | Some ?c =>
            let P := fresh "P" in
            pose proof (prop_childValues rt true now p given _ c Hnd) as P;
            cbn [fst snd] in P; rewrite P by (cbn; tauto); rewrite G; reflexivity
        end
    end.
Qed.

(** X5. When an update that passes validation carries a preferences
    object, the validated preferences hold every setting the request
    left out, at its default: language es, currency COP, empty
    notification preferences, no marketing consent. *)
Theorem update_completes_preferences
  (rt : Joi.Runtime) (now : JsDate.Date) (o validated given : JObject) :
  Validator.validateRequest rt now Validator.updateCustomerSchema (JObj o)
  = Validator.Next (Some (JObj validated)) ->
  prop "preferences" o = Some (JObj given) ->
  exists completed,
    prop "preferences" validated = Some (JObj completed)
    /\ completedPreferences given completed.
Proof.
  intros H G.
  rewrite update_object in H.
  apply validateRequest_next in H; [| discriminate | reflexivity | reflexivity].
  destruct H as (o' & Eo & Hnil & Hv).
  assert (o' = o) by congruence. subst o'. clear Eo.
  assert (Hd : validated
               = Joi.childValues
                   (eachChild rt true now [] o
                      (Joi.childrenOf Validator.updateCustomerSchema)))
    by congruence.
  clear Hv. subst validated.
  assert (Hnd : NoDup (map fst (Joi.childrenOf Validator.updateCustomerSchema))).
  { cbn. repeat (constructor; [cbn; intuition discriminate |]). constructor. }
  assert (Hin : In ("preferences", childSchema Validator.updateCustomerSchema "preferences")
                  (Joi.childrenOf Validator.updateCustomerSchema)) by (cbn; tauto).
  pose proof (prop_childValues rt true now [] o _ _ Hnd Hin) as P.
  pose proof (childErrors_nil rt true now [] o _ _ Hnil Hin) as Pe.
  cbn [fst snd] in P, Pe. rewrite G in P, Pe.
  destruct (preferences_completed rt now ([] ++ ["preferences"])
              (Joi.flagsOf (childSchema Validator.updateCustomerSchema "preferences"))
              given) as (completed & E & C);
    [discriminate | reflexivity | reflexivity | exact Pe |].
  exists completed. split; [| exact C].
  rewrite P. exact E.
Qed.

Lemma update_completes_preferences_witness :
  exists completed,
    prop "preferences"
      (validatedBody Validator.updateCustomerSchema
         (JObj [("preferences", JObj [("language", JStr "en")])]))
    = Some (JObj completed)
    /\ completedPreferences [("language", JStr "en")] completed.
Proof.
  apply (update_completes_preferences sampleRuntime sampleNow
           [("preferences", JObj [("language", JStr "en")])]).
  - reflexivity.
  - reflexivity.
Defined.

(** ** The validators of the model on a validated registration *)

Lemma coerced_trim_idem l raw :
  JsString.trim (coerced true l raw) = coerced true l raw.
Proof. unfold coerced. apply trim_idem. Qed.

(** A trimmed text between two lengths. *)
Lemma bounded_text rt su now p f a b item :
  Joi.allowed f = [] -> Joi.only f = false -> Joi.presence f <> Joi.Forbidden ->
  Joi.rules f = [Joi.RMin a; Joi.RMax b] ->
  snd (Joi.validate rt su now p (Joi.Str true false f) item) = [] ->
  (item = None /\ Joi.presence f <> Joi.Required
   /\ fst (Joi.validate rt su now p (Joi.Str true false f) item) = Joi.applyDefault now f)
  \/ (exists x,
        fst (Joi.validate rt su now p (Joi.Str true false f) item) = Some (JStr x)
        /\ JsString.trim x = x /\ Model.nonEmpty x = true
        /\ Model.lengthBetween a b x = true).
Proof.
  intros Ha Ho Hp Hr H.
  destruct (str_accepted rt su now p true false f item Ha Ho Hp H)
    as [L | (raw & -> & N & F & R)]; [left; exact L | right].
  exists (coerced true false raw). split; [exact F |].
  split; [apply coerced_trim_idem |].
  split.
  - unfold Model.nonEmpty. destruct (String.eqb_spec (coerced true false raw) "");
      [contradiction | reflexivity].
  - apply runRules_nil in R. rewrite Hr in R.
    inversion R as [| ? ? R1 R']; subst. inversion R' as [| ? ? R2 _]; subst.
    cbn -[Z.ltb JsString.len coerced] in R1, R2. unfold Model.lengthBetween.
    destruct (JsString.len (coerced true false raw) <? a) eqn:E1; [discriminate |].
    destruct (b <? JsString.len (coerced true false raw)) eqn:E2; [discriminate |].
    boolZ. apply andb_true_iff. split; apply Z.leb_le; lia.
Qed.

Lemma getString_prop k o x : prop k o = Some (JStr x) -> Model.getString k o = Some x.
Proof. unfold Model.getString. now intros ->. Qed.

Lemma dob_accepted rt su now p item :
  snd (Joi.validate rt su now p Validator.dateOfBirthSchema item) = [] ->
  exists d,
    fst (Joi.validate rt su now p Validator.dateOfBirthSchema item) = Some (JDate d)
    /\ 18 <= Validator.age now d <= 120.
Proof.
  destruct item as [v |]; [| cbn; discriminate].
  assert (G : forall d,
             snd (Joi.validate rt su now p Validator.dateOfBirthSchema (Some (JDate d))) = [] ->
             fst (Joi.validate rt su now p Validator.dateOfBirthSchema (Some (JDate d)))
             = Some (JDate d)
             /\ 18 <= Validator.age now d <= 120).
  { intros d. cbn. unfold Validator.dateOfBirthCustom.
    destruct (JsDate.ltb now d); cbn; [discriminate |].
    destruct (Validator.age now d <? 18) eqn:E1; cbn; [discriminate |].
    destruct (120 <? Validator.age now d) eqn:E2; cbn; [discriminate |].
    intros _. boolZ. split; [reflexivity | lia]. }
  destruct v as [| b | n | raw | d | a | o]; try (cbn; discriminate).
  - destruct (Joi.parseDate rt raw) as [d |] eqn:E.
    + assert (C : Joi.validate rt su now p Validator.dateOfBirthSchema (Some (JStr raw))
                  = Joi.validate rt su now p Validator.dateOfBirthSchema (Some (JDate d)))
        by (cbn; rewrite E; reflexivity).
      rewrite C. intros H. exists d. now apply G.
    + cbn. rewrite E. cbn. discriminate.
  - intros H. exists d. now apply G.
Qed.

Lemma dateOfBirthValidator_after_age (today value : JsDate.Date) :
  18 <= Validator.age today value <= 120 ->
  Model.dateOfBirthValidator today value
  = negb (JsDate.getFullYear today - JsDate.getFullYear value =? 121).
Proof.
  intros H. unfold Model.dateOfBirthValidator. cbv zeta.
  destruct (age_cases today value) as [[E _] | [E _]]; rewrite E in H;
    destruct (JsDate.getFullYear today - JsDate.getFullYear value =? 121) eqn:Y;
    destruct (18 <=? JsDate.getFullYear today - JsDate.getFullYear value) eqn:Y1;
    destruct (JsDate.getFullYear today - JsDate.getFullYear value <=? 120) eqn:Y2;
    boolZ; cbn; try reflexivity; lia.
Qed.

Ltac nodup_keys :=
  cbn; repeat (constructor; [cbn; intuition discriminate |]); constructor.

Lemma address_accepted rt now p item :
  snd (Joi.validate rt true now p (childSchema Validator.createCustomerSchema "address") item)
  = [] ->
  exists adata,
    fst (Joi.validate rt true now p (childSchema Validator.createCustomerSchema "address") item)
    = Some (JObj adata)
    /\ Model.nonEmpty (Model.street (Model.castAddress adata)) = true
    /\ Model.nonEmpty (Model.city (Model.castAddress adata)) = true
    /\ Model.nonEmpty (Model.state (Model.castAddress adata)) = true
    /\ Model.nonEmpty (Model.postalCode (Model.castAddress adata)) = true
    /\ Model.nonEmpty (Model.country (Model.castAddress adata)) = true.
Proof.
  intros H.
  set (children := Joi.childrenOf Validator.addressSchema).
  set (f := Joi.flagsOf (childSchema Validator.createCustomerSchema "address")).
  change (childSchema Validator.createCustomerSchema "address")
    with (Joi.Obj children f) in H |- *.
  destruct (object_required rt true now p children f item eq_refl eq_refl eq_refl H)
    as (a & ->).
  destruct (object_accepted rt true now p children f a ltac:(discriminate) eq_refl eq_refl H)
    as (Hnil & rest & F & R).
  rewrite (R eq_refl), app_nil_r in F. clear R rest.
  exists (Joi.childValues (eachChild rt true now p a children)).
  split; [exact F |].
  assert (Hnd : NoDup (map fst children)) by nodup_keys.
  unfold Model.castAddress.
  cbn [Model.street Model.city Model.state Model.postalCode Model.country].
  repeat split;
    match goal with
    | |- Model.nonEmpty (JsString.trim (Model.orElse (Model.getString ?key _) _)) = true =>
        let P := fresh "P" in
        let E := fresh "E" in
        match eval cbv in (find (fun c => String.eqb key (fst c)) children) with
        | Some ?c =>
            pose proof (prop_childValues rt true now p a children
                          (key, childSchema Validator.addressSchema key) Hnd
                          ltac:(cbn; tauto)) as P;
            pose proof (childErrors_nil rt true now p a children
                          (key, childSchema Validator.addressSchema key) Hnil
                          ltac:(cbn; tauto)) as E;
            cbn [fst snd] in P, E;
            match eval cbv in (Joi.rules (Joi.flagsOf (childSchema Validator.addressSchema key)))
            with
            | [Joi.RMin ?lo; Joi.RMax ?hi] =>
                destruct (bounded_text rt true now (p ++ [key])
                            (Joi.flagsOf (childSchema Validator.addressSchema key))
                            lo hi (prop key a) eq_refl eq_refl ltac:(discriminate) eq_refl E)
                  as [(_ & Q & D) | (x & Fx & Tx & Nx & _)];
                [ try (exfalso; apply Q; reflexivity);
                  rewrite (getString_prop _ _ _ (eq_trans P D)); reflexivity
                | rewrite (getString_prop _ _ _ (eq_trans P Fx));
                  cbn [Model.orElse]; rewrite Tx; exact Nx ]
            end
        end
    end.
Qed.

Lemma oneOf_In (values : list string) (t : string) :
  In t values -> Model.oneOf values t = true.
Proof.
  unfold Model.oneOf. induction values as [| v vs IH]; cbn; [tauto |].
  intros [-> | I]; [now rewrite String.eqb_refl | rewrite (IH I); apply orb_true_r].
Qed.

Lemma document_accepted rt now today p item :
  snd (Joi.validate rt true now p Validator.kycDocumentSchema (Some item)) = [] ->
  exists ddata,
    fst (Joi.validate rt true now p Validator.kycDocumentSchema (Some item))
    = Some (JObj ddata)
    /\ Model.documentValid (Model.castDocument today (JObj ddata)) = true.
Proof.
  intros H.
  set (children := Joi.childrenOf Validator.kycDocumentSchema).
  change Validator.kycDocumentSchema with (Joi.Obj children Joi.flags0) in H |- *.
  destruct (object_optional rt true now p children Joi.flags0 (Some item)
              eq_refl eq_refl eq_refl H) as [[N _] | (d & [= ->])]; [discriminate |].
  destruct (object_accepted rt true now p children Joi.flags0 d
              ltac:(discriminate) eq_refl eq_refl H) as (Hnil & rest & F & R).
  rewrite (R eq_refl), app_nil_r in F. clear R rest.
  exists (Joi.childValues (eachChild rt true now p d children)).
  split; [exact F |].
  assert (Hnd : NoDup (map fst children)) by nodup_keys.
  unfold Model.documentValid, Model.castDocument.
  cbn [Model.docType Model.filename].
  apply andb_true_iff. split.
  - pose proof (prop_childValues rt true now p d children
                  ("type", childSchema Validator.kycDocumentSchema "type") Hnd
                  ltac:(cbn; tauto)) as P.
    pose proof (childErrors_nil rt true now p d children
                  ("type", childSchema Validator.kycDocumentSchema "type") Hnil
                  ltac:(cbn; tauto)) as E.
    cbn [fst snd] in P, E.
    destruct (valid_accepted rt true now (p ++ ["type"])
                (Joi.flagsOf (childSchema Validator.kycDocumentSchema "type"))
                Validator.documentTypes (prop "type" d) eq_refl eq_refl
                ltac:(discriminate) E)
      as [(_ & Q & _) | (t & _ & I & Ft)]; [exfalso; apply Q; reflexivity |].
    rewrite (getString_prop _ _ _ (eq_trans P Ft)). cbn [Model.orElse].
    now apply oneOf_In.
  - pose proof (prop_childValues rt true now p d children
                  ("filename", childSchema Validator.kycDocumentSchema "filename") Hnd
                  ltac:(cbn; tauto)) as P.
    pose proof (childErrors_nil rt true now p d children
                  ("filename", childSchema Validator.kycDocumentSchema "filename") Hnil
                  ltac:(cbn; tauto)) as E.
    cbn [fst snd] in P, E.
    destruct (bounded_text rt true now (p ++ ["filename"])
                (Joi.flagsOf (childSchema Validator.kycDocumentSchema "filename"))
                1 255 (prop "filename" d) eq_refl eq_refl ltac:(discriminate) eq_refl E)
      as [(_ & Q & _) | (x & Fx & _ & Nx & _)]; [exfalso; apply Q; reflexivity |].
    rewrite (getString_prop _ _ _ (eq_trans P Fx)). exact Nx.
Qed.

Lemma documents_valid rt now today p l i :
  Joi.childErrors (eachItem rt now p Validator.kycDocumentSchema i l) = [] ->
  forallb Model.documentValid
    (map (Model.castDocument today)
       (flat_map (fun r : nat * Joi.Outcome => match fst (snd r) with
                                               | Some x => [x]
                                               | None => []
                                               end)
          (eachItem rt now p Validator.kycDocumentSchema i l))) = true.
Proof.
  revert i; induction l as [| x l IH]; intros i H; [reflexivity |].
  cbn [eachItem] in H |- *.
  unfold Joi.childErrors in H. cbn [flat_map snd] in H.
  apply app_eq_nil in H. destruct H as [H1 H2].
  destruct (document_accepted rt now today _ x H1) as (ddata & F & V).
  cbn [flat_map fst snd]. rewrite F. cbn [app map forallb].
  rewrite V. apply (IH (S i)). exact H2.
Qed.

Lemma preferences_accepted rt now p item :
  snd (Joi.validate rt true now p
         (childSchema Validator.createCustomerSchema "preferences") item) = [] ->
  exists pdata,
    fst (Joi.validate rt true now p
           (childSchema Validator.createCustomerSchema "preferences") item)
    = Some (JObj pdata)
    /\ Model.oneOf ["es"; "en"] (Model.language (Model.castPreferences pdata)) = true
    /\ Model.oneOf ["COP"; "USD"; "EUR"] (Model.currency (Model.castPreferences pdata)) = true.
Proof.
  intros H.
  set (children := Joi.childrenOf Validator.customerPreferencesSchema).
  set (f := Joi.flagsOf (childSchema Validator.createCustomerSchema "preferences")).
  change (childSchema Validator.createCustomerSchema "preferences")
    with (Joi.Obj children f) in H |- *.
  destruct (object_optional rt true now p children f item eq_refl eq_refl eq_refl H)
    as [[-> D] | (pr & ->)].
  - exists []. split; [exact D |]. split; reflexivity.
  - destruct (object_accepted rt true now p children f pr ltac:(discriminate) eq_refl eq_refl H)
      as (Hnil & rest & F & R).
    rewrite (R eq_refl), app_nil_r in F. clear R rest.
    exists (Joi.childValues (eachChild rt true now p pr children)).
    split; [exact F |].
    assert (Hnd : NoDup (map fst children)) by nodup_keys.
    unfold Model.castPreferences. cbn [Model.language Model.currency].
    split.
    + pose proof (prop_childValues rt true now p pr children
                    ("language", childSchema Validator.customerPreferencesSchema "language")
                    Hnd ltac:(cbn; tauto)) as P.
      pose proof (childErrors_nil rt true now p pr children
                    ("language", childSchema Validator.customerPreferencesSchema "language")
                    Hnil ltac:(cbn; tauto)) as E.
      cbn [fst snd] in P, E.
      destruct (valid_accepted rt true now (p ++ ["language"])
                  (Joi.flagsOf (childSchema Validator.customerPreferencesSchema "language"))
                  ["es"; "en"] (prop "language" pr) eq_refl eq_refl ltac:(discriminate) E)
        as [(_ & _ & D) | (t & _ & I & Ft)].
      * rewrite (getString_prop _ _ _ (eq_trans P D)). reflexivity.
      * rewrite (getString_prop _ _ _ (eq_trans P Ft)). now apply oneOf_In.
    + pose proof (prop_childValues rt true now p pr children
                    ("currency", childSchema Validator.customerPreferencesSchema "currency")
                    Hnd ltac:(cbn; tauto)) as P.
      pose proof (childErrors_nil rt true now p pr children
                    ("currency", childSchema Validator.customerPreferencesSchema "currency")
                    Hnil ltac:(cbn; tauto)) as E.
      cbn [fst snd] in P, E.
      destruct (valid_accepted rt true now (p ++ ["currency"])
                  (Joi.flagsOf (childSchema Validator.customerPreferencesSchema "currency"))
                  ["COP"; "USD"; "EUR"] (prop "currency" pr) eq_refl eq_refl
                  ltac:(discriminate) E)
        as [(_ & _ & D) | (t & _ & I & Ft)].
      * rewrite (getString_prop _ _ _ (eq_trans P D)). reflexivity.
      * rewrite (getString_prop _ _ _ (eq_trans P Ft)). now apply oneOf_In.
Qed.

Ltac createField rt now o data Hd Hnd Hnil key P E :=
  pose proof (prop_childValues rt true now [] o
                (Joi.childrenOf Validator.createCustomerSchema)
                (key, childSchema Validator.createCustomerSchema key) Hnd
                ltac:(cbn; tauto)) as P;
  pose proof (childErrors_nil rt true now [] o
                (Joi.childrenOf Validator.createCustomerSchema)
                (key, childSchema Validator.createCustomerSchema key) Hnil
                ltac:(cbn; tauto)) as E;
  cbn [fst snd] in P, E; rewrite <- Hd in P.

(** What the validators of the model make of a registration the create
    schema let pass. *)
Lemma invalidPaths_of_validated_registration
  (rt : Joi.Runtime) (now : JsDate.Date) (id : Model.ObjectId)
  (body : JValue) (data : JObject) :
  Validator.validateRequest rt now Validator.createCustomerSchema body
  = Validator.Next (Some (JObj data)) ->
  exists em dob,
    prop "email" data = Some (JStr em)
    /\ prop "dateOfBirth" data = Some (JDate dob)
    /\ Model.invalidPaths now (Model.newCustomer id now data) = secondGate now em dob.
Proof.
  intros H.
  destruct create_children as (_ & _ & Hnd).
  apply (validateRequest_next rt now (Joi.childrenOf Validator.createCustomerSchema)
           (Joi.flagsOf Validator.createCustomerSchema)) in H;
    [| discriminate | reflexivity | reflexivity].
  destruct H as (o & -> & Hnil & Hv).
  assert (Hd : data = Joi.childValues
                        (eachChild rt true now [] o
                           (Joi.childrenOf Validator.createCustomerSchema)))
    by congruence.
  clear Hv.
  (* the texts with a minimum and a maximum length *)
  createField rt now o data Hd Hnd Hnil "firstName" P1 E1.
  destruct (bounded_text rt true now _ (Joi.flagsOf (childSchema Validator.createCustomerSchema "firstName")) 2 50 _
              eq_refl eq_refl ltac:(discriminate) eq_refl E1)
    as [(_ & Q & _) | (x1 & F1 & T1 & N1 & L1)]; [exfalso; apply Q; reflexivity |].
  pose proof (getString_prop _ _ _ (eq_trans P1 F1)) as G1.
  createField rt now o data Hd Hnd Hnil "lastName" P2 E2.
  destruct (bounded_text rt true now _ (Joi.flagsOf (childSchema Validator.createCustomerSchema "lastName")) 2 50 _
              eq_refl eq_refl ltac:(discriminate) eq_refl E2)
    as [(_ & Q & _) | (x2 & F2 & T2 & N2 & L2)]; [exfalso; apply Q; reflexivity |].
  pose proof (getString_prop _ _ _ (eq_trans P2 F2)) as G2.
  createField rt now o data Hd Hnd Hnil "nationalId" P3 E3.
  destruct (bounded_text rt true now _ (Joi.flagsOf (childSchema Validator.createCustomerSchema "nationalId")) 8 20 _
              eq_refl eq_refl ltac:(discriminate) eq_refl E3)
    as [(_ & Q & _) | (x3 & F3 & T3 & N3 & L3)]; [exfalso; apply Q; reflexivity |].
  pose proof (getString_prop _ _ _ (eq_trans P3 F3)) as G3.
  (* the passport number *)
  createField rt now o data Hd Hnd Hnil "passportNumber" P4 E4.
  assert (G4 : match option_map JsString.trim (Model.getString "passportNumber" data) with
               | Some p => Model.lengthBetween 6 15 p
               | None => true
               end = true).
  { destruct (bounded_text rt true now _ (Joi.flagsOf (childSchema Validator.createCustomerSchema "passportNumber")) 6 15 _
                eq_refl eq_refl ltac:(discriminate) eq_refl E4)
      as [(_ & _ & D) | (x4 & F4 & T4 & _ & L4)].
    - unfold Model.getString. rewrite (eq_trans P4 D). reflexivity.
    - rewrite (getString_prop _ _ _ (eq_trans P4 F4)). cbn [option_map]. now rewrite T4. }
  (* the email *)
  createField rt now o data Hd Hnd Hnil "email" P5 E5.
  destruct (str_accepted rt true now _ true true (Joi.flagsOf (childSchema Validator.createCustomerSchema "email")) _
              eq_refl eq_refl ltac:(discriminate) E5)
    as [(_ & Q & _) | (raw5 & _ & N5 & F5 & _)]; [exfalso; apply Q; reflexivity |].
  pose proof (eq_trans P5 F5) as V5.
  pose proof (getString_prop _ _ _ V5) as G5.
  (* the phone *)
  createField rt now o data Hd Hnd Hnil "phone" P6 E6.
  destruct (str_accepted rt true now _ true false (Joi.flagsOf (childSchema Validator.createCustomerSchema "phone")) _
              eq_refl eq_refl ltac:(discriminate) E6)
    as [(_ & Q & _) | (raw6 & _ & N6 & F6 & R6)]; [exfalso; apply Q; reflexivity |].
  pose proof (getString_prop _ _ _ (eq_trans P6 F6)) as G6.
  apply runRules_nil in R6.
  pose proof (Forall_inv (R6 : Forall _ [Joi.RPattern Validator.phonePattern])) as R6'.
  clear R6.
  cbn -[Regex.test Validator.phonePattern coerced] in R6'.
  destruct (Regex.test Validator.phonePattern (coerced true false raw6)) eqn:T6;
    [| discriminate]. clear R6'.
  (* the date of birth *)
  createField rt now o data Hd Hnd Hnil "dateOfBirth" P7 E7.
  destruct (dob_accepted rt true now _ _ E7) as (dob & F7 & A7).
  pose proof (eq_trans P7 F7) as V7.
  (* the address *)
  createField rt now o data Hd Hnd Hnil "address" P8 E8.
  destruct (address_accepted rt now _ _ E8) as (adata & F8 & A1 & A2 & A3 & A4 & A5).
  pose proof (eq_trans P8 F8) as V8.
  (* the documents *)
  createField rt now o data Hd Hnd Hnil "documents" P9 E9.
  assert (G9 : forallb Model.documentValid
                 (map (Model.castDocument now)
                    match prop "documents" data with
                    | Some (JArr l) => l
                    | _ => []
                    end) = true).
  { destruct (array_optional rt now _ Validator.kycDocumentSchema
                (Joi.flagsOf (childSchema Validator.createCustomerSchema "documents"))
                _ eq_refl eq_refl eq_refl E9)
      as [(_ & D) | (l & _ & Hl & Fl)].
    - rewrite (eq_trans P9 D). reflexivity.
    - rewrite (eq_trans P9 Fl). now apply documents_valid. }
  (* the preferences *)
  createField rt now o data Hd Hnd Hnil "preferences" P10 E10.
  destruct (preferences_accepted rt now _ _ E10) as (pdata & F10 & B1 & B2).
  pose proof (eq_trans P10 F10) as V10.
  exists (coerced true true raw5), dob.
  split; [exact V5 |]. split; [exact V7 |].
  unfold Model.invalidPaths, Model.newCustomer, secondGate.
  cbn [Model.firstName Model.lastName Model.email Model.phone Model.dateOfBirth
       Model.nationalId Model.passportNumber Model.address Model.documents
       Model.preferences Model.status Model.complianceStatus].
  unfold Model.getObject, Model.getDateField.
  rewrite G1, G2, G3, G4, G5, G6, G9, V7, V8, V10.
  cbn [Model.orElse].
  rewrite T1, T2, T3, N1, N2, N3, L1, L2, L3, A1, A2, A3, A4, A5, B1, B2.
  assert (M5 : JsString.trim (JsString.toLowerCase (coerced true true raw5))
               = coerced true true raw5) by apply email_normal.
  rewrite M5.
  assert (M6 : JsString.trim (coerced true false raw6) = coerced true false raw6)
    by apply coerced_trim_idem.
  rewrite M6.
  assert (K5 : Model.nonEmpty (coerced true true raw5) = true).
  { unfold Model.nonEmpty.
    destruct (String.eqb_spec (coerced true true raw5) ""); [contradiction | reflexivity]. }
  assert (K6 : Model.nonEmpty (coerced true false raw6) = true).
  { unfold Model.nonEmpty.
    destruct (String.eqb_spec (coerced true false raw6) ""); [contradiction | reflexivity]. }
  rewrite K5, K6.
  change Model.phoneMatch with Validator.phonePattern. rewrite T6.
  rewrite (dateOfBirthValidator_after_age now dob A7).
  destruct (Regex.test Model.emailMatch (coerced true true raw5));
    destruct (JsDate.getFullYear now - JsDate.getFullYear dob =? 121); reflexivity.
Qed.

(** X6. For a registration that passed the create schema, the
    validators the model runs on save can fail on two paths only:
    email, exactly when the validated email has not the shape of the
    model's own pattern; dateOfBirth, exactly when the birth year lies
    121 years before the current year. *)
Theorem validated_registration_second_gate
  (rt : Joi.Runtime) (now : JsDate.Date) (id : Model.ObjectId)
  (body : JValue) (data : JObject) :
  Validator.validateRequest rt now Validator.createCustomerSchema body
  = Validator.Next (Some (JObj data)) ->
  exists em dob,
    prop "email" data = Some (JStr em)
    /\ prop "dateOfBirth" data = Some (JDate dob)
    /\ Model.invalidPaths now (Model.newCustomer id now data) = secondGate now em dob.
Proof.
  exact (invalidPaths_of_validated_registration rt now id body data).
Qed.

Lemma validated_registration_second_gate_witness :
  exists em dob,
    prop "email"
      (validatedBody Validator.createCustomerSchema
         (sampleRegistration "ANA@X.COM" "12345678" "1905-12-01"))
    = Some (JStr em)
    /\ prop "dateOfBirth"
         (validatedBody Validator.createCustomerSchema
            (sampleRegistration "ANA@X.COM" "12345678" "1905-12-01"))
       = Some (JDate dob)
    /\ Model.invalidPaths sampleNow
         (Model.newCustomer "c1" sampleNow
            (validatedBody Validator.createCustomerSchema
               (sampleRegistration "ANA@X.COM" "12345678" "1905-12-01")))
       = secondGate sampleNow em dob.
Proof.
  apply (validated_registration_second_gate sampleRuntime sampleNow "c1"
           (sampleRegistration "ANA@X.COM" "12345678" "1905-12-01")).
  vm_compute. reflexivity.
Defined.

(** ** Registrations and lookups *)

Lemma find_app_none {A : Type} (p : A -> bool) (l l' : list A) :
  find p l = None -> find p (l ++ l') = find p l'.
Proof.
  induction l as [| x l IH]; cbn; [reflexivity |].
  destruct (p x); [discriminate | exact IH].
Qed.

Lemma existsb_find_none {A : Type} (p : A -> bool) (l : list A) :
  existsb p l = false -> find p l = None.
Proof.
  induction l as [| x l IH]; cbn; [reflexivity |].
  destruct (p x); [discriminate | exact IH].
Qed.

(** What a registration that was answered with a success did. *)
Lemma postCustomer_sent rt now id body db r db' :
  Routes.postCustomer rt now id body db = (Routes.Handled (ErrorHandler.Sent r), db') ->
  exists data em nid,
    Validator.validateRequest rt now Validator.createCustomerSchema body
    = Validator.Next (Some (JObj data))
    /\ prop "email" data = Some (JStr em)
    /\ prop "nationalId" data = Some (JStr nid)
    /\ firstMatch em nid db = None
    /\ Model.invalidPaths now (Model.newCustomer id now data) = []
    /\ Model.email (Model.newCustomer id now data) = em
    /\ Model.nationalId (Model.newCustomer id now data) = nid
    /\ r = ErrorHandler.sendSuccess now
             (ErrorHandler.OneCustomer (Model.newCustomer id now data))
             "Customer created successfully" 201
    /\ db' = db ++ [Model.newCustomer id now data].
Proof.
  intros H. unfold Routes.postCustomer, Routes.guard in H.
  destruct (Validator.validateRequest rt now Validator.createCustomerSchema body)
    as [? ? ? | validated] eqn:V; [discriminate |].
  destruct validated as [[| | | | | | data] |]; try discriminate.
  destruct (validated_registration rt now body data V) as (rawEmail & rawId & He & Hn).
  destruct (newCustomer_identity id now data _ _ He Hn) as [Ie In'].
  rewrite email_normal in Ie. rewrite trim_idem in In'.
  exists data, (JsString.trim (JsString.toLowerCase rawEmail)), (JsString.trim rawId).
  split; [reflexivity |]. split; [exact He |]. split; [exact Hn |].
  unfold Routes.handled in H.
  destruct (firstMatch (JsString.trim (JsString.toLowerCase rawEmail))
              (JsString.trim rawId) db) as [e |] eqn:F.
  - rewrite (createCustomer_conflict id now data db _ _ e He Hn F) in H. discriminate.
  - split; [reflexivity |].
    destruct (Model.invalidPaths now (Model.newCustomer id now data)) as [| bad l] eqn:I.
    + rewrite (createCustomer_persists id now data db _ _ He Hn F I Ie In') in H.
      cbn [fst snd] in H. injection H as <- <-. repeat split; assumption.
    + rewrite (createCustomer_rejected id now data db _ _ He Hn F) in H
        by (rewrite I; discriminate).
      discriminate.
Qed.

Lemma email_accepted_of rt su now p item :
  snd (Joi.validate rt su now p Validator.emailSchema item) = [] ->
  exists raw,
    item = Some (JStr raw)
    /\ fst (Joi.validate rt su now p Validator.emailSchema item)
       = Some (JStr (JsString.trim (JsString.toLowerCase raw))).
Proof.
  destruct item as [v |]; [| cbn; discriminate].
  destruct v; try (cbn; discriminate).
  intros H. exists s. split; [reflexivity |]. revert H.
  cbn -[JsString.trim JsString.toLowerCase].
  destruct (JsString.trim (JsString.toLowerCase s)); cbn; [discriminate |].
  intros _. reflexivity.
Qed.

Lemma nationalId_accepted_of rt su now p item :
  snd (Joi.validate rt su now p Validator.nationalIdSchema item) = [] ->
  exists raw,
    item = Some (JStr raw)
    /\ fst (Joi.validate rt su now p Validator.nationalIdSchema item)
       = Some (JStr (JsString.trim raw)).
Proof.
  destruct item as [v |]; [| cbn; discriminate].
  destruct v; try (cbn; discriminate).
  intros H. exists s. split; [reflexivity |]. revert H.
  cbn -[JsString.trim JsString.len Z.ltb].
  destruct (JsString.trim s); cbn -[JsString.len Z.ltb]; [discriminate |].
  intros _. reflexivity.
Qed.

(** The email and the national identifier of a validated registration
    are those of the body, normalised: the clock has no part in them. *)
Lemma validated_registration_keys rt now body validated :
  Validator.validateRequest rt now Validator.createCustomerSchema body
  = Validator.Next validated ->
  exists o data rawEmail rawId,
    body = JObj o /\ validated = Some (JObj data)
    /\ prop "email" o = Some (JStr rawEmail)
    /\ prop "nationalId" o = Some (JStr rawId)
    /\ prop "email" data = Some (JStr (JsString.trim (JsString.toLowerCase rawEmail)))
    /\ prop "nationalId" data = Some (JStr (JsString.trim rawId)).
Proof.
  intros H.
  destruct create_children as (He & Hn & Hnd).
  apply (validateRequest_next rt now (Joi.childrenOf Validator.createCustomerSchema)
           (Joi.flagsOf Validator.createCustomerSchema)) in H;
    [| discriminate | reflexivity | reflexivity].
  destruct H as (o & -> & Hnil & ->).
  pose proof (prop_childValues rt true now [] o _ ("email", Validator.emailSchema) Hnd He) as P.
  pose proof (prop_childValues rt true now [] o _ ("nationalId", Validator.nationalIdSchema) Hnd Hn)
    as L.
  pose proof (childErrors_nil rt true now [] o _ ("email", Validator.emailSchema) Hnil He) as Pe.
  pose proof (childErrors_nil rt true now [] o _ ("nationalId", Validator.nationalIdSchema) Hnil Hn)
    as Le.
  cbn [fst snd] in P, L, Pe, Le.
  destruct (email_accepted_of rt true now _ _ Pe) as (rawEmail & Ie & Ee).
  destruct (nationalId_accepted_of rt true now _ _ Le) as (rawId & In' & En).
  exists o, (Joi.childValues
               (eachChild rt true now [] o (Joi.childrenOf Validator.createCustomerSchema))),
    rawEmail, rawId.
  split; [reflexivity |]. split; [reflexivity |].
  split; [exact Ie |]. split; [exact In' |].
  now rewrite P, L, Ee, En.
Qed.

(** X9. After a registration that was answered with a success for an
    id not yet in the collection, the answer is 201 with the stored
    customer, the collection has grown by this customer at its end,
    and the lookups by id and by national identifier both return
    it. *)
Theorem created_customer_can_be_fetched
  (rt : Joi.Runtime) (now later : JsDate.Date) (id : Model.ObjectId) (body : JValue)
  (db db' : Model.Collection) (r : ErrorHandler.Response) :
  Model.findById id db = None ->
  Routes.postCustomer rt now id body db = (Routes.Handled (ErrorHandler.Sent r), db') ->
  exists customer,
    ErrorHandler.data r = ErrorHandler.OneCustomer customer
    /\ ErrorHandler.statusCode r = 201
    /\ Model._id customer = id
    /\ db' = db ++ [customer]
    /\ CustomerController.getCustomerById id later db' = retrieved later customer
    /\ CustomerController.getCustomerByNationalId (Some (Model.nationalId customer)) later db'
       = retrieved later customer.
Proof.
  intros Fresh H.
  destruct (postCustomer_sent rt now id body db r db' H)
    as (data & em & nid & V & He & Hn & F & I & Ie & In' & -> & ->).
  exists (Model.newCustomer id now data).
  split; [reflexivity |]. split; [reflexivity |]. split; [reflexivity |].
  split; [reflexivity |]. split.
  - unfold CustomerController.getCustomerById, Model.findById, Model.findOne, retrieved.
    rewrite find_app_none by exact Fresh.
    cbn [find Model._id Model.newCustomer]. now rewrite String.eqb_refl.
  - unfold CustomerController.getCustomerByNationalId, retrieved.
    pose proof (invalidPaths_nationalId now _ I) as N. unfold Model.nonEmpty in N.
    rewrite In' in *.
    assert (T : JsString.trim nid = nid).
    { destruct (validated_registration_keys rt now body _ V)
        as (o & data1 & rawEmail & rawId & _ & [= <-] & _ & _ & _ & Dn).
      assert (nid = JsString.trim rawId) as -> by congruence.
      apply trim_idem. }
    destruct nid as [| c nid]; [discriminate |].
    rewrite T.
    unfold Model.findOne. rewrite find_app_none.
    + cbn [find]. rewrite In'. now rewrite String.eqb_refl.
    + apply find_nothing. intros x Hx.
      pose proof (find_none _ _ F x Hx) as Q. cbn beta in Q.
      now apply orb_false_iff in Q.
Qed.

Lemma created_customer_can_be_fetched_witness :
  exists customer,
    ErrorHandler.data
      (ErrorHandler.sendSuccess sampleNow
         (ErrorHandler.OneCustomer (sampleCustomer "c1" "ana@x.com" "12345678" sampleNow))
         "Customer created successfully" 201)
    = ErrorHandler.OneCustomer customer
    /\ ErrorHandler.statusCode
         (ErrorHandler.sendSuccess sampleNow
            (ErrorHandler.OneCustomer (sampleCustomer "c1" "ana@x.com" "12345678" sampleNow))
            "Customer created successfully" 201) = 201
    /\ Model._id customer = "c1"
    /\ [sampleCustomer "c1" "ana@x.com" "12345678" sampleNow] = [] ++ [customer]
    /\ CustomerController.getCustomerById "c1" (JsDate.nextDay sampleNow)
         [sampleCustomer "c1" "ana@x.com" "12345678" sampleNow]
       = retrieved (JsDate.nextDay sampleNow) customer
    /\ CustomerController.getCustomerByNationalId (Some (Model.nationalId customer))
         (JsDate.nextDay sampleNow) [sampleCustomer "c1" "ana@x.com" "12345678" sampleNow]
       = retrieved (JsDate.nextDay sampleNow) customer.
Proof.
  apply (created_customer_can_be_fetched sampleRuntime sampleNow (JsDate.nextDay sampleNow)
           "c1" (sampleRegistration "ANA@X.COM" "12345678" "1990-01-01") []).
  - reflexivity.
  - vm_compute. reflexivity.
Defined.

(** X10. The body of a registration that was answered with a success,
    sent again to the collection as this registration left it, is not
    registered a second time, at whatever time it arrives: if it
    passes the create schema at that time, it is refused with 409,
    Email address is already registered; if it does not (the date of
    birth may have left the accepted range by then), it is answered
    with the validation errors.  The collection stays as it is.  Sent
    again at the time of the first request, it is refused with the
    409. *)
Theorem repeated_registration_conflicts
  (rt : Joi.Runtime) (now later : JsDate.Date) (id id' : Model.ObjectId) (body : JValue)
  (db db' : Model.Collection) (r : ErrorHandler.Response) :
  Routes.postCustomer rt now id body db = (Routes.Handled (ErrorHandler.Sent r), db') ->
  Routes.postCustomer rt later id' body db'
  = match Validator.validateRequest rt later Validator.createCustomerSchema body with
    | Validator.Reply code message errors => (Routes.Invalid code message errors, db')
    | Validator.Next _ => (Routes.Handled (ErrorHandler.Failed emailTaken), db')
    end
  /\ Routes.postCustomer rt now id' body db'
     = (Routes.Handled (ErrorHandler.Failed emailTaken), db').
Proof.
  intros H.
  destruct (postCustomer_sent rt now id body db r db' H)
    as (data & em & nid & V & He & Hn & F & I & Ie & In' & -> & ->).
  assert (F' : firstMatch em nid (db ++ [Model.newCustomer id now data])
               = Some (Model.newCustomer id now data)).
  { unfold firstMatch, Model.findOne in *. rewrite find_app_none by exact F.
    cbn [find]. rewrite Ie, String.eqb_refl. reflexivity. }
  assert (G : forall clock,
             Routes.postCustomer rt clock id' body (db ++ [Model.newCustomer id now data])
             = match Validator.validateRequest rt clock Validator.createCustomerSchema body with
               | Validator.Reply code message errors =>
                   (Routes.Invalid code message errors,
                    db ++ [Model.newCustomer id now data])
               | Validator.Next _ =>
                   (Routes.Handled (ErrorHandler.Failed emailTaken),
                    db ++ [Model.newCustomer id now data])
               end).
  { intros clock. unfold Routes.postCustomer, Routes.guard, Routes.handled.
    destruct (Validator.validateRequest rt clock Validator.createCustomerSchema body)
      as [code message errors | validated] eqn:V2; [reflexivity |].
    destruct (validated_registration_keys rt now body _ V)
      as (o & data1 & rawEmail & rawId & -> & [= <-] & Pe & Pn & De & Dn).
    destruct (validated_registration_keys rt clock (JObj o) _ V2)
      as (o2 & data2 & rawEmail2 & rawId2 & [= <-] & -> & Pe2 & Pn2 & De2 & Dn2).
    assert (rawEmail2 = rawEmail) as -> by congruence.
    assert (rawId2 = rawId) as -> by congruence.
    assert (He2 : prop "email" data2 = Some (JStr em)) by congruence.
    assert (Hn2 : prop "nationalId" data2 = Some (JStr nid)) by congruence.
    rewrite (createCustomer_conflict id' clock data2 _ em nid _ He2 Hn2 F').
    rewrite Ie, String.eqb_refl. reflexivity. }
  split; [apply G |].
  rewrite G, V. reflexivity.
Qed.

Lemma repeated_registration_conflicts_witness :
  Routes.postCustomer sampleRuntime (JsDate.mkDate 2027 10 3 43200000) "c2"
    (sampleRegistration "ANA@X.COM" "12345678" "1990-01-01")
    [sampleCustomer "c1" "ana@x.com" "12345678" sampleNow]
  = (Routes.Handled (ErrorHandler.Failed emailTaken),
     [sampleCustomer "c1" "ana@x.com" "12345678" sampleNow])
  /\ exists errors,
       Routes.postCustomer sampleRuntime (JsDate.mkDate 2027 10 3 43200000) "c2"
         (sampleRegistration "EVA@X.COM" "87654321" "1906-01-01")
         [Model.newCustomer "c1" sampleNow
            (validatedBody Validator.createCustomerSchema
               (sampleRegistration "EVA@X.COM" "87654321" "1906-01-01"))]
       = (Routes.Invalid 400 "Validation error" errors,
          [Model.newCustomer "c1" sampleNow
             (validatedBody Validator.createCustomerSchema
                (sampleRegistration "EVA@X.COM" "87654321" "1906-01-01"))]).
Proof.
  split.
  - refine (eq_trans
              (proj1 (repeated_registration_conflicts sampleRuntime sampleNow
                        (JsDate.mkDate 2027 10 3 43200000) "c1" "c2"
                        (sampleRegistration "ANA@X.COM" "12345678" "1990-01-01") []
                        [sampleCustomer "c1" "ana@x.com" "12345678" sampleNow]
                        (ErrorHandler.sendSuccess sampleNow
                           (ErrorHandler.OneCustomer
                              (sampleCustomer "c1" "ana@x.com" "12345678" sampleNow))
                           "Customer created successfully" 201) _)) _);
      vm_compute; reflexivity.
  - eexists.
    refine (eq_trans
              (proj1 (repeated_registration_conflicts sampleRuntime sampleNow
                        (JsDate.mkDate 2027 10 3 43200000) "c1" "c2"
                        (sampleRegistration "EVA@X.COM" "87654321" "1906-01-01") []
                        [Model.newCustomer "c1" sampleNow
                           (validatedBody Validator.createCustomerSchema
                              (sampleRegistration "EVA@X.COM" "87654321" "1906-01-01"))]
                        (ErrorHandler.sendSuccess sampleNow
                           (ErrorHandler.OneCustomer
                              (Model.newCustomer "c1" sampleNow
                                 (validatedBody Validator.createCustomerSchema
                                    (sampleRegistration "EVA@X.COM" "87654321"
                                       "1906-01-01"))))
                           "Customer created successfully" 201) _)) _);
      vm_compute; reflexivity.
Defined.

(** X8. The identity document check of the [pre('save')] hook never
    stops a save: the validators, which run first, have rejected a
    customer without national identifier already.  Neither [save] nor
    [createCustomer] ends in the plain error of the hook. *)
Theorem identity_document_check_never_fails
  (today : JsDate.Date) (c : Model.Customer) (id : Model.ObjectId) (data : JObject)
  (db : Model.Collection) (message : string) :
  Model.save today c db <> inl (Model.PlainError message)
  /\ fst (CustomerController.createCustomer id today data db)
     <> ErrorHandler.Failed (Model.PlainError message).
Proof.
  assert (S : forall c', Model.save today c' db <> inl (Model.PlainError message)).
  { intros c'. unfold Model.save.
    destruct (Model.invalidPaths today c') eqn:I; [| discriminate].
    rewrite (invalidPaths_nationalId today c' I). cbn [negb andb].
    destruct (existsb _ db); [discriminate |].
    destruct (existsb _ db); discriminate. }
  split; [apply S |].
  unfold CustomerController.createCustomer.
  destruct (Model.findOne _ db) as [e |].
  - destruct (CustomerController.sameText (Model.email e) (prop "email" data));
      [discriminate |].
    destruct (CustomerController.sameText (Model.nationalId e) (prop "nationalId" data));
      [discriminate |].
    cbv zeta. specialize (S (Model.newCustomer id today data)).
    destruct (Model.save today (Model.newCustomer id today data) db) as [err | db'];
      cbn [fst]; [congruence | discriminate].
  - cbv zeta. specialize (S (Model.newCustomer id today data)).
    destruct (Model.save today (Model.newCustomer id today data) db) as [err | db'];
      cbn [fst]; [congruence | discriminate].
Qed.

(** A label of the last group of the email pattern: [\w{2,3}]. *)
Lemma label_shape (l : string) :
  matches (Regex.between 2 3 (Regex.Chr [Regex.Word])) l ->
  ((2 <=? String.length l)%nat && (String.length l <=? 3)%nat
   && forallb JsString.isWord (list_ascii_of_string l))%bool = true.
Proof.
  intros H. apply andb_true_iff.
  unfold Regex.between in H. cbn in H.
  inversion H as [| | a b s t H1 H2 | | | |]; subst; clear H.
  inversion H1 as [| | a b s1 t1 H3 H4 | | | |]; subst; clear H1.
  inversion H3 as [| k c E | | | | |]; subst; clear H3.
  inversion H4 as [| | a b s2 t2 H5 H6 | | | |]; subst; clear H4.
  inversion H5 as [| k c' E' | | | | |]; subst; clear H5.
  inversion H6; subst; clear H6.
  cbn in E, E'. rewrite orb_false_r in E, E'.
  inversion H2 as [| | | a b s3 H7 | a b s3 H7 | |]; subst; clear H2.
  - inversion H7; subst. cbn. now rewrite E, E'.
  - inversion H7 as [| | a b s4 t4 H8 H9 | | | |]; subst; clear H7.
    inversion H8 as [| k c'' E'' | | | | |]; subst; clear H8.
    inversion H9; subst; clear H9.
    cbn in E''. rewrite orb_false_r in E''.
    cbn. now rewrite E, E', E''.
Qed.

Lemma lastLabel_words (l : string) :
  forallb JsString.isWord (list_ascii_of_string l) = true -> lastLabel l = None.
Proof.
  induction l as [| c l IH]; cbn; [reflexivity |].
  intros H. apply andb_true_iff in H. destruct H as [W H].
  rewrite (IH H).
  destruct (Ascii.eqb_spec c "."); [subst; discriminate | reflexivity].
Qed.

Lemma lastLabel_after (before l : string) :
  forallb JsString.isWord (list_ascii_of_string l) = true ->
  lastLabel (before ++ String "." l) = Some l.
Proof.
  intros H. induction before as [| c b IH]; cbn.
  - now rewrite (lastLabel_words l H).
  - now rewrite IH.
Qed.

(** A text of the last part of the email pattern, [(\.\w{2,3})+], ends
    in a short label. *)
Lemma groups_shape (r : Regex.re) (u : string) :
  matches r u ->
  r = Regex.Star (Regex.Seq (Regex.Chr [Regex.Lit "."])
                    (Regex.between 2 3 (Regex.Chr [Regex.Word]))) ->
  u = "" \/ exists before l,
              u = (before ++ String "." l)%string
              /\ ((2 <=? String.length l)%nat && (String.length l <=? 3)%nat
                  && forallb JsString.isWord (list_ascii_of_string l))%bool = true.
Proof.
  induction 1 as [| | | | | | a s t H1 _ H2 IH2]; intros E; try discriminate.
  - now left.
  - injection E as ->. right.
    inversion H1 as [| | a b s1 t1 H3 H4 | | | |]; subst; clear H1.
    inversion H3 as [| k c Ec | | | | |]; subst; clear H3.
    cbn in Ec. rewrite orb_false_r in Ec. apply Ascii.eqb_eq in Ec. subst c.
    destruct (IH2 eq_refl) as [-> | (before & l & -> & L)].
    + exists "", t1. split; [now rewrite append_nil_r | now apply label_shape].
    + exists (String "." t1 ++ before)%string, l. split; [| exact L].
      cbn. now rewrite append_assoc.
Qed.

Lemma emailMatch_shape (s : string) :
  matches Model.emailMatch s ->
  exists before l,
    s = (before ++ String "." l)%string
    /\ ((2 <=? String.length l)%nat && (String.length l <=? 3)%nat
        && forallb JsString.isWord (list_ascii_of_string l))%bool = true.
Proof.
  intros H. unfold Model.emailMatch in H. cbv zeta in H.
  inversion H as [| | a b s1 t1 _ H1 | | | |]; subst; clear H.
  inversion H1 as [| | a b s2 t2 _ H2 | | | |]; subst; clear H1.
  inversion H2 as [| | a b s3 t3 _ H3 | | | |]; subst; clear H2.
  inversion H3 as [| | a b s4 t4 _ H4 | | | |]; subst; clear H3.
  inversion H4 as [| | a b s5 t5 _ H5 | | | |]; subst; clear H4.
  unfold Regex.plus in H5.
  inversion H5 as [| | a b g u G U | | | |]; subst; clear H5.
  assert (T : exists before l,
             (g ++ u)%string = (before ++ String "." l)%string
             /\ ((2 <=? String.length l)%nat && (String.length l <=? 3)%nat
                 && forallb JsString.isWord (list_ascii_of_string l))%bool = true).
  { inversion G as [| | a b d l0 D L0 | | | |]; subst; clear G.
    inversion D as [| k c Ec | | | | |]; subst; clear D.
    cbn in Ec. rewrite orb_false_r in Ec. apply Ascii.eqb_eq in Ec. subst c.
    destruct (groups_shape _ u U eq_refl) as [-> | (before & l & -> & L)].
    - exists "", l0. split; [now rewrite append_nil_r | now apply label_shape].
    - exists (String "." l0 ++ before)%string, l. split; [| exact L].
      cbn. now rewrite append_assoc. }
  destruct T as (before & l & E & L).
  exists (s1 ++ s2 ++ s3 ++ s4 ++ s5 ++ before)%string, l. split; [| exact L].
  rewrite E. now rewrite !append_assoc.
Qed.

Lemma emailMatch_shortLastLabel (s : string) :
  Regex.test Model.emailMatch s = true -> shortLastLabel s = true.
Proof.
  intros H. apply test_matches, emailMatch_shape in H.
  destruct H as (before & l & -> & L).
  unfold shortLastLabel. rewrite lastLabel_after; [exact L |].
  apply andb_true_iff in L. now destruct L.
Qed.

(** X7. A registration that passed the create schema and whose email
    does not end in a full stop followed by two or three word
    characters (as ana@mail.info) fails the email validator of the
    model: nothing is stored and no success is answered. *)
Theorem emails_with_a_long_last_label_are_not_stored
  (rt : Joi.Runtime) (now : JsDate.Date) (id : Model.ObjectId) (body : JValue)
  (data : JObject) (em : string) (db : Model.Collection) :
  Validator.validateRequest rt now Validator.createCustomerSchema body
  = Validator.Next (Some (JObj data)) ->
  prop "email" data = Some (JStr em) ->
  shortLastLabel em = false ->
  Regex.test Model.emailMatch em = false
  /\ In "email" (Model.invalidPaths now (Model.newCustomer id now data))
  /\ snd (Routes.postCustomer rt now id body db) = db
  /\ forall r, fst (Routes.postCustomer rt now id body db)
               <> Routes.Handled (ErrorHandler.Sent r).
Proof.
  intros V He S.
  assert (T : Regex.test Model.emailMatch em = false).
  { destruct (Regex.test Model.emailMatch em) eqn:T; [| reflexivity].
    apply emailMatch_shortLastLabel in T. congruence. }
  destruct (invalidPaths_of_validated_registration rt now id body data V)
    as (em' & dob & He' & _ & G).
  assert (em' = em) by congruence. subst em'.
  assert (I : In "email" (Model.invalidPaths now (Model.newCustomer id now data))).
  { rewrite G. unfold secondGate. rewrite T. now left. }
  split; [exact T |]. split; [exact I |].
  assert (N : forall r db',
             Routes.postCustomer rt now id body db
             <> (Routes.Handled (ErrorHandler.Sent r), db')).
  { intros r db' H.
    destruct (postCustomer_sent rt now id body db r db' H)
      as (data' & _ & _ & V' & _ & _ & _ & I' & _).
    assert (data' = data) by congruence. subst data'.
    rewrite I' in I. destruct I. }
  split.
  - unfold Routes.postCustomer, Routes.guard, Routes.handled in *. rewrite V in *.
    cbn [snd]. unfold CustomerController.createCustomer in *.
    destruct (match Model.findOne _ db with Some _ => _ | None => _ end); [reflexivity |].
    destruct (Model.save now (Model.newCustomer id now data) db) as [err | db'] eqn:Sv;
      [reflexivity |].
    exfalso. exact (N _ _ eq_refl).
  - intros r H.
    apply (N r (snd (Routes.postCustomer rt now id body db))).
    rewrite <- H. now destruct (Routes.postCustomer rt now id body db).
Qed.

Lemma emails_with_a_long_last_label_are_not_stored_witness :
  Regex.test Model.emailMatch "ana@mail.info" = false
  /\ In "email"
       (Model.invalidPaths sampleNow
          (Model.newCustomer "c1" sampleNow
             (match Validator.validateRequest lenientRuntime sampleNow
                      Validator.createCustomerSchema
                      (sampleRegistration "ana@mail.info" "12345678" "1990-01-01") with
              | Validator.Next (Some (JObj data)) => data
              | _ => []
              end)))
  /\ snd (Routes.postCustomer lenientRuntime sampleNow "c1"
            (sampleRegistration "ana@mail.info" "12345678" "1990-01-01") sampleTwoOwners)
     = sampleTwoOwners
  /\ forall r, fst (Routes.postCustomer lenientRuntime sampleNow "c1"
                      (sampleRegistration "ana@mail.info" "12345678" "1990-01-01")
                      sampleTwoOwners)
               <> Routes.Handled (ErrorHandler.Sent r).
Proof.
  apply (emails_with_a_long_last_label_are_not_stored lenientRuntime sampleNow "c1"
           (sampleRegistration "ana@mail.info" "12345678" "1990-01-01") _
           "ana@mail.info" sampleTwoOwners).
  - vm_compute. reflexivity.
  - vm_compute. reflexivity.
  - vm_compute. reflexivity.
Defined.

(** ** Deactivation, unique keys, documents, updates *)

Lemma findByIdAndUpdate_map {B : Type} (h : Model.Customer -> B) id update db :
  (forall x, h (update x) = h x) ->
  map h (snd (Model.findByIdAndUpdate id update db)) = map h db.
Proof.
  intros Hh. induction db as [| c db IH]; [reflexivity |].
  cbn. destruct (String.eqb (Model._id c) id).
  - cbn. now rewrite Hh.
  - destruct (Model.findByIdAndUpdate id update db) as [r db'']. cbn in *. now rewrite IH.
Qed.

Lemma findByIdAndUpdate_count (f : Model.Customer -> bool) id update db :
  (forall x, f (update x) = f x) ->
  Model.countDocuments f (snd (Model.findByIdAndUpdate id update db))
  = Model.countDocuments f db.
Proof.
  intros Hf. unfold Model.countDocuments. f_equal.
  induction db as [| c db IH]; [reflexivity |].
  cbn. destruct (String.eqb (Model._id c) id).
  - cbn. rewrite Hf. destruct (f c); reflexivity.
  - destruct (Model.findByIdAndUpdate id update db) as [r db'']. cbn in *.
    destruct (f c); cbn; now rewrite IH.
Qed.

Lemma deleteCustomer_collection id now db :
  snd (CustomerController.deleteCustomer id now db)
  = snd (Model.findByIdAndUpdate id (Model.setStatus "inactive" now) db).
Proof.
  unfold CustomerController.deleteCustomer.
  destruct (Model.findById id db) as [c |] eqn:F.
  - destruct (findByIdAndUpdate_present id (Model.setStatus "inactive" now) db c
                ltac:(reflexivity) F) as (db' & E & _).
    now rewrite E.
  - now rewrite (findByIdAndUpdate_absent id _ db F).
Qed.

Lemma find_by_keys (q : string * string -> bool) (l : Model.Collection) :
  option_map uniqueKeysOf (find (fun c => q (uniqueKeysOf c)) l)
  = find q (map uniqueKeysOf l).
Proof.
  induction l as [| c l IH]; [reflexivity |].
  cbn. destruct (q (uniqueKeysOf c)); [reflexivity | exact IH].
Qed.

Lemma existsb_by_keys (q : string * string -> bool) (l : Model.Collection) :
  existsb (fun c => q (uniqueKeysOf c)) l = existsb q (map uniqueKeysOf l).
Proof.
  induction l as [| c l IH]; [reflexivity |]. cbn. now rewrite IH.
Qed.

(** The answer to a registration depends on the stored customers
    through their emails and national identifiers only. *)
Lemma createCustomer_by_keys id now data db1 db2 :
  map uniqueKeysOf db1 = map uniqueKeysOf db2 ->
  fst (CustomerController.createCustomer id now data db1)
  = fst (CustomerController.createCustomer id now data db2).
Proof.
  intros K. unfold CustomerController.createCustomer.
  set (q := fun k : string * string =>
              (CustomerController.sameText (fst k) (prop "email" data)
               || CustomerController.sameText (snd k) (prop "nationalId" data))%bool).
  pose proof (find_by_keys q db1) as F1. pose proof (find_by_keys q db2) as F2.
  rewrite K in F1. rewrite <- F2 in F1. clear F2.
  unfold Model.findOne.
  change (fun c : Model.Customer =>
            (CustomerController.sameText (Model.email c) (prop "email" data)
             || CustomerController.sameText (Model.nationalId c) (prop "nationalId" data))%bool)
    with (fun c => q (uniqueKeysOf c)).
  assert (S : match Model.save now (Model.newCustomer id now data) db1 with
              | inl err => ErrorHandler.Failed err
              | inr _ =>
                  ErrorHandler.Sent
                    (ErrorHandler.sendSuccess now
                       (ErrorHandler.OneCustomer (Model.newCustomer id now data))
                       "Customer created successfully" 201)
              end
              = match Model.save now (Model.newCustomer id now data) db2 with
                | inl err => ErrorHandler.Failed err
                | inr _ =>
                    ErrorHandler.Sent
                      (ErrorHandler.sendSuccess now
                         (ErrorHandler.OneCustomer (Model.newCustomer id now data))
                         "Customer created successfully" 201)
                end).
  { unfold Model.save.
    destruct (Model.invalidPaths now (Model.newCustomer id now data)); [| reflexivity].
    destruct (negb (Model.nonEmpty (Model.nationalId (Model.newCustomer id now data)))
              && negb (Model.nonEmpty
                         (Model.orElse (Model.passportNumber (Model.newCustomer id now data))
                            "")))%bool; [reflexivity |].
    pose proof (existsb_by_keys
                  (fun k => String.eqb (fst k) (Model.email (Model.newCustomer id now data))))
      as X1.
    pose proof (existsb_by_keys
                  (fun k => String.eqb (snd k)
                              (Model.nationalId (Model.newCustomer id now data)))) as X2.
    cbn [fst snd uniqueKeysOf] in X1, X2.
    rewrite (X1 db1), (X1 db2), (X2 db1), (X2 db2), K.
    destruct (existsb _ (map uniqueKeysOf db2)); [reflexivity |].
    destruct (existsb _ (map uniqueKeysOf db2)); reflexivity. }
  destruct (find (fun c => q (uniqueKeysOf c)) db1) as [e1 |],
           (find (fun c => q (uniqueKeysOf c)) db2) as [e2 |]; try discriminate.
  - cbn in F1. injection F1 as Ee En. rewrite Ee, En.
    destruct (CustomerController.sameText (Model.email e2) (prop "email" data));
      [reflexivity |].
    destruct (CustomerController.sameText (Model.nationalId e2) (prop "nationalId" data));
      [reflexivity |].
    cbv zeta.
    destruct (Model.save now (Model.newCustomer id now data) db1),
             (Model.save now (Model.newCustomer id now data) db2); cbn [fst] in *;
      congruence.
  - cbv zeta.
    destruct (Model.save now (Model.newCustomer id now data) db1),
             (Model.save now (Model.newCustomer id now data) db2); cbn [fst] in *;
      congruence.
Qed.

Lemma searchFilter_setStatus regexMatch query s today c :
  prop "status" query = None ->
  CustomerController.searchFilter regexMatch query (Model.setStatus s today c)
  = CustomerController.searchFilter regexMatch query c.
Proof.
  intros H. unfold CustomerController.searchFilter. rewrite H. reflexivity.
Qed.

(** X11. [deleteCustomer] removes nothing: the emails and national
    identifiers on record are the same afterwards, every later
    registration gets the answer it would have got before (the email
    and the national identifier of a deactivated customer stay taken),
    and a search that does not filter by status counts the same
    customers. *)
Theorem deactivated_customers_stay_on_record
  (id : Model.ObjectId) (now : JsDate.Date) (db : Model.Collection) :
  let db1 := snd (CustomerController.deleteCustomer id now db) in
  map Model.email db1 = map Model.email db
  /\ map Model.nationalId db1 = map Model.nationalId db
  /\ (forall id' later data,
        fst (CustomerController.createCustomer id' later data db1)
        = fst (CustomerController.createCustomer id' later data db))
  /\ (forall rt id' later body,
        fst (Routes.postCustomer rt later id' body db1)
        = fst (Routes.postCustomer rt later id' body db))
  /\ (forall regexMatch query,
        prop "status" query = None ->
        Model.countDocuments (CustomerController.searchFilter regexMatch query) db1
        = Model.countDocuments (CustomerController.searchFilter regexMatch query) db).
Proof.
  cbv zeta. rewrite deleteCustomer_collection.
  assert (K : map uniqueKeysOf
                (snd (Model.findByIdAndUpdate id (Model.setStatus "inactive" now) db))
              = map uniqueKeysOf db)
    by (apply findByIdAndUpdate_map; reflexivity).
  split; [apply findByIdAndUpdate_map; reflexivity |].
  split; [apply findByIdAndUpdate_map; reflexivity |].
  split; [intros; now apply createCustomer_by_keys |].
  split.
  - intros rt id' later body. unfold Routes.postCustomer, Routes.guard, Routes.handled.
    destruct (Validator.validateRequest rt later Validator.createCustomerSchema body)
      as [? ? ? | [[| | | | | | data] |]]; try reflexivity.
    cbn [fst]. f_equal. now apply createCustomer_by_keys.
  - intros regexMatch query H. apply findByIdAndUpdate_count.
    intros x. now apply searchFilter_setStatus.
Qed.

Lemma invalidPaths_pushDocument today stamp d c :
  Model.documentValid d = true ->
  Model.invalidPaths today (Model.pushDocument d stamp c) = Model.invalidPaths today c.
Proof.
  intros V. unfold Model.invalidPaths, Model.pushDocument.
  cbn [Model.firstName Model.lastName Model.email Model.phone Model.dateOfBirth
       Model.nationalId Model.passportNumber Model.address Model.documents
       Model.preferences Model.status Model.complianceStatus].
  rewrite forallb_app. cbn [forallb]. rewrite V. cbn [andb].
  now rewrite andb_true_r.
Qed.

Lemma findByIdAndUpdate_found id (g : Model.Customer -> Model.Customer) db found :
  Model.findById id db = Some found ->
  Model.findByIdAndUpdate id (fun _ => g found) db = Model.findByIdAndUpdate id g db.
Proof.
  unfold Model.findById, Model.findOne.
  induction db as [| c db IH]; cbn; [discriminate |].
  destruct (String.eqb (Model._id c) id).
  - now intros [= ->].
  - intros H. now rewrite (IH H).
Qed.

Lemma findById_id id db c : Model.findById id db = Some c -> Model._id c = id.
Proof.
  intros H. apply find_some in H. destruct H as [_ H]. now apply String.eqb_eq in H.
Qed.

Lemma findByIdAndUpdate_others id update db c :
  In c db -> Model._id c <> id -> In c (snd (Model.findByIdAndUpdate id update db)).
Proof.
  intros I N. induction db as [| d db IH]; [destruct I |].
  cbn. destruct (String.eqb_spec (Model._id d) id) as [E | E].
  - cbn. destruct I as [-> | I]; [contradiction | now right].
  - destruct (Model.findByIdAndUpdate id update db) as [r db'']. cbn in *.
    destruct I as [-> | I]; [now left | right; now apply IH].
Qed.

Lemma document_data_accepted rt now body documentData :
  Validator.validateRequest rt now Validator.addKycDocumentSchema body
  = Validator.Next (Some (JObj documentData)) ->
  exists t fn,
    prop "type" documentData = Some (JStr t) /\ In t Validator.documentTypes
    /\ prop "filename" documentData = Some (JStr fn) /\ Model.nonEmpty fn = true.
Proof.
  intros H.
  set (children := Joi.childrenOf Validator.addKycDocumentSchema).
  apply (validateRequest_next rt now children Joi.flags0) in H;
    [| discriminate | reflexivity | reflexivity].
  destruct H as (o & -> & Hnil & Hv).
  assert (Hd : documentData = Joi.childValues (eachChild rt true now [] o children))
    by congruence.
  clear Hv.
  assert (Hnd : NoDup (map fst children)) by nodup_keys.
  pose proof (prop_childValues rt true now [] o children
                ("type", childSchema Validator.addKycDocumentSchema "type") Hnd
                ltac:(cbn; tauto)) as P.
  pose proof (childErrors_nil rt true now [] o children
                ("type", childSchema Validator.addKycDocumentSchema "type") Hnil
                ltac:(cbn; tauto)) as E.
  cbn [fst snd] in P, E. rewrite <- Hd in P.
  destruct (valid_accepted rt true now ([] ++ ["type"])
              (Joi.flagsOf (childSchema Validator.addKycDocumentSchema "type"))
              Validator.documentTypes (prop "type" o) eq_refl eq_refl
              ltac:(discriminate) E)
    as [(_ & Q & _) | (t & _ & I & Ft)]; [exfalso; apply Q; reflexivity |].
  pose proof (prop_childValues rt true now [] o children
                ("filename", childSchema Validator.addKycDocumentSchema "filename") Hnd
                ltac:(cbn; tauto)) as P'.
  pose proof (childErrors_nil rt true now [] o children
                ("filename", childSchema Validator.addKycDocumentSchema "filename") Hnil
                ltac:(cbn; tauto)) as E'.
  cbn [fst snd] in P', E'. rewrite <- Hd in P'.
  destruct (bounded_text rt true now ([] ++ ["filename"])
              (Joi.flagsOf (childSchema Validator.addKycDocumentSchema "filename"))
              1 255 (prop "filename" o) eq_refl eq_refl ltac:(discriminate) eq_refl E')
    as [(_ & Q & _) | (x & Fx & _ & Nx & _)]; [exfalso; apply Q; reflexivity |].
  exists t, x. split; [exact (eq_trans P Ft) |]. split; [exact I |].
  split; [exact (eq_trans P' Fx) | exact Nx].
Qed.

(** X13. A validated document body holds one of the six document types
    and a file name that is not empty.  [addKycDocument] answers 404
    for an unknown customer and changes nothing.  For a stored
    customer that passes the validators of the model it answers 200
    with the customer after the change: its documents are the stored
    ones followed by the new document, unverified and dated now, its
    [updatedAt] is now, and nothing else of it differs.  It stores this
    customer under the same id, leaves every other customer as it was,
    and schedules a compliance check exactly for the three identity
    document types. *)
Theorem document_is_appended
  (rt : Joi.Runtime) (now : JsDate.Date) (id : Model.ObjectId) (body : JValue)
  (documentData : JObject) (db : Model.Collection) :
  Validator.validateRequest rt now Validator.addKycDocumentSchema body
  = Validator.Next (Some (JObj documentData)) ->
  exists t fn,
    prop "type" documentData = Some (JStr t) /\ In t Validator.documentTypes
    /\ prop "filename" documentData = Some (JStr fn) /\ fn <> ""
    /\ (Model.findById id db = None ->
        CustomerController.addKycDocument id now documentData db
        = (ErrorHandler.Failed (Model.AppError "Customer not found" 404), db, None))
    /\ (forall found,
          Model.findById id db = Some found ->
          Model.invalidPaths now found = [] ->
          exists customer db',
            CustomerController.addKycDocument id now documentData db
            = (ErrorHandler.Sent
                 (ErrorHandler.sendSuccess now (ErrorHandler.OneCustomer customer)
                    "Document added successfully" 200),
               db',
               if existsb (String.eqb t) CustomerController.identityDocumentTypes
               then Some customer
               else None)
            /\ documentAdded (uploaded t fn now) now found customer
            /\ Model.findById id db' = Some customer
            /\ map Model._id db' = map Model._id db
            /\ (forall c, In c db -> Model._id c <> id -> In c db')).
Proof.
  intros H.
  destruct (document_data_accepted rt now body documentData H) as (t & fn & Pt & It & Pf & Nf).
  exists t, fn. split; [exact Pt |]. split; [exact It |]. split; [exact Pf |].
  split; [intros ->; discriminate |].
  split.
  - intros F. unfold CustomerController.addKycDocument. now rewrite F.
  - intros found F V.
    unfold CustomerController.addKycDocument. rewrite F.
    rewrite (getString_prop _ _ _ Pt), (getString_prop _ _ _ Pf), Pt.
    cbn [Model.orElse]. fold (uploaded t fn now).
    assert (D : Model.documentValid (uploaded t fn now) = true).
    { unfold Model.documentValid. cbn [uploaded Model.docType Model.filename].
      now rewrite (oneOf_In _ _ It), Nf. }
    unfold Model.saveLoaded.
    rewrite (invalidPaths_pushDocument now now _ found D), V.
    change (Model._id (Model.pushDocument (uploaded t fn now) now found))
      with (Model._id found).
    rewrite (findById_id id db found F).
    rewrite (findByIdAndUpdate_found id (Model.pushDocument (uploaded t fn now) now) db found F).
    destruct (findByIdAndUpdate_present id (Model.pushDocument (uploaded t fn now) now) db found
                ltac:(reflexivity) F) as (db' & E1 & E2 & E3).
    exists (Model.pushDocument (uploaded t fn now) now found), db'.
    rewrite E1. cbn [snd].
    split; [reflexivity |].
    split; [unfold documentAdded; cbn; repeat split |].
    split; [exact E2 |]. split; [exact E3 |].
    intros c I N.
    change db' with (snd (Some (Model.pushDocument (uploaded t fn now) now found), db')).
    rewrite <- E1. now apply findByIdAndUpdate_others.
Qed.

Lemma document_is_appended_witness :
  exists customer db',
    CustomerController.addKycDocument "c1" sampleNow
      (validatedBody Validator.addKycDocumentSchema
         (JObj [("type", JStr "passport"); ("filename", JStr " scan.pdf ")]))
      [sampleValidCustomer]
    = (ErrorHandler.Sent
         (ErrorHandler.sendSuccess sampleNow (ErrorHandler.OneCustomer customer)
            "Document added successfully" 200),
       db', Some customer)
    /\ documentAdded (uploaded "passport" "scan.pdf" sampleNow) sampleNow
         sampleValidCustomer customer
    /\ Model.findById "c1" db' = Some customer.
Proof.
  destruct (document_is_appended sampleRuntime sampleNow "c1"
              (JObj [("type", JStr "passport"); ("filename", JStr " scan.pdf ")])
              (validatedBody Validator.addKycDocumentSchema
                 (JObj [("type", JStr "passport"); ("filename", JStr " scan.pdf ")]))
              [sampleValidCustomer] eq_refl)
    as (t & fn & Pt & _ & Pf & _ & _ & H).
  assert (t = "passport") as -> by (vm_compute in Pt; congruence).
  assert (fn = "scan.pdf") as -> by (vm_compute in Pf; congruence).
  destruct (H sampleValidCustomer eq_refl eq_refl) as (customer & db' & E & A & F & _).
  exists customer, db'. split; [exact E |]. split; [exact A | exact F].
Defined.

Lemma NoDup_snoc {A : Type} (l : list A) (x : A) :
  NoDup l -> ~ In x l -> NoDup (l ++ [x]).
Proof.
  intros N I. apply (Permutation_NoDup (Permutation_cons_append l x)).
  now constructor.
Qed.

Lemma existsb_eqb_In (h : Model.Customer -> string) (x : string) (db : Model.Collection) :
  existsb (fun d => String.eqb (h d) x) db = false -> ~ In x (map h db).
Proof.
  induction db as [| d db IH]; cbn; [tauto |].
  intros E. apply orb_false_iff in E. destruct E as [E1 E2].
  intros [I | I]; [| now apply IH].
  rewrite I, String.eqb_refl in E1. discriminate.
Qed.

Lemma save_keeps_keys_unique today c db db' :
  uniqueKeys db -> Model.save today c db = inr db' -> uniqueKeys db'.
Proof.
  intros [U1 U2]. unfold Model.save.
  destruct (Model.invalidPaths today c); [| discriminate].
  destruct (negb (Model.nonEmpty (Model.nationalId c))
            && negb (Model.nonEmpty (Model.orElse (Model.passportNumber c) "")))%bool;
    [discriminate |].
  destruct (existsb (fun d => String.eqb (Model.email d) (Model.email c)) db) eqn:E1;
    [discriminate |].
  destruct (existsb (fun d => String.eqb (Model.nationalId d) (Model.nationalId c)) db) eqn:E2;
    [discriminate |].
  intros [= <-]. unfold uniqueKeys. rewrite !map_app. cbn [map].
  split; apply NoDup_snoc; try assumption; now apply existsb_eqb_In.
Qed.

(** X12. [createCustomer], [deleteCustomer] and [addKycDocument] keep
    the collection free of customers that share an email or a national
    identifier. *)
Theorem unique_keys_are_kept
  (id : Model.ObjectId) (now : JsDate.Date) (data : JObject) (db : Model.Collection) :
  uniqueKeys db ->
  uniqueKeys (snd (CustomerController.createCustomer id now data db))
  /\ uniqueKeys (snd (CustomerController.deleteCustomer id now db))
  /\ uniqueKeys (snd (fst (CustomerController.addKycDocument id now data db))).
Proof.
  intros U. split; [| split].
  - unfold CustomerController.createCustomer.
    destruct (match Model.findOne _ db with Some _ => _ | None => _ end); [exact U |].
    destruct (Model.save now (Model.newCustomer id now data) db) as [err | db'] eqn:S;
      [exact U |].
    cbn [snd]. exact (save_keeps_keys_unique now _ db db' U S).
  - rewrite deleteCustomer_collection. destruct U as [U1 U2]. unfold uniqueKeys.
    now rewrite !findByIdAndUpdate_map by reflexivity.
  - unfold CustomerController.addKycDocument.
    destruct (Model.findById id db) as [found |] eqn:F; [| exact U].
    unfold Model.saveLoaded.
    destruct (Model.invalidPaths now _); [| exact U].
    cbn [fst snd].
    match goal with
    | |- uniqueKeys (snd (Model.findByIdAndUpdate _ (fun _ => Model.pushDocument ?d now found) db)) =>
        change (Model._id (Model.pushDocument d now found)) with (Model._id found);
        rewrite (findById_id id db found F);
        rewrite (findByIdAndUpdate_found id (Model.pushDocument d now) db found F)
    end.
    destruct U as [U1 U2]. unfold uniqueKeys.
    now rewrite !findByIdAndUpdate_map by reflexivity.
Qed.

Lemma unique_keys_are_kept_witness :
  uniqueKeys (snd (CustomerController.createCustomer "c3" sampleNow
                     (validatedBody Validator.createCustomerSchema
                        (sampleRegistration "eva@x.com" "33333333" "1990-01-01"))
                     sampleTwoOwners))
  /\ uniqueKeys (snd (CustomerController.deleteCustomer "c3" sampleNow sampleTwoOwners))
  /\ uniqueKeys (snd (fst (CustomerController.addKycDocument "c3" sampleNow
                             (validatedBody Validator.createCustomerSchema
                                (sampleRegistration "eva@x.com" "33333333" "1990-01-01"))
                             sampleTwoOwners))).
Proof.
  apply (unique_keys_are_kept "c3" sampleNow
           (validatedBody Validator.createCustomerSchema
              (sampleRegistration "eva@x.com" "33333333" "1990-01-01"))
           sampleTwoOwners).
  split; cbn; repeat (constructor; [cbn; intuition discriminate |]); constructor.
Defined.

(** X14. [updateCustomer] refuses an update whose email is the email of
    another stored customer with 409 and leaves the collection alone.
    When no other customer has the email, the answer is that of the
    database update: its error, 404 when it found nobody, 200 with the
    updated customer otherwise. *)
Theorem update_refuses_a_taken_email
  (findByIdAndUpdateValidated :
     Model.ObjectId -> JObject -> JsDate.Date -> Model.Collection ->
     (Model.Error + option Model.Customer) * Model.Collection)
  (id : Model.ObjectId) (now : JsDate.Date) (updateData : JObject) (db : Model.Collection)
  (em : string) :
  prop "email" updateData = Some (JStr em) ->
  em <> "" ->
  ((exists c, In c db /\ Model.email c = em /\ Model._id c <> id) ->
   CustomerController.updateCustomer findByIdAndUpdateValidated id now updateData db
   = (ErrorHandler.Failed emailInUse, db))
  /\ ((forall c, In c db -> Model.email c = em -> Model._id c = id) ->
      CustomerController.updateCustomer findByIdAndUpdateValidated id now updateData db
      = match findByIdAndUpdateValidated id updateData now db with
        | (inl err, db') => (ErrorHandler.Failed err, db')
        | (inr None, db') =>
            (ErrorHandler.Failed (Model.AppError "Customer not found" 404), db')
        | (inr (Some customer), db') =>
            (ErrorHandler.Sent
               (ErrorHandler.sendSuccess now (ErrorHandler.OneCustomer customer)
                  "Customer updated successfully" 200), db')
        end).
Proof.
  intros He Ne.
  assert (T : truthy (Some (JStr em)) = true) by (destruct em; [contradiction | reflexivity]).
  unfold CustomerController.updateCustomer. rewrite He, T.
  cbn [CustomerController.sameText].
  split.
  - intros (c & I & E & N).
    destruct (find_first (fun c => (String.eqb (Model.email c) em
                                    && negb (String.eqb (Model._id c) id))%bool) db c I)
      as (y & F & _).
    + rewrite E, String.eqb_refl. cbn.
      destruct (String.eqb_spec (Model._id c) id); [contradiction | reflexivity].
    + unfold Model.findOne. rewrite F. reflexivity.
  - intros A. unfold Model.findOne. rewrite find_nothing; [reflexivity |].
    intros x I.
    destruct (String.eqb_spec (Model.email x) em) as [E | E]; [| reflexivity].
    rewrite (A x I E), String.eqb_refl. reflexivity.
Qed.

Lemma update_refuses_a_taken_email_witness :
  ((exists c, In c sampleTwoOwners /\ Model.email c = "ana@x.com" /\ Model._id c <> "c1") ->
   CustomerController.updateCustomer (fun _ _ _ db => (inr None, db)) "c1" sampleNow
     [("email", JStr "ana@x.com")] sampleTwoOwners
   = (ErrorHandler.Failed emailInUse, sampleTwoOwners))
  /\ ((forall c, In c sampleTwoOwners -> Model.email c = "ana@x.com" -> Model._id c = "c1") ->
      CustomerController.updateCustomer (fun _ _ _ db => (inr None, db)) "c1" sampleNow
        [("email", JStr "ana@x.com")] sampleTwoOwners
      = (ErrorHandler.Failed (Model.AppError "Customer not found" 404), sampleTwoOwners)).
Proof.
  apply (update_refuses_a_taken_email (fun _ _ _ db => (inr None, db)) "c1" sampleNow
           [("email", JStr "ana@x.com")] sampleTwoOwners "ana@x.com").
  - reflexivity.
  - discriminate.
Defined.

(** ** Result pages *)

Lemma firstn_plus {A : Type} (a b : nat) (l : list A) :
  firstn (a + b) l = firstn a l ++ firstn b (skipn a l).
Proof.
  revert l; induction a as [| a IH]; intros l; [reflexivity |].
  destruct l as [| x l]; cbn.
  - now destruct b.
  - now rewrite IH.
Qed.

Lemma concat_pages {A : Type} (k m : nat) (l : list A) :
  List.concat (map (fun i => firstn k (skipn (i * k) l)) (seq 0 m)) = firstn (m * k) l.
Proof.
  induction m as [| m IH]; [reflexivity |].
  rewrite seq_S, map_app, concat_app, IH. cbn [map List.concat plus].
  rewrite app_nil_r. replace (S m * k)%nat with (m * k + k)%nat by lia.
  now rewrite firstn_plus.
Qed.

Lemma allMatches_length filter db :
  Z.of_nat (List.length (allMatches filter db)) = Model.countDocuments filter db.
Proof.
  unfold allMatches, Model.countDocuments. f_equal.
  rewrite (Permutation_length (sortByCreatedAtDesc_perm _)). apply length_map.
Qed.

(** X15. For a limit of at least 1, the result pages 1 to totalPages
    of a search, one after the other, are exactly the matching
    customers in the order of the sort; a page holds the limit or what
    is left of the matches, whichever is less, and every page after
    totalPages is empty. *)
Theorem result_pages_partition_the_matches
  (filter : Model.Customer -> bool) (limit : Z) (db : Model.Collection) :
  1 <= limit ->
  let n := Model.countDocuments filter db in
  let pages := ErrorHandler.ceilDiv n limit in
  List.concat (map (fun page => pageItems filter page limit db) (pageNumbers pages))
  = allMatches filter db
  /\ (forall page,
        1 <= page ->
        Z.of_nat (List.length (pageItems filter page limit db))
        = Z.min limit (Z.max 0 (n - (page - 1) * limit)))
  /\ (forall page, pages < page -> pageItems filter page limit db = []).
Proof.
  intros L n pages.
  assert (N : n = Z.of_nat (List.length (allMatches filter db)))
    by (symmetry; apply allMatches_length).
  assert (C := ceilDiv_spec n limit ltac:(lia)). fold pages in C.
  assert (P0 : 0 <= pages) by nia.
  assert (Len : forall page,
             1 <= page ->
             Z.of_nat (List.length (pageItems filter page limit db))
             = Z.min limit (Z.max 0 (n - (page - 1) * limit))).
  { intros page Hp. unfold pageItems, CustomerController.findPage.
    fold (allMatches filter db).
    rewrite length_firstn, length_skipn. rewrite N.
    remember (List.length (allMatches filter db)) as len.
    assert (Z.to_nat ((page - 1) * limit) = (Z.to_nat (page - 1) * Z.to_nat limit)%nat)
      as -> by (apply Z2Nat.inj_mul; lia).
    nia. }
  split; [| split; [exact Len |]].
  - unfold pageNumbers. rewrite map_map.
    assert (E : forall i : nat,
               pageItems filter (Z.of_nat i + 1) limit db
               = firstn (Z.to_nat limit)
                   (skipn (i * Z.to_nat limit) (allMatches filter db))).
    { intros i. unfold pageItems, CustomerController.findPage. fold (allMatches filter db).
      f_equal. f_equal. replace (Z.of_nat i + 1 - 1) with (Z.of_nat i) by lia.
      rewrite Z2Nat.inj_mul by lia. now rewrite Nat2Z.id. }
    rewrite (map_ext _ _ E), concat_pages.
    apply firstn_all2. nia.
  - intros page Hp.
    specialize (Len page ltac:(lia)).
    destruct (pageItems filter page limit db) as [| x l]; [reflexivity |].
    cbn [List.length] in Len. exfalso. nia.
Qed.

Lemma result_pages_partition_the_matches_witness :
  List.concat (map (fun page => pageItems (fun _ => true) page 1 sampleTwoOwners)
            (pageNumbers (ErrorHandler.ceilDiv
                            (Model.countDocuments (fun _ => true) sampleTwoOwners) 1)))
  = allMatches (fun _ => true) sampleTwoOwners
  /\ (forall page,
        1 <= page ->
        Z.of_nat (List.length (pageItems (fun _ => true) page 1 sampleTwoOwners))
        = Z.min 1 (Z.max 0 (Model.countDocuments (fun _ => true) sampleTwoOwners
                            - (page - 1) * 1)))
  /\ (forall page,
        ErrorHandler.ceilDiv (Model.countDocuments (fun _ => true) sampleTwoOwners) 1 < page ->
        pageItems (fun _ => true) page 1 sampleTwoOwners = []).
Proof.
  apply (result_pages_partition_the_matches (fun _ => true) 1 sampleTwoOwners).
  lia.
Defined.

Lemma allMatches_In filter db c :
  In c (allMatches filter db)
  <-> exists stored, In stored db /\ filter stored = true
                     /\ c = Model.withoutDocuments stored.
Proof.
  unfold allMatches. split.
  - intros H. apply (Permutation_in _ (sortByCreatedAtDesc_perm _)) in H.
    apply in_map_iff in H. destruct H as (stored & <- & I).
    apply filter_In in I. destruct I as [I F]. now exists stored.
  - intros (stored & I & F & ->).
    apply (Permutation_in _ (Permutation_sym (sortByCreatedAtDesc_perm _))).
    apply in_map. apply filter_In. now split.
Qed.

Lemma In_firstn {A : Type} (n : nat) (l : list A) (x : A) : In x (firstn n l) -> In x l.
Proof.
  revert l; induction n as [| n IH]; intros [| y l]; cbn; try tauto.
  intros [-> | H]; [now left | right; now apply IH].
Qed.

Lemma In_skipn {A : Type} (n : nat) (l : list A) (x : A) : In x (skipn n l) -> In x l.
Proof.
  revert l; induction n as [| n IH]; intros [| y l]; cbn; try tauto.
  intros H. right. now apply IH.
Qed.

Lemma findPage_In filter skip limit db c :
  In c (CustomerController.findPage filter skip limit db) -> In c (allMatches filter db).
Proof.
  unfold CustomerController.findPage. fold (allMatches filter db).
  intros H. apply In_firstn in H. now apply In_skipn in H.
Qed.

Lemma validated_search_value rt now raw query (key : string) (vs : list string) :
  Validator.validateQuery rt now Validator.searchCustomerSchema raw
  = Validator.Next (Some (JObj query)) ->
  In (key, Joi.str |> Joi.valid vs |> Joi.optional)
    (Joi.childrenOf Validator.searchCustomerSchema) ->
  prop key query = None
  \/ exists t, prop key query = Some (JStr t) /\ In t vs.
Proof.
  intros H I.
  destruct raw as [| | | | | | o]; try (cbn in H; discriminate).
  destruct search_children as (_ & _ & _ & Hnd).
  apply (validateQuery_next rt now (Joi.childrenOf Validator.searchCustomerSchema)
           (Joi.flagsOf Validator.searchCustomerSchema)) in H;
    [| discriminate | reflexivity | reflexivity].
  destruct H as (Hnil & Hv).
  assert (Hq : query = Joi.childValues
                         (eachChild rt true now [] o
                            (Joi.childrenOf Validator.searchCustomerSchema)))
    by congruence.
  clear Hv.
  pose proof (prop_childValues rt true now [] o _ _ Hnd I) as P.
  pose proof (childErrors_nil rt true now [] o _ _ Hnil I) as E.
  cbn [fst snd] in P, E. rewrite <- Hq in P.
  destruct (valid_accepted rt true now ([] ++ [key])
              (Joi.flagsOf (Joi.str |> Joi.valid vs |> Joi.optional))
              vs (prop key o) eq_refl eq_refl ltac:(discriminate) E)
    as [(_ & _ & D) | (t & _ & It & Ft)].
  - left. exact (eq_trans P D).
  - right. exists t. split; [exact (eq_trans P Ft) | exact It].
Qed.

(** X16. In a validated search query a status (a compliance status) is
    one of the values the model lists, and every customer a search
    with it returns has this status (this compliance status).  Every
    item of every page is a stored customer that matches, without its
    documents. *)
Theorem search_by_status_lists_that_status
  (rt : Joi.Runtime) (regexMatch : string -> string -> bool) (now : JsDate.Date)
  (raw : JValue) (query : JObject) (db : Model.Collection) :
  Validator.validateQuery rt now Validator.searchCustomerSchema raw
  = Validator.Next (Some (JObj query)) ->
  (forall v, prop "status" query = Some v ->
     exists t,
       v = JStr t /\ In t Model.statusValues
       /\ forall c, In c (allMatches (CustomerController.searchFilter regexMatch query) db) ->
                    Model.status c = t)
  /\ (forall v, prop "complianceStatus" query = Some v ->
        exists t,
          v = JStr t /\ In t Model.complianceStatusValues
          /\ forall c, In c (allMatches (CustomerController.searchFilter regexMatch query) db) ->
                       Model.complianceStatus c = t)
  /\ (forall c skip limit,
        In c (CustomerController.findPage (CustomerController.searchFilter regexMatch query)
                skip limit db) ->
        In c (allMatches (CustomerController.searchFilter regexMatch query) db)
        /\ Model.documents c = []
        /\ exists stored, In stored db /\ c = Model.withoutDocuments stored).
Proof.
  intros H. split; [| split].
  - intros v Hv.
    destruct (validated_search_value rt now raw query "status" Model.statusValues H
                ltac:(cbn; tauto)) as [N | (t & E & I)]; [congruence |].
    exists t. split; [congruence |]. split; [exact I |].
    intros c Hc. apply allMatches_In in Hc. destruct Hc as (stored & _ & F & ->).
    unfold CustomerController.searchFilter in F. rewrite E in F.
    assert (T : truthy (Some (JStr t)) = true).
    { destruct t; [| reflexivity]. cbn in I. intuition discriminate. }
    rewrite T in F.
    apply andb_true_iff in F. destruct F as [F _].
    apply andb_true_iff in F. destruct F as [F _].
    apply andb_true_iff in F. destruct F as [_ F].
    now apply String.eqb_eq in F.
  - intros v Hv.
    destruct (validated_search_value rt now raw query "complianceStatus"
                Model.complianceStatusValues H ltac:(cbn; tauto)) as [N | (t & E & I)];
      [congruence |].
    exists t. split; [congruence |]. split; [exact I |].
    intros c Hc. apply allMatches_In in Hc. destruct Hc as (stored & _ & F & ->).
    unfold CustomerController.searchFilter in F. rewrite E in F.
    assert (T : truthy (Some (JStr t)) = true).
    { destruct t; [| reflexivity]. cbn in I. intuition discriminate. }
    rewrite T in F.
    apply andb_true_iff in F. destruct F as [F _].
    apply andb_true_iff in F. destruct F as [_ F].
    now apply String.eqb_eq in F.
  - intros c skip limit Hc. apply findPage_In in Hc. split; [exact Hc |].
    apply allMatches_In in Hc. destruct Hc as (stored & I & _ & ->).
    split; [reflexivity |]. now exists stored.
Qed.

Lemma search_by_status_lists_that_status_witness :
  (forall v, prop "status" (validatedQuery (JObj [("status", JStr "inactive")])) = Some v ->
     exists t,
       v = JStr t /\ In t Model.statusValues
       /\ forall c,
            In c (allMatches
                    (CustomerController.searchFilter (fun _ _ => true)
                       (validatedQuery (JObj [("status", JStr "inactive")])))
                    sampleTwoOwners) ->
            Model.status c = t)
  /\ (forall v,
        prop "complianceStatus" (validatedQuery (JObj [("status", JStr "inactive")])) = Some v ->
        exists t,
          v = JStr t /\ In t Model.complianceStatusValues
          /\ forall c,
               In c (allMatches
                       (CustomerController.searchFilter (fun _ _ => true)
                          (validatedQuery (JObj [("status", JStr "inactive")])))
                       sampleTwoOwners) ->
               Model.complianceStatus c = t)
  /\ (forall c skip limit,
        In c (CustomerController.findPage
                (CustomerController.searchFilter (fun _ _ => true)
                   (validatedQuery (JObj [("status", JStr "inactive")])))
                skip limit sampleTwoOwners) ->
        In c (allMatches
                (CustomerController.searchFilter (fun _ _ => true)
                   (validatedQuery (JObj [("status", JStr "inactive")])))
                sampleTwoOwners)
        /\ Model.documents c = []
        /\ exists stored, In stored sampleTwoOwners /\ c = Model.withoutDocuments stored).
Proof.
  apply (search_by_status_lists_that_status sampleRuntime (fun _ _ => true) sampleNow
           (JObj [("status", JStr "inactive")])).
  vm_compute. reflexivity.
Defined.

(** ** The collaborators *)

(** X19. The health endpoint answers 200 exactly when the database
    connection is in ready state 1 and MS2 and MS4 both answered their
    health request with status 200, and 503 otherwise.  Its body says
    healthy with 200 and degraded with 503, and reports a remote
    service as up exactly when its health request was answered with
    200. *)
Theorem health_endpoint_status
  (Uptime : Type) (readyState : Z) (seconds : Uptime) (now : JsDate.Date)
  (ms2Settled ms4Settled : ExternalServicesClient.Settled) :
  let answer :=
    CustomerController.getHealthStatus Uptime readyState seconds now ms2Settled ms4Settled in
  (fst answer = 200 <-> readyState = 1 /\ healthy200 ms2Settled /\ healthy200 ms4Settled)
  /\ (fst answer <> 200 -> fst answer = 503)
  /\ (fst answer = 200 -> CustomerController.status Uptime (snd answer) = "healthy")
  /\ (fst answer = 503 -> CustomerController.status Uptime (snd answer) = "degraded")
  /\ (CustomerController.ms2_accounts
        (CustomerController.services Uptime (snd answer)) = true
      <-> healthy200 ms2Settled)
  /\ (CustomerController.ms4_compliance
        (CustomerController.services Uptime (snd answer)) = true
      <-> healthy200 ms4Settled).
Proof.
  assert (H : forall s,
             match ExternalServicesClient.checkMS2Health s with
             | ExternalServicesClient.fulfilled v => v
             | ExternalServicesClient.rejected => false
             end = true <-> healthy200 s).
  { intros [r | e |]; cbn; split.
    - intros E. exists r. split; [reflexivity | now apply Z.eqb_eq].
    - intros (r' & [= <-] & E). now apply Z.eqb_eq.
    - discriminate.
    - intros (r' & E & _); discriminate.
    - discriminate.
    - intros (r' & E & _); discriminate. }
  assert (H4 : forall s,
             match ExternalServicesClient.checkMS4Health s with
             | ExternalServicesClient.fulfilled v => v
             | ExternalServicesClient.rejected => false
             end = true <-> healthy200 s).
  { intros s. rewrite <- H. destruct s; reflexivity. }
  cbv zeta. unfold CustomerController.getHealthStatus, ExternalServicesClient.getServicesHealth.
  cbn [fst snd CustomerController.status CustomerController.services
       CustomerController.ms2_accounts CustomerController.ms4_compliance
       ExternalServicesClient.overall ExternalServicesClient.ms2 ExternalServicesClient.ms4].
  rewrite <- (H ms2Settled), <- (H4 ms4Settled).
  destruct (match ExternalServicesClient.checkMS2Health ms2Settled with
            | ExternalServicesClient.fulfilled v => v
            | ExternalServicesClient.rejected => false
            end);
    destruct (match ExternalServicesClient.checkMS4Health ms4Settled with
              | ExternalServicesClient.fulfilled v => v
              | ExternalServicesClient.rejected => false
              end);
    destruct (readyState =? 1) eqn:R; cbn;
    (apply Z.eqb_eq in R || apply Z.eqb_neq in R);
    repeat split; intros; try tauto; try discriminate; try easy.
Qed.

(** X17. [getCustomerAccounts] answers 404 for an unknown customer.
    For a stored one it answers 200 with the identity of the customer
    and a list of accounts when MS2 gave a response or replied 404
    (accounts other than the empty list are the data of a well-formed
    response), and 503 in every other case. *)
Theorem accounts_endpoint_answers
  (id : Model.ObjectId) (now : JsDate.Date) (settled : ExternalServicesClient.Settled)
  (db : Model.Collection) :
  (Model.findById id db = None ->
   CustomerController.getCustomerAccounts id now settled db
   = ErrorHandler.Failed (Model.AppError "Customer not found" 404))
  /\ (forall customer,
        Model.findById id db = Some customer ->
        (accountsServed settled ->
         exists accounts,
           CustomerController.getCustomerAccounts id now settled db
           = ErrorHandler.Sent
               (ErrorHandler.sendSuccess now
                  (ErrorHandler.CustomerAccounts (Model._id customer)
                     (Model.firstName customer) (Model.lastName customer)
                     (Model.email customer) accounts)
                  ("Retrieved " ++ CustomerController.lengthText accounts
                   ++ " accounts for customer") 200)
           /\ truthy (Some accounts) = true
           /\ (forall r, settled = ExternalServicesClient.Fulfilled r ->
                 accounts <> JArr [] ->
                 ~ malformed r
                 /\ ExternalServicesClient.field "data" (ExternalServicesClient.data r)
                    = Some accounts))
        /\ (~ accountsServed settled ->
            exists message,
              CustomerController.getCustomerAccounts id now settled db
              = ErrorHandler.Failed (Model.AppError message 503))).
Proof.
  split.
  - intros E. unfold CustomerController.getCustomerAccounts. now rewrite E.
  - intros customer E. unfold CustomerController.getCustomerAccounts. rewrite E.
    split.
    + intros [[r ->] | (e & -> & A)].
      * unfold ExternalServicesClient.getCustomerAccounts, malformed.
        destruct (truthy (ExternalServicesClient.data r)
                  && truthy (ExternalServicesClient.field "success"
                               (ExternalServicesClient.data r)))%bool eqn:S.
        -- destruct (truthy (ExternalServicesClient.field "data"
                               (ExternalServicesClient.data r))) eqn:D.
           ++ destruct (ExternalServicesClient.field "data"
                          (ExternalServicesClient.data r)) as [accounts |] eqn:F;
                [| discriminate].
              exists accounts. split; [reflexivity |]. split; [exact D |].
              intros r' [= <-] _. rewrite S. split; [discriminate | exact F].
           ++ exists (JArr []). split; [reflexivity |]. split; [reflexivity |].
              intros r' _ N. now contradiction N.
        -- exists (JArr []). split; [reflexivity |]. split; [reflexivity |].
           intros r' _ N. now contradiction N.
      * exists (JArr []).
        unfold ExternalServicesClient.getCustomerAccounts.
        destruct A as [A1 A2].
        rewrite A1. unfold ExternalServicesClient.isStatus. rewrite A2. cbn.
        split; [reflexivity |]. split; [reflexivity |]. intros r' [=].
    + intros N.
      destruct settled as [r | e |].
      * exfalso. apply N. left. now exists r.
      * unfold ExternalServicesClient.getCustomerAccounts.
        destruct (ExternalServicesClient.isCode e "ECONNREFUSED") eqn:C;
          [eexists; reflexivity |].
        destruct (ExternalServicesClient.isStatus e 404) eqn:S.
        -- exfalso. apply N. right. exists e. split; [reflexivity |].
           split; [exact C |].
           unfold ExternalServicesClient.isStatus in S.
           destruct (ExternalServicesClient.statusOf e) as [z |]; [| discriminate].
           apply Z.eqb_eq in S. now subst.
        -- destruct (ExternalServicesClient.isStatus e 500); eexists; reflexivity.
      * eexists; reflexivity.
Qed.

(** What the callback makes of the answer of MS4 before it turns to
    the record. *)
Lemma complianceCheckSettled_outcomes (settled : ExternalServicesClient.Settled) :
  (forall result,
      CustomerController.complianceCheckSettled settled = CustomerController.Completed result
      <-> complianceResult settled result)
  /\ (forall message,
         CustomerController.complianceCheckSettled settled = CustomerController.Caught message
         <-> exists e,
               settled = ExternalServicesClient.RejectedAxios e
               /\ answered e 400
               /\ message = ("Compliance validation error: "
                             ++ remoteMessageOr "Invalid data" e)%string).
Proof.
  split.
  - intros result. unfold complianceResult, CustomerController.complianceCheckSettled,
      ExternalServicesClient.triggerComplianceCheck, malformed.
    destruct settled as [r | e |].
    + destruct (truthy (ExternalServicesClient.data r)
                && truthy (ExternalServicesClient.field "success"
                             (ExternalServicesClient.data r)))%bool eqn:S.
      * destruct (ExternalServicesClient.field "data" (ExternalServicesClient.data r))
          as [v |] eqn:F.
        -- destruct (truthy (Some v)) eqn:T.
           ++ split.
              ** intros [= <-]. exists r. rewrite S. repeat split; try easy.
              ** intros (r' & [= <-] & _ & F' & _). congruence.
           ++ split; [discriminate |].
              intros (r' & [= <-] & _ & F' & T'). congruence.
        -- cbn. split; [discriminate |].
           intros (r' & [= <-] & _ & F' & _). congruence.
      * cbn. split; [discriminate |].
        intros (r' & [= <-] & N & _). rewrite S in N. now contradiction N.
    + split.
      * destruct (ExternalServicesClient.isCode e "ECONNREFUSED"); [discriminate |].
        destruct (ExternalServicesClient.isStatus e 400); [discriminate |].
        destruct (match ExternalServicesClient.statusOf e with
                  | Some s => 500 <=? s | None => false end); discriminate.
      * intros (r' & E & _); discriminate.
    + split; [discriminate | intros (r' & E & _); discriminate].
  - intros message. unfold CustomerController.complianceCheckSettled,
      ExternalServicesClient.triggerComplianceCheck.
    destruct settled as [r | e |].
    + split.
      * destruct (truthy (ExternalServicesClient.data r)
                  && truthy (ExternalServicesClient.field "success"
                               (ExternalServicesClient.data r)))%bool.
        -- destruct (truthy (ExternalServicesClient.field "data" (ExternalServicesClient.data r)));
             [destruct (ExternalServicesClient.field "data" (ExternalServicesClient.data r)) |];
             discriminate.
        -- discriminate.
      * intros (e' & E & _); discriminate.
    + destruct (ExternalServicesClient.isCode e "ECONNREFUSED") eqn:C.
      * split; [discriminate |].
        intros (e' & [= <-] & [A _] & _). congruence.
      * destruct (ExternalServicesClient.isStatus e 400) eqn:S.
        -- split.
           ++ intros [= <-]. exists e. split; [reflexivity |]. split; [| reflexivity].
              split; [exact C |].
              unfold ExternalServicesClient.isStatus in S.
              destruct (ExternalServicesClient.statusOf e) as [z |]; [| discriminate].
              apply Z.eqb_eq in S. now subst.
           ++ intros (e' & [= <-] & _ & ->). reflexivity.
        -- split.
           ++ destruct (match ExternalServicesClient.statusOf e with
                        | Some s => 500 <=? s | None => false end); discriminate.
           ++ intros (e' & [= <-] & [_ A] & _).
              unfold ExternalServicesClient.isStatus in S. rewrite A in S. discriminate.
    + split; [discriminate | intros (e' & E & _); discriminate].
Qed.

Lemma triggerComplianceCheckAsync_steps update customer settled db :
  CustomerController.triggerComplianceCheckAsync update customer settled db
  = match CustomerController.complianceCheckSettled settled with
    | CustomerController.Completed result =>
        match update (Model._id customer) result db with
        | (Some message, db') => (CustomerController.Caught message, db')
        | (None, db') => (CustomerController.Completed result, db')
        end
    | logged => (logged, db)
    end.
Proof.
  unfold CustomerController.triggerComplianceCheckAsync,
    CustomerController.complianceCheckSettled.
  destruct (ExternalServicesClient.triggerComplianceCheck settled) as [[v |] | m];
    [destruct (truthy (Some v)) | destruct (truthy None) |]; reflexivity.
Qed.

(** X18. The callback of the compliance check turns to the record only
    when MS4 gave a well-formed response whose data is truthy: in every
    other case the collection stays as it is.  It completes with a
    result exactly when MS4 gave this result and the update of the
    record resolved.  It ends in its catch exactly when MS4 replied 400
    (with the validation error message of the client) or the update of
    the record was rejected (with the message of the rejection). *)
Theorem compliance_check_outcomes
  (findByIdAndUpdateCompliance :
     Model.ObjectId -> JValue -> Model.Collection -> option string * Model.Collection)
  (customer : Model.Customer) (settled : ExternalServicesClient.Settled)
  (db : Model.Collection) :
  let outcome :=
    CustomerController.triggerComplianceCheckAsync findByIdAndUpdateCompliance
      customer settled db in
  (forall result,
      fst outcome = CustomerController.Completed result
      <-> complianceResult settled result
          /\ fst (findByIdAndUpdateCompliance (Model._id customer) result db) = None)
  /\ (forall message,
         fst outcome = CustomerController.Caught message
         <-> (exists e,
                settled = ExternalServicesClient.RejectedAxios e
                /\ answered e 400
                /\ message = ("Compliance validation error: "
                              ++ remoteMessageOr "Invalid data" e)%string)
             \/ (exists result,
                   complianceResult settled result
                   /\ fst (findByIdAndUpdateCompliance (Model._id customer) result db)
                      = Some message))
  /\ (forall result,
         complianceResult settled result ->
         snd outcome = snd (findByIdAndUpdateCompliance (Model._id customer) result db))
  /\ ((forall result, ~ complianceResult settled result) -> snd outcome = db).
Proof.
  cbv zeta. rewrite triggerComplianceCheckAsync_steps.
  destruct (complianceCheckSettled_outcomes settled) as [C K].
  destruct (CustomerController.complianceCheckSettled settled) as [result0 | | message0] eqn:E.
  - pose proof (proj1 (C result0) eq_refl) as R0.
    assert (U : forall result, complianceResult settled result -> result = result0).
    { intros result R. apply C in R. congruence. }
    assert (N : forall e, settled <> ExternalServicesClient.RejectedAxios e).
    { intros e ->. destruct R0 as (r & D & _). discriminate D. }
    destruct (findByIdAndUpdateCompliance (Model._id customer) result0 db)
      as [[m |] db'] eqn:D; cbn [fst snd].
    + split.
      { intros result. split; [discriminate |].
        intros [R F]. rewrite (U _ R), D in F. discriminate F. }
      split.
      { intros message. split.
        - intros [= <-]. right. exists result0. split; [exact R0 |]. now rewrite D.
        - intros [(e & S & _) | (result & R & F)]; [now contradiction (N e) |].
          rewrite (U _ R), D in F. cbn in F. congruence. }
      split.
      { intros result R. now rewrite (U _ R), D. }
      intros A. now contradiction (A result0).
    + split.
      { intros result. split.
        - intros [= <-]. split; [exact R0 |]. now rewrite D.
        - intros [R _]. now rewrite (U _ R). }
      split.
      { intros message. split; [discriminate |].
        intros [(e & S & _) | (result & R & F)]; [now contradiction (N e) |].
        rewrite (U _ R), D in F. discriminate F. }
      split.
      { intros result R. now rewrite (U _ R), D. }
      intros A. now contradiction (A result0).
  - cbn [fst snd].
    assert (A : forall result, ~ complianceResult settled result).
    { intros result R. apply C in R. discriminate R. }
    split.
    { intros result. split; [discriminate |]. intros [R _]. now contradiction (A result). }
    split.
    { intros message. split; [discriminate |].
      intros [X | (result & R & _)]; [apply K in X; discriminate X |].
      now contradiction (A result). }
    split; [intros result R; now contradiction (A result) | reflexivity].
  - cbn [fst snd].
    assert (A : forall result, ~ complianceResult settled result).
    { intros result R. apply C in R. discriminate R. }
    split.
    { intros result. split; [discriminate |]. intros [R _]. now contradiction (A result). }
    split.
    { intros message. split.
      - intros [= <-]. left. now apply K.
      - intros [X | (result & R & _)]; [apply K in X; congruence |].
        now contradiction (A result). }
    split; [intros result R; now contradiction (A result) | reflexivity].
Qed.

(** ** The error handler *)

Lemma range_check (P : Z -> bool) (lo : Z) (n : nat) :
  forallb (fun i => P (lo + Z.of_nat i)) (seq 0 n) = true ->
  forall z, lo <= z < lo + Z.of_nat n -> P z = true.
Proof.
  intros H z Hz. rewrite forallb_forall in H.
  specialize (H (Z.to_nat (z - lo))).
  replace (lo + Z.of_nat (Z.to_nat (z - lo))) with z in H by lia.
  apply H, in_seq. lia.
Qed.

Lemma status_by_first_digit (code : Z) :
  100 <= code <= 999 ->
  String.prefix "4" (ExternalServicesClient.text (JNum code))
  = ((400 <=? code) && (code <=? 499))%bool.
Proof.
  intros H.
  apply Bool.eqb_prop.
  apply (range_check
           (fun z => Bool.eqb (String.prefix "4" (ExternalServicesClient.text (JNum z)))
                       ((400 <=? z) && (z <=? 499))%bool) 100 900);
    [vm_compute; reflexivity | lia].
Qed.

Lemma prop_assign_other (k k' : string) (v : JValue) (o : JObject) :
  k <> k' -> prop k (ErrorMiddleware.assign k' v o) = prop k o.
Proof.
  intros N. induction o as [| [k0 v0] o IH]; cbn.
  - destruct (String.eqb_spec k k'); [contradiction | reflexivity].
  - destruct (String.eqb_spec k' k0) as [-> | N0]; cbn.
    + destruct (String.eqb_spec k k0); [contradiction | reflexivity].
    + destruct (String.eqb_spec k k0); [reflexivity | exact IH].
Qed.

Lemma prop_assign_same (k : string) (v : JValue) (o : JObject) :
  prop k (ErrorMiddleware.assign k v o) = Some v.
Proof.
  induction o as [| [k0 v0] o IH]; cbn.
  - now rewrite String.eqb_refl.
  - destruct (String.eqb_spec k k0) as [-> | N0]; cbn.
    + now rewrite String.eqb_refl.
    + destruct (String.eqb_spec k k0); [contradiction | exact IH].
Qed.

Lemma get_spreadCopy (k : string) (err : ErrorMiddleware.CustomError) :
  k <> "statusCode" -> k <> "status" ->
  ErrorMiddleware.get k (spreadCopy err) = prop k (ErrorMiddleware.own err).
Proof.
  intros N1 N2. unfold ErrorMiddleware.get, spreadCopy. cbn.
  rewrite !prop_assign_other by assumption.
  now destruct (prop k (ErrorMiddleware.own err)).
Qed.

Lemma globalErrorHandler_outside_development nodeEnv err :
  nodeEnv <> Some "development" ->
  ErrorMiddleware.globalErrorHandler nodeEnv err
  = let error := spreadCopy err in
    let error :=
      if ErrorMiddleware.isText "name" error "CastError"
      then ErrorMiddleware.handleCastErrorDB error else error in
    let error :=
      if match ErrorMiddleware.get "code" error with Some (JNum 11000) => true | _ => false end
      then ErrorMiddleware.handleDuplicateFieldsDB error
      else error in
    match
      (if ErrorMiddleware.isText "name" error "ValidationError"
       then ErrorMiddleware.handleValidationErrorDB error
       else Some error)
    with
    | None => None
    | Some error =>
        let error :=
          if ErrorMiddleware.isText "name" error "JsonWebTokenError"
          then ErrorMiddleware.handleJWTError else error in
        let error :=
          if ErrorMiddleware.isText "name" error "TokenExpiredError"
          then ErrorMiddleware.handleJWTExpiredError else error in
        Some (ErrorMiddleware.sendErrorProd error)
    end.
Proof.
  intros N. unfold ErrorMiddleware.globalErrorHandler.
  destruct nodeEnv as [e |].
  - destruct (String.eqb_spec e "development") as [-> | _]; [now contradiction N |].
    reflexivity.
  - reflexivity.
Qed.

Lemma isText_spreadCopy_name err n :
  prop "name" (ErrorMiddleware.own err) <> Some (JStr n) ->
  ErrorMiddleware.isText "name" (spreadCopy err) n = false.
Proof.
  intros N. unfold ErrorMiddleware.isText.
  rewrite get_spreadCopy by discriminate.
  destruct (prop "name" (ErrorMiddleware.own err)) as [[| | | s | | |] |]; try reflexivity.
  destruct (String.eqb_spec s n) as [-> | _]; [now contradiction N | reflexivity].
Qed.

(** X21. Outside development, an error that is not operational, whose
    own properties hold none of the four names the handler knows and
    not the code 11000, is answered 500 with the message Something
    went wrong! and nothing of the error. *)
Theorem unexpected_errors_are_not_disclosed
  (nodeEnv : option string) (err : ErrorMiddleware.CustomError) :
  nodeEnv <> Some "development" ->
  unexpected err ->
  ErrorMiddleware.globalErrorHandler nodeEnv err = Some genericReply.
Proof.
  intros N (O & Names & C).
  rewrite globalErrorHandler_outside_development by exact N.
  cbv zeta.
  rewrite (isText_spreadCopy_name err "CastError") by (apply Names; cbn; tauto).
  rewrite (get_spreadCopy "code") by discriminate.
  assert (match prop "code" (ErrorMiddleware.own err) with
          | Some (JNum 11000) => true
          | _ => false
          end = false) as ->.
  { destruct (prop "code" (ErrorMiddleware.own err)) as [[| | n | | | |] |]; try reflexivity.
    destruct (Z.eq_dec n 11000) as [-> | Nn]; [now contradiction C |].
    destruct n as [| p | p]; try reflexivity.
    repeat (destruct p as [p | p |]; try reflexivity).
    now contradiction Nn. }
  rewrite (isText_spreadCopy_name err "ValidationError") by (apply Names; cbn; tauto).
  rewrite (isText_spreadCopy_name err "JsonWebTokenError") by (apply Names; cbn; tauto).
  rewrite (isText_spreadCopy_name err "TokenExpiredError") by (apply Names; cbn; tauto).
  unfold ErrorMiddleware.sendErrorProd.
  rewrite (get_spreadCopy "isOperational") by discriminate.
  rewrite O. reflexivity.
Qed.

Lemma unexpected_errors_are_not_disclosed_witness :
  ErrorMiddleware.globalErrorHandler (Some "production")
    (plainError "At least one identity document is required")
  = Some genericReply.
Proof.
  apply unexpected_errors_are_not_disclosed.
  - discriminate.
  - repeat split; cbn; discriminate.
Defined.

(** X20. An error built by [new AppError] with a status code of three
    digits is answered with this code, success false, the message it
    was built with, and the status fail for the codes 400 to 499 and
    error for the others; the error itself is part of the answer in
    development only. *)
Theorem app_errors_are_answered_as_built
  (nodeEnv : option string) (message : string) (code : Z) :
  100 <= code <= 999 ->
  exists reply,
    ErrorMiddleware.globalErrorHandler nodeEnv (ErrorMiddleware.newAppError message code)
    = Some reply
    /\ ErrorMiddleware.statusCode reply = JNum code
    /\ ErrorMiddleware.success reply = false
    /\ ErrorMiddleware.status reply
       = Some (JStr (if (400 <=? code) && (code <=? 499) then "fail" else "error"))
    /\ ErrorMiddleware.replyMessage reply = message
    /\ (nodeEnv <> Some "development" -> ErrorMiddleware.error reply = None)
    /\ (nodeEnv = Some "development" ->
        ErrorMiddleware.error reply = Some (ErrorMiddleware.newAppError message code)).
Proof.
  intros H.
  unfold ErrorMiddleware.globalErrorHandler, ErrorMiddleware.newAppError.
  rewrite (status_by_first_digit code H).
  remember ((400 <=? code) && (code <=? 499))%bool as b eqn:Eb. clear Eb.
  destruct code as [| p | p]; try lia.
  destruct nodeEnv as [e |]; [destruct (String.eqb_spec e "development") as [-> | N] |].
  - eexists. split; [reflexivity |].
    destruct b; cbn; repeat split; try reflexivity; intros N; now contradiction N.
  - eexists. split; [reflexivity |].
    destruct b; cbn; repeat split; try reflexivity;
      intros [= ->]; now contradiction N.
  - eexists. split; [reflexivity |].
    destruct b; cbn; repeat split; try reflexivity; discriminate.
Qed.

Lemma app_errors_are_answered_as_built_witness :
  exists reply,
    ErrorMiddleware.globalErrorHandler (Some "production")
      (ErrorMiddleware.notFoundHandler "/api/customer")
    = Some reply
    /\ ErrorMiddleware.statusCode reply = JNum 404
    /\ ErrorMiddleware.success reply = false
    /\ ErrorMiddleware.status reply = Some (JStr "fail")
    /\ ErrorMiddleware.replyMessage reply = "Can't find /api/customer on this server!"
    /\ (Some "production" <> Some "development" -> ErrorMiddleware.error reply = None)
    /\ (Some "production" = Some "development" ->
        ErrorMiddleware.error reply
        = Some (ErrorMiddleware.newAppError "Can't find /api/customer on this server!" 404)).
Proof.
  apply (app_errors_are_answered_as_built (Some "production")
           "Can't find /api/customer on this server!" 404).
  lia.
Defined.

(** X22. Outside development, a duplicate key error of the database
    driver (code 11000, the offending key first in keyValue) is
    answered 409 with the status fail and without the error; for the
    keys email and nationalId the message names the duplicate
    value. *)
Theorem duplicate_keys_are_answered_409
  (nodeEnv : option string) (err : ErrorMiddleware.CustomError)
  (field : string) (value : JValue) :
  nodeEnv <> Some "development" ->
  duplicateKeyError err field value ->
  exists reply,
    ErrorMiddleware.globalErrorHandler nodeEnv err = Some reply
    /\ ErrorMiddleware.statusCode reply = JNum 409
    /\ ErrorMiddleware.success reply = false
    /\ ErrorMiddleware.status reply = Some (JStr "fail")
    /\ ErrorMiddleware.error reply = None
    /\ (field = "email" ->
        ErrorMiddleware.replyMessage reply
        = ("Email address '" ++ ExternalServicesClient.text value
           ++ "' is already registered. Please use a different email.")%string)
    /\ (field = "nationalId" ->
        ErrorMiddleware.replyMessage reply
        = ("National ID '" ++ ExternalServicesClient.text value
           ++ "' is already registered. Please verify your identity document.")%string).
Proof.
  intros N (C & Name & rest & K).
  rewrite globalErrorHandler_outside_development by exact N.
  cbv zeta.
  rewrite (isText_spreadCopy_name err "CastError") by exact Name.
  rewrite (get_spreadCopy "code") by discriminate.
  rewrite C.
  unfold ErrorMiddleware.handleDuplicateFieldsDB.
  rewrite (get_spreadCopy "keyValue") by discriminate.
  rewrite K.
  cbn -[String.append ExternalServicesClient.text String.eqb].
  eexists. split; [reflexivity |].
  cbn -[String.append ExternalServicesClient.text String.eqb].
  repeat split.
  - intros ->. reflexivity.
  - intros ->. reflexivity.
Qed.

Lemma duplicate_keys_are_answered_409_witness :
  exists reply,
    ErrorMiddleware.globalErrorHandler None sampleDuplicateEmail = Some reply
    /\ ErrorMiddleware.statusCode reply = JNum 409
    /\ ErrorMiddleware.success reply = false
    /\ ErrorMiddleware.status reply = Some (JStr "fail")
    /\ ErrorMiddleware.error reply = None
    /\ ("email" = "email" ->
        ErrorMiddleware.replyMessage reply
        = ("Email address '" ++ ExternalServicesClient.text (JStr "ana@x.com")
           ++ "' is already registered. Please use a different email.")%string)
    /\ ("email" = "nationalId" ->
        ErrorMiddleware.replyMessage reply
        = ("National ID '" ++ ExternalServicesClient.text (JStr "ana@x.com")
           ++ "' is already registered. Please verify your identity document.")%string).
Proof.
  apply (duplicate_keys_are_answered_409 None sampleDuplicateEmail "email"
           (JStr "ana@x.com")).
  - discriminate.
  - repeat split; try discriminate. now exists [].
Defined.

(** ** The content type check *)

Lemma prefix_spec (n h : string) :
  String.prefix n h = true <-> exists after, h = (n ++ after)%string.
Proof.
  revert h; induction n as [| c n IH]; intros h.
  - split; [intros _; now exists h | intros _; now destruct h].
  - destruct h as [| d h]; cbn.
    + split; [discriminate | intros (a & E); discriminate].
    + destruct (Ascii.ascii_dec c d) as [-> | N].
      * rewrite IH. split; intros (a & E); exists a; [now rewrite E | now injection E].
      * split; [discriminate | intros (a & E); injection E as E1 _; congruence].
Qed.

Lemma includes_spec (h n : string) :
  JsString.includes h n = true <-> occursIn n h.
Proof.
  unfold occursIn. induction h as [| c h IH]; cbn [JsString.includes].
  - rewrite orb_false_r, prefix_spec. split.
    + intros (a & E). now exists "", a.
    + intros (b & a & E). destruct b; [now exists a | discriminate].
  - rewrite orb_true_iff, prefix_spec, IH. split.
    + intros [(a & E) | (b & a & E)].
      * now exists "", a.
      * exists (String c b), a. cbn. now rewrite E.
    + intros (b & a & E). destruct b as [| d b].
      * left. now exists a.
      * right. injection E as _ E. now exists b, a.
Qed.

(** X23. [validateContentType] lets every request pass whose method is
    not POST, PUT or PATCH.  A request with one of these methods
    passes exactly when it has a content type header in which
    application/json occurs; otherwise it is answered 400,
    Content-Type must be application/json. *)
Theorem content_type_is_checked_for_bodies (method : string) (contentType : option string) :
  (~ In method bodyMethods -> Security.validateContentType method contentType = Security.Next)
  /\ (In method bodyMethods ->
      (Security.validateContentType method contentType = Security.Next
       <-> exists t, contentType = Some t /\ occursIn "application/json" t)
      /\ (Security.validateContentType method contentType <> Security.Next ->
          Security.validateContentType method contentType
          = Security.Rejected 400 "Content-Type must be application/json")).
Proof.
  unfold Security.validateContentType.
  assert (M : existsb (String.eqb method) ["POST"; "PUT"; "PATCH"] = true
              <-> In method bodyMethods).
  { rewrite existsb_exists. split.
    - intros (x & I & E). apply String.eqb_eq in E. now subst.
    - intros I. exists method. split; [exact I | apply String.eqb_refl]. }
  destruct (existsb (String.eqb method) ["POST"; "PUT"; "PATCH"]).
  - split; [intros N; exfalso; apply N, M; reflexivity |].
    intros _. destruct contentType as [t |]; cbn [negb].
    + destruct (JsString.includes t "application/json") eqn:I; cbn [negb].
      * split; [| intros N; now contradiction N].
        split; [intros _ | reflexivity].
        exists t. split; [reflexivity | now apply includes_spec].
      * split; [| reflexivity].
        split; [discriminate |].
        intros (t' & [= <-] & O). apply includes_spec in O. congruence.
    + split; [| reflexivity].
      split; [discriminate | intros (t' & E & _); discriminate].
  - split; [reflexivity |].
    intros I. apply M in I. discriminate.
Qed.
